(** * llm-agent: a shallow embedding of the orchestration pipeline

    The development follows the Python sources:
    - [modules/config.py]        the closed command enumeration;
    - [modules/llm.py]           [RateLimiter], [LLMConfig], [chat_prompt],
                                 [structured_output_prompt];
    - [modules/tools/*.py]       the four tools;
    - [modules/utils/location.py];
    - [modules/tools_manager.py] [ToolResponse], [ToolManager.execute_command];
    - [main.py]                  [LLMAgent.process_request].

    Conventions.
    - A Python [str] is a Rocq [string]; each character stands for one code
      point in the range U+0000..U+00FF.
    - Python values that come out of JSON documents are the inductive
      [pyval]; a [dict] with string keys is a [gmap string pyval].
    - Code that can raise returns a [result]; code that talks to the outside
      world runs in the monad [M], which threads the log of external calls.
      The answers of the outside world (HTTP bodies, failures, model replies)
      are Section variables that may depend on the whole log so far.
    - [asyncio.gather] over coroutines that never suspend (the tools use the
      blocking [requests] library) runs them to completion one after the
      other in argument order, which is how [gather_commands] runs them. *)

From Stdlib Require Import ZArith QArith String Ascii List Lia Lqa.
From stdpp Require Import base gmap strings list fin_maps pretty.

#[local] Set Warnings "-register-all".
#[local] Open Scope string_scope.

(** ** Python string methods *)

Module Str.

(** [str.isspace] on one character (code points below 256). *)
Definition isspace (c : ascii) : bool :=
  let n := nat_of_ascii c in
  (((9 <=? n) && (n <=? 13)) || ((28 <=? n) && (n <=? 32))
   || (n =? 133) || (n =? 160))%nat.

Definition is_empty (s : string) : bool :=
  match s with EmptyString => true | String _ _ => false end.

Fixpoint lstrip (s : string) : string :=
  match s with
  | EmptyString => EmptyString
  | String c s' => if isspace c then lstrip s' else s
  end.

Fixpoint rstrip (s : string) : string :=
  match s with
  | EmptyString => EmptyString
  | String c s' =>
      let r := rstrip s' in
      if is_empty r && isspace c then EmptyString else String c r
  end.

(** [s.strip()] *)
Definition strip (s : string) : string := rstrip (lstrip s).

(** [s.startswith(p)] *)
Fixpoint startswith (p s : string) : bool :=
  match p, s with
  | EmptyString, _ => true
  | String a p', String b s' => Ascii.eqb a b && startswith p' s'
  | String _ _, EmptyString => false
  end.

(** [s.endswith(p)] *)
Fixpoint endswith (p s : string) : bool :=
  String.eqb p s
  || match s with
     | EmptyString => false
     | String _ s' => endswith p s'
     end.

Fixpoint drop (n : nat) (s : string) : string :=
  match n, s with
  | O, _ => s
  | S n', String _ s' => drop n' s'
  | S _, EmptyString => EmptyString
  end.

(** [s[:n]] for [0 <= n] *)
Fixpoint take (n : nat) (s : string) : string :=
  match n, s with
  | S n', String c s' => String c (take n' s')
  | _, _ => EmptyString
  end.

(** [s.partition(sep)] when [sep] occurs: the text before and after the
    first occurrence; [None] when it does not occur. *)
Fixpoint partition (sep s : string) : option (string * string) :=
  if startswith sep s then Some (EmptyString, drop (String.length sep) s)
  else match s with
       | EmptyString => None
       | String c s' =>
           match partition sep s' with
           | Some (a, b) => Some (String c a, b)
           | None => None
           end
       end.

(** [s.rpartition(sep)]: the same around the last occurrence. *)
Fixpoint rpartition (sep s : string) : option (string * string) :=
  match s with
  | EmptyString =>
      if startswith sep s then Some (EmptyString, EmptyString) else None
  | String c s' =>
      match rpartition sep s' with
      | Some (a, b) => Some (String c a, b)
      | None =>
          if startswith sep s
          then Some (EmptyString, drop (String.length sep) s)
          else None
      end
  end.

(** [sub in s] *)
Definition contains (sub s : string) : bool :=
  match partition sub s with Some _ => true | None => false end.

Fixpoint split_fuel (fuel : nat) (sep s : string) : list string :=
  match fuel with
  | O => [s]
  | S fuel' =>
      match partition sep s with
      | None => [s]
      | Some (a, b) => a :: split_fuel fuel' sep b
      end
  end.

(** [s.split(sep)] for a non-empty [sep]: every cut consumes at least one
    character, so [length s] cuts are enough. *)
Definition split (sep s : string) : list string :=
  split_fuel (String.length s) sep s.

(** [s.rsplit(sep, 1)] *)
Definition rsplit1 (sep s : string) : list string :=
  match rpartition sep s with
  | Some (a, b) => [a; b]
  | None => [s]
  end.

(** [s.rfind(sub)]: index of the last occurrence, [-1] when there is none. *)
Definition rfind (sub s : string) : Z :=
  match rpartition sub s with
  | Some (a, _) => Z.of_nat (String.length a)
  | None => (-1)%Z
  end.

Fixpoint replace_fuel (fuel : nat) (old new s : string) : string :=
  match fuel with
  | O => s
  | S fuel' =>
      match partition old s with
      | None => s
      | Some (a, b) => a ++ new ++ replace_fuel fuel' old new b
      end
  end.

(** [s.replace(old, new)] for a non-empty [old] *)
Definition replace (old new s : string) : string :=
  replace_fuel (String.length s) old new s.

(** [sep.join(l)] *)
Fixpoint join (sep : string) (l : list string) : string :=
  match l with
  | [] => EmptyString
  | [x] => x
  | x :: l' => x ++ sep ++ join sep l'
  end.

End Str.

(** ** Python values, exceptions and results *)

(** Values as [json] decodes them.  A float is kept as its IEEE-754
    binary64 bit pattern; nothing below computes with floats. *)
Inductive pyval :=
  | PNone
  | PBool (b : bool)
  | PInt (n : Z)
  | PFloat (bits : Z)
  | PStr (s : string)
  | PList (l : list pyval)
  | PDict (d : gmap string pyval).

(** The exception classes the sources name or can meet, and [issubclass]. *)
Inductive exn_class :=
  | Exception
  | ValueError
  | JSONDecodeError        (* json.JSONDecodeError, a ValueError *)
  | ValidationError        (* pydantic.ValidationError, a ValueError *)
  | KeyError
  | UnknownTimeZoneError   (* pytz.exceptions.UnknownTimeZoneError, a KeyError *)
  | IndexError
  | TypeError
  | AttributeError
  | ZeroDivisionError
  | UnboundLocalError
  | RequestException       (* requests.exceptions.RequestException *)
  | Timeout.               (* requests.exceptions.Timeout, a RequestException *)

Definition exn_class_eqb (a b : exn_class) : bool :=
  match a, b with
  | Exception, Exception | ValueError, ValueError
  | JSONDecodeError, JSONDecodeError | ValidationError, ValidationError
  | KeyError, KeyError | UnknownTimeZoneError, UnknownTimeZoneError
  | IndexError, IndexError | TypeError, TypeError
  | AttributeError, AttributeError | ZeroDivisionError, ZeroDivisionError
  | UnboundLocalError, UnboundLocalError
  | RequestException, RequestException
  | Timeout, Timeout => true
  | _, _ => false
  end.

Definition issubclass (c base : exn_class) : bool :=
  exn_class_eqb c base
  || match base, c with
     | Exception, _ => true
     | ValueError, (JSONDecodeError | ValidationError) => true
     | KeyError, UnknownTimeZoneError => true
     | RequestException, Timeout => true
     | _, _ => false
     end.

(** An exception object: its class and [str(e)]. *)
Record exn := Exn { exn_cls : exn_class; exn_str : string }.

Inductive result (A : Type) :=
  | Ok (a : A)
  | Raise (e : exn).
Arguments Ok {A} a.
Arguments Raise {A} e.

Definition rbind {A B} (r : result A) (k : A -> result B) : result B :=
  match r with
  | Ok a => k a
  | Raise e => Raise e
  end.

Declare Scope result_scope.
Delimit Scope result_scope with result.
Notation "x <- r ;; k" := (rbind r (fun x => k))
  (at level 100, r at next level, right associativity) : result_scope.

Definition raise {A} (c : exn_class) (msg : string) : result A :=
  Raise (Exn c msg).

(** ** Dynamic operations on values *)

Module Py.

Definition type_name (v : pyval) : string :=
  match v with
  | PNone => "NoneType"
  | PBool _ => "bool"
  | PInt _ => "int"
  | PFloat _ => "float"
  | PStr _ => "str"
  | PList _ => "list"
  | PDict _ => "dict"
  end.

(** Truth value: [bool(v)].  The floats [0.0] and [-0.0] are false. *)
Definition truthy (v : pyval) : bool :=
  match v with
  | PNone => false
  | PBool b => b
  | PInt n => negb (n =? 0)%Z
  | PFloat bits => negb ((bits =? 0)%Z || (bits =? 2 ^ 63)%Z)
  | PStr s => negb (Str.is_empty s)
  | PList l => match l with [] => false | _ => true end
  | PDict d => negb (bool_decide (d = ∅))
  end.

Definition attribute_error {A} (v : pyval) (attr : string) : result A :=
  raise AttributeError
    ("'" ++ type_name v ++ "' object has no attribute '" ++ attr ++ "'").

(** [v.get(key, default)] *)
Definition get (v : pyval) (key : string) (dflt : pyval) : result pyval :=
  match v with
  | PDict d => Ok (default dflt (d !! key))
  | _ => attribute_error v "get"
  end.

(** [v[key]] for a string [key]; [str(KeyError(key))] is [repr(key)]. *)
Definition getitem (v : pyval) (key : string) : result pyval :=
  match v with
  | PDict d =>
      match d !! key with
      | Some x => Ok x
      | None => raise KeyError ("'" ++ key ++ "'")
      end
  | PList _ => raise TypeError "list indices must be integers or slices, not str"
  | PStr _ => raise TypeError "string indices must be integers, not 'str'"
  | _ => raise TypeError ("'" ++ type_name v ++ "' object is not subscriptable")
  end.

(** [v[0]] *)
Definition getitem0 (v : pyval) : result pyval :=
  match v with
  | PList (x :: _) => Ok x
  | PList [] => raise IndexError "list index out of range"
  | PStr (String c _) => Ok (PStr (String c EmptyString))
  | PStr EmptyString => raise IndexError "string index out of range"
  | PDict _ => raise KeyError "0"
  | _ => raise TypeError ("'" ++ type_name v ++ "' object is not subscriptable")
  end.

Definition is_str (key : string) (v : pyval) : bool :=
  match v with
  | PStr s => String.eqb s key
  | _ => false
  end.

(** [key in v] for a string [key] *)
Definition contains (key : string) (v : pyval) : result bool :=
  match v with
  | PDict d => Ok (bool_decide (is_Some (d !! key)))
  | PList l => Ok (existsb (is_str key) l)
  | PStr s => Ok (Str.contains key s)
  | _ => raise TypeError
           ("argument of type '" ++ type_name v ++ "' is not iterable")
  end.

Fixpoint chars (s : string) : list pyval :=
  match s with
  | EmptyString => []
  | String c s' => PStr (String c EmptyString) :: chars s'
  end.

(** The elements a [for] loop over [v] visits.  A [dict] yields its keys;
    Python visits them in insertion order, which a [gmap] does not keep:
    here they come in the order of [map_to_list]. *)
Definition iter (v : pyval) : result (list pyval) :=
  match v with
  | PList l => Ok l
  | PStr s => Ok (chars s)
  | PDict d => Ok (PStr <$> (map_to_list d).*1)
  | _ => raise TypeError ("'" ++ type_name v ++ "' object is not iterable")
  end.

End Py.

(** ** modules/llm.py: RateLimiter

    Time is a rational number of seconds.  The clock only moves forward:
    a [schedule] gives the non-negative amounts by which the event loop is
    late, and [asyncio.sleep(d)] returns no earlier than [d] seconds after
    it was called. *)

Module RateLimiter.

Record t := mk {
  requests_per_minute : Z;
  interval : Q;
  last_request_time : Q
}.

(** [RateLimiter.__init__]: [60.0 / requests_per_minute], kept as the
    exact quotient; the code holds its binary64 rounding, the same number
    whenever the quotient is a binary fraction, as for the rate 10. *)
Definition init (rpm : Z) : result t :=
  if (rpm =? 0)%Z then raise ZeroDivisionError "float division by zero"
  else Ok {| requests_per_minute := rpm;
             interval := (60 / inject_Z rpm)%Q;
             last_request_time := 0%Q |}.

Definition Qltb (a b : Q) : bool := negb (Qle_bool b a).

Record schedule := {
  oversleep : Q;     (* how much longer than asked [asyncio.sleep] lasted *)
  stamp_delay : Q;   (* time that passed before the final [time.time()] *)
  return_delay : Q   (* time that passed before the caller resumed *)
}.

Definition on_time (d : schedule) : Prop :=
  (0 <= oversleep d /\ 0 <= stamp_delay d /\ 0 <= return_delay d)%Q.

(** [RateLimiter.wait], entered when the clock shows [now]; returns the
    limiter with its new stamp and the time at which the call resolves. *)
Definition wait (d : schedule) (self : t) (now : Q) : t * Q :=
  let current_time := now in
  let time_since_last_request := (current_time - last_request_time self)%Q in
  let woke :=
    if Qltb time_since_last_request (interval self) then
      let wait_time := (interval self - time_since_last_request)%Q in
      (now + wait_time + oversleep d)%Q
    else now in
  let stamp := (woke + stamp_delay d)%Q in
  ({| requests_per_minute := requests_per_minute self;
      interval := interval self;
      last_request_time := stamp |},
   (stamp + return_delay d)%Q).

(** The module-level instance [rate_limiter = RateLimiter(10)]. *)
Definition rate_limiter : result t := init 10.

End RateLimiter.

(** ** modules/llm.py: LLMProvider and LLMConfig *)

Inductive LLMProvider := MISTRAL | OPENAI | ANTHROPIC | CUSTOM.

Module LLMConfig.

(** [LLMProvider(value)]; the message quotes the value between
    apostrophes, as [repr] does for a string without apostrophes or
    backslashes. *)
Definition provider_of_value (s : string) : result LLMProvider :=
  if String.eqb s "mistral" then Ok MISTRAL
  else if String.eqb s "openai" then Ok OPENAI
  else if String.eqb s "anthropic" then Ok ANTHROPIC
  else if String.eqb s "custom" then Ok CUSTOM
  else raise ValueError ("'" ++ s ++ "' is not a valid LLMProvider").

Record t := mk {
  provider : LLMProvider;
  api_url : option string;
  api_key : option string;
  model : option string
}.

(** [a or b] on optional strings: [None] and the empty string are false. *)
Definition or_else (a b : option string) : option string :=
  match a with
  | Some s => if Str.is_empty s then b else a
  | None => b
  end.

Definition falsy (a : option string) : bool :=
  match a with
  | Some s => Str.is_empty s
  | None => true
  end.

(** [LLMConfig.__init__(api_url, api_key, provider)] under the environment
    [environ] ([os.getenv]); [provider] is an enumeration member or the
    string naming one. *)
Definition init (environ : gmap string string)
    (api_url api_key : option string) (provider : LLMProvider + string)
  : result t :=
  (p <- match provider with
        | inl p => Ok p
        | inr s => provider_of_value s
        end ;;
   let url := or_else api_url (environ !! "LLM_API_URL") in
   let key := or_else api_key (environ !! "LLM_API_KEY") in
   let mdl := environ !! "LLM_MODEL" in
   if falsy key then
     raise ValueError
       "API key not provided and LLM_API_KEY not found in environment"
   else Ok {| provider := p; api_url := url; api_key := key; model := mdl |}
  )%result.

End LLMConfig.

(** ** The outside world *)

Inductive service := IpApi | OpenWeatherMap | GoogleSearch | NewsApi.

Inductive tool := SearchTool | NewsTool | WeatherTool | TimeTool.

(** The two [response_format] schemas [process_request] passes. *)
Inductive schema := PlanSchema | AnalysisSchema.

(** A prompt is kept as the data its f-string template interpolates. *)
Inductive prompt :=
  | PlanningPrompt (user_input : string)
  | DraftPrompt (user_input : string) (tool_responses : list pyval)
  | FinalPrompt (draft_answer suggestions : pyval)
                (additional_info : list pyval)
  | StructuredPrompt (response_format : schema) (inner : prompt).

(** One entry of the log of external calls. *)
Inductive Event :=
  | ModelRequest (config : LLMConfig.t) (system_prompt : option string)
                 (user_prompt : prompt) (temperature : Q)
                 (max_tokens : option Z)
  | HttpGet (svc : service) (query : pyval)
  | ToolCall (t : tool) (arg : pyval).

Definition is_tool_call (e : Event) : bool :=
  match e with ToolCall _ _ => true | _ => false end.

Definition is_search_call (e : Event) : bool :=
  match e with ToolCall SearchTool _ => true | _ => false end.

Definition is_model_request (e : Event) : bool :=
  match e with ModelRequest _ _ _ _ _ => true | _ => false end.

(** What [datetime.now(tz)] is rendered to by [TimeTool.get_time]. *)
Record time_fields := {
  tf_current_time : string;   (* strftime("%I:%M %p") *)
  tf_date : string;           (* strftime("%A, %B %d, %Y") *)
  tf_unix_timestamp : Z;
  tf_is_dst : bool            (* current_time.dst() != None *)
}.

(** Computations that raise and log: a state and error monad over the log. *)
Definition M (A : Type) : Type := list Event -> result A * list Event.

Definition ret {A} (a : A) : M A := fun w => (Ok a, w).

Definition bind {A B} (c : M A) (k : A -> M B) : M B :=
  fun w =>
    match c w with
    | (Ok a, w') => k a w'
    | (Raise e, w') => (Raise e, w')
    end.

Definition lift {A} (r : result A) : M A := fun w => (r, w).

(** [try: c  except Exception as e: h e] *)
Definition try_except {A} (c : M A) (h : exn -> M A) : M A :=
  fun w =>
    match c w with
    | (Ok a, w') => (Ok a, w')
    | (Raise e, w') => h e w'
    end.

Definition emit (e : Event) : M unit := fun w => (Ok tt, (w ++ [e])%list).

Declare Scope M_scope.
Delimit Scope M_scope with M.
Notation "x <- c ;; k" := (bind c (fun x => k))
  (at level 100, c at next level, right associativity) : M_scope.
Notation "c ;;; k" := (bind c (fun _ => k))
  (at level 100, right associativity) : M_scope.

Fixpoint mapM {A B} (f : A -> M B) (l : list A) : M (list B) :=
  match l with
  | [] => ret []
  | x :: l' => (y <- f x ;; ys <- mapM f l' ;; ret (y :: ys))%M
  end.

Fixpoint rmap {A B} (f : A -> result B) (l : list A) : result (list B) :=
  match l with
  | [] => Ok []
  | x :: l' => (y <- f x ;; ys <- rmap f l' ;; Ok (y :: ys))%result
  end.

Definition nl : string := String (ascii_of_nat 10) EmptyString.

Section Agent.

(** [repr] of floats, lists and dicts, which the model does not render. *)
Variable py_repr : pyval -> string.

(** [json.loads]: the decoded value, or the text of the
    [json.JSONDecodeError]. *)
Variable json_loads : string -> pyval + string.

(** The text of the [pydantic.ValidationError] for a rejected [data]. *)
Variable validation_message : pyval -> string.

(** [os.environ] *)
Variable environ : gmap string string.

(** The outcome of the HTTP request that is last in the log: the decoded
    JSON body ([raise_for_status] passed and [.json()] decoded), or the
    exception that [requests] raised on the way. *)
Variable net : list Event -> result pyval.

(** [pytz.timezone(tz)] followed by [datetime.now(...)], and the rendering
    of [datetime.now(pytz.UTC)] the error branches use. *)
Variable tz_now : list Event -> pyval -> result time_fields.
Variable utc_now : list Event -> string.

(** [str(v)], as f-strings apply it. *)
Definition py_str (v : pyval) : string :=
  match v with
  | PStr s => s
  | PNone => "None"
  | PBool true => "True"
  | PBool false => "False"
  | PInt n => pretty n
  | _ => py_repr v
  end.

Definition http_get (svc : service) (query : pyval) : M pyval :=
  fun w => let w' := (w ++ [HttpGet svc query])%list in (net w', w').

(** *** modules/llm.py: structured_output_prompt, the clean-up of the reply *)

Definition item1 (l : list string) : result string :=
  match l with
  | _ :: x :: _ => Ok x
  | _ => raise IndexError "list index out of range"
  end.

Definition item0 (l : list string) : result string :=
  match l with
  | x :: _ => Ok x
  | [] => raise IndexError "list index out of range"
  end.

(** "Remove any markdown formatting" *)
Definition remove_markdown (response : string) : result string :=
  (response <-
     (if Str.startswith "```json" response
      then item1 (Str.split "```json" response)
      else if Str.startswith "```" response
      then item1 (Str.split "```" response)
      else Ok response) ;;
   if Str.endswith "```" response
   then item0 (Str.rsplit1 "```" response)
   else Ok response)%result.

(** [end = s.rfind(closer) + 1; if end != 0: s = s[:end]] *)
Definition cut_after_last (closer s : string) : string :=
  let end_ := (Str.rfind closer s + 1)%Z in
  if (end_ =? 0)%Z then s else Str.take (Z.to_nat end_) s.

Definition parse_failure (msg response : string) : exn :=
  Exn ValueError
    ("Failed to parse JSON response: " ++ msg ++ nl
     ++ "Response was: " ++ response).

(** Everything [structured_output_prompt] does with the text [reply] that
    [chat_prompt] returned. *)
Definition parse_reply (reply : string) : result (list pyval) :=
  (let response := Str.strip reply in
   response <- remove_markdown response ;;
   let response := Str.replace "\_" "_" response in
   let cleaned_response := Str.strip response in
   if Str.startswith "[" cleaned_response then
     let cleaned_response := cut_after_last "]" cleaned_response in
     match json_loads cleaned_response with
     | inl (PList l) => Ok l
     | inl v => Ok [v]
     | inr msg => Raise (parse_failure msg response)
     end
   else if Str.startswith "{" cleaned_response then
     let cleaned_response := cut_after_last "}" cleaned_response in
     match json_loads cleaned_response with
     | inl v => Ok [v]
     | inr msg => Raise (parse_failure msg response)
     end
   else raise ValueError "Response neither starts with [ nor {")%result.

(** The text the dispatch looks at: [cleaned_response] before truncation. *)
Definition cleaned (reply : string) : result string :=
  (response <- remove_markdown (Str.strip reply) ;;
   Ok (Str.strip (Str.replace "\_" "_" response)))%result.

(** *** modules/llm.py: chat_prompt

    [rate_limiter.wait()] only delays the request ([RateLimiter] above); it
    neither raises nor calls out, so it leaves no trace here. *)

(** [result["choices"][0]["message"]["content"]] *)
Definition choices_content (result_ : pyval) : result pyval :=
  (a <- Py.getitem result_ "choices" ;;
   b <- Py.getitem0 a ;;
   c <- Py.getitem b "message" ;;
   Py.getitem c "content")%result.

(** [result["content"][0]["text"]] *)
Definition content_text (result_ : pyval) : result pyval :=
  (a <- Py.getitem result_ "content" ;;
   b <- Py.getitem0 a ;;
   Py.getitem b "text")%result.

Definition caught (classes : list exn_class) (e : exn) : bool :=
  existsb (issubclass (exn_cls e)) classes.

(** The provider-specific extraction of the reply text. *)
Definition extract_reply (p : LLMProvider) (result_ : pyval) : result pyval :=
  match p with
  | MISTRAL | OPENAI => choices_content result_
  | ANTHROPIC => content_text result_
  | CUSTOM =>
      match choices_content result_ with
      | Ok v => Ok v
      | Raise e =>
          if caught [KeyError; IndexError] e then
            match Py.getitem result_ "response" with
            | Ok v => Ok v
            | Raise e' =>
                if caught [KeyError] e' then Ok (PStr (py_str result_))
                else Raise e'
            end
          else Raise e
      end
  end.

Definition chat_prompt (user_prompt : prompt) (system_prompt : option string)
    (temperature : Q) (max_tokens : option Z) (provider : LLMProvider + string)
  : M pyval :=
  (config <- lift (LLMConfig.init environ None None provider) ;;
   (* [if max_tokens:] leaves a zero limit out of the payload *)
   let max_tokens :=
     match max_tokens with
     | Some n => if (n =? 0)%Z then None else Some n
     | None => None
     end in
   (* [if system_prompt:] leaves an empty system prompt out *)
   let system_prompt :=
     match system_prompt with
     | Some s => if Str.is_empty s then None else Some s
     | None => None
     end in
   try_except
     (emit (ModelRequest config system_prompt user_prompt temperature
              max_tokens) ;;;
      result_ <- (fun w => (net w, w)) ;;
      lift (extract_reply (LLMConfig.provider config) result_))
     (fun e =>
        if caught [RequestException] e then
          lift (raise Exception ("API request failed: " ++ exn_str e))
        else if caught [KeyError; IndexError] e then
          lift (raise Exception
                  ("Unexpected API response format: " ++ exn_str e))
        else lift (Raise e)))%M.

Definition structured_system_prompt : string :=
  "You are a JSON-only response assistant. Never include explanations or notes."
  ++ nl ++
  "    Only output valid JSON that matches the requested schema exactly. Do not escape underscores or other characters.".

(** [structured_output_prompt(prompt, response_format)] with its default
    temperature [0.1] and provider. *)
Definition structured_output_prompt (user_prompt : prompt)
    (response_format : schema) : M (list pyval) :=
  (response <- chat_prompt (StructuredPrompt response_format user_prompt)
                 (Some structured_system_prompt) (1 # 10) None (inl MISTRAL) ;;
   match response with
   | PStr reply => lift (parse_reply reply)
   | v => lift (Py.attribute_error v "strip")
   end)%M.

(** *** modules/utils/location.py *)

Definition fallback_location : gmap string pyval :=
  {[ "city" := PStr "London"; "country" := PStr "UK";
     "timezone" := PStr "Europe/London" ]}.

(** The body of [LocationDetector.get_location], as it runs when nothing
    is cached. *)
Definition lookup_location : M (gmap string pyval) :=
  try_except
    (data <- http_get IpApi PNone ;;
     status <- lift (Py.get data "status" PNone) ;;
     if Py.is_str "success" status then
       city <- lift (Py.get data "city" (PStr EmptyString)) ;;
       country <- lift (Py.get data "country" (PStr EmptyString)) ;;
       timezone <- lift (Py.get data "timezone" (PStr EmptyString)) ;;
       lat <- lift (Py.get data "lat" (PInt 0)) ;;
       lon <- lift (Py.get data "lon" (PInt 0)) ;;
       ret ({[ "city" := city; "country" := country; "timezone" := timezone;
               "lat" := lat; "lon" := lon ]} : gmap string pyval)
     else ret fallback_location)%M
    (fun _ => ret fallback_location).

(** A geolocation request in the log. *)
Definition is_lookup (ev : Event) : bool :=
  match ev with
  | HttpGet IpApi _ => true
  | _ => false
  end.

(** The log as it stood when the first geolocation request of the process
    was sent, if one has been sent. *)
Fixpoint before_lookup (w : list Event) : option (list Event) :=
  match w with
  | [] => None
  | ev :: w' =>
      if is_lookup ev then Some []
      else match before_lookup w' with
           | Some w0 => Some (ev :: w0)
           | None => None
           end
  end.

(** [LocationDetector.get_location] under [@lru_cache(maxsize=1)], called
    on the one instance [location_detector]: the first call of the process
    runs the body and its answer is kept (the body returns on every path,
    so there always is one); every later call returns that answer and
    sends nothing.  Only this function asks the geolocation service, so a
    call is the first one exactly when the log holds no such request, and
    the answer that is kept is the one the body gave at that point of the
    log. *)
Definition get_location : M (gmap string pyval) :=
  fun w =>
    match before_lookup w with
    | Some w0 => (fst (lookup_location w0), w)
    | None => lookup_location w
    end.

(** *** modules/tools/search_tool.py *)

(** The loop over [item["pagemap"]["metatags"]], with its [break]. *)
Fixpoint first_og_description (metatags : list pyval) (description : pyval)
  : result pyval :=
  match metatags with
  | [] => Ok description
  | metatag :: rest =>
      (found <- Py.contains "og:description" metatag ;;
       if found then Py.getitem metatag "og:description"
       else first_og_description rest description)%result
  end.

Definition search_item (item : pyval) : result pyval :=
  (description <- Py.get item "snippet" (PStr EmptyString) ;;
   has_pagemap <- Py.contains "pagemap" item ;;
   description <-
     (if has_pagemap then
        pagemap <- Py.getitem item "pagemap" ;;
        has_metatags <- Py.contains "metatags" pagemap ;;
        if has_metatags then
          metatags <- Py.getitem pagemap "metatags" ;;
          metatags <- Py.iter metatags ;;
          first_og_description metatags description
        else Ok description
      else Ok description) ;;
   title <- Py.get item "title" (PStr EmptyString) ;;
   url <- Py.get item "link" (PStr EmptyString) ;;
   Ok (PDict {[ "title" := title; "description" := description;
                "url" := url ]}))%result.

Definition search_results (data : pyval) : result (list pyval) :=
  (has_items <- Py.contains "items" data ;;
   if has_items then
     items <- Py.getitem data "items" ;;
     items <- Py.iter items ;;
     rmap search_item items
   else Ok [])%result.

Definition search_abstract (results : list pyval) : result string :=
  match results with
  | [] => Ok EmptyString
  | first :: _ =>
      (title <- Py.getitem first "title" ;;
       description <- Py.getitem first "description" ;;
       Ok (py_str title ++ ": " ++ py_str description))%result
  end.

(** [SearchTool.search(query)] *)
Definition search (query : pyval) : M (gmap string pyval) :=
  (emit (ToolCall SearchTool query) ;;;
   try_except
     (data <- http_get GoogleSearch query ;;
      results <- lift (search_results data) ;;
      abstract <- lift (search_abstract results) ;;
      ret ({[ "abstract" := PStr abstract; "results" := PList results;
              "query" := query ]} : gmap string pyval))
     (fun e =>
        if caught [Timeout] e then
          ret {[ "error" := PStr "Search request timed out";
                 "results" := PList [];
                 "abstract" := PStr "Search timed out, please try again";
                 "query" := query ]}
        else
          ret {[ "error" := PStr (exn_str e);
                 "results" := PList [];
                 "abstract" :=
                   PStr ("Search error occurred while searching for: "
                         ++ py_str query);
                 "query" := query ]}))%M.

(** *** modules/tools/weather_tool.py *)

Definition weather_failure (message location : pyval) : gmap string pyval :=
  {[ "error" := message; "location" := location;
     "temperature" := PNone; "conditions" := PNone ]}.

(** [data.get(outer, {}).get(inner)] *)
Definition nested_get (data : pyval) (outer inner : string) : result pyval :=
  (o <- Py.get data outer (PDict ∅) ;; Py.get o inner PNone)%result.

Definition weather_report (location data : pyval)
  : result (gmap string pyval) :=
  (cod <- Py.get data "cod" PNone ;;
   api_error <-
     (if Py.truthy cod then
        cod <- Py.getitem data "cod" ;;
        Ok (negb (String.eqb (py_str cod) "200"))
      else Ok false) ;;
   if api_error : bool then
     message <- Py.get data "message" (PStr "Unknown error from weather API") ;;
     Ok (weather_failure message location)
   else
     temperature <- nested_get data "main" "temp" ;;
     feels_like <- nested_get data "main" "feels_like" ;;
     humidity <- nested_get data "main" "humidity" ;;
     weather <- Py.get data "weather" (PList [PDict ∅]) ;;
     weather0 <- Py.getitem0 weather ;;
     conditions <- Py.get weather0 "description" PNone ;;
     wind_speed <- nested_get data "wind" "speed" ;;
     country <- nested_get data "sys" "country" ;;
     city <- Py.get data "name" PNone ;;
     timestamp <- Py.get data "dt" PNone ;;
     Ok ({[ "location" := location; "temperature" := temperature;
            "feels_like" := feels_like; "humidity" := humidity;
            "conditions" := conditions; "wind_speed" := wind_speed;
            "country" := country; "city" := city;
            "timestamp" := timestamp ]} : gmap string pyval))%result.

(** [WeatherTool.get_weather(location)]; the [finally] clause only sleeps. *)
Definition get_weather (location : pyval) : M (gmap string pyval) :=
  (emit (ToolCall WeatherTool location) ;;;
   try_except
     (data <- http_get OpenWeatherMap location ;;
      lift (weather_report location data))
     (fun e =>
        if caught [Timeout] e then
          ret (weather_failure
                 (PStr "Request timed out after multiple retries") location)
        else if caught [RequestException] e then
          ret (weather_failure
                 (PStr ("Failed to get weather data: " ++ exn_str e)) location)
        else
          ret (weather_failure
                 (PStr ("Unexpected error: " ++ exn_str e)) location)))%M.

(** *** modules/tools/news_tool.py *)

(** [NewsTool.get_latest_news(topic)]: the [q] parameter is sent only for
    a true [topic]; nothing is caught. *)
Definition get_latest_news (topic : pyval) : M pyval :=
  (emit (ToolCall NewsTool topic) ;;;
   http_get NewsApi (if Py.truthy topic then topic else PNone))%M.

(** *** modules/tools/time_tool.py *)

Definition time_failure (message : string) (now_utc : string)
  : gmap string pyval :=
  {[ "error" := PStr message; "timezone" := PStr "UTC";
     "current_time" := PStr now_utc ]}.

(** [TimeTool.get_time(timezone)]; [location] is the cached answer of
    [get_location]. *)
Definition get_time (location : gmap string pyval) (timezone : pyval)
  : M (gmap string pyval) :=
  (emit (ToolCall TimeTool timezone) ;;;
   let timezone :=
     if Py.truthy timezone then timezone
     else default (PStr "UTC") (location !! "timezone") in
   fun w =>
     match tz_now w timezone with
     | Ok t =>
         (Ok ({[ "timezone" := timezone;
                 "current_time" := PStr (tf_current_time t);
                 "date" := PStr (tf_date t);
                 "unix_timestamp" := PInt (tf_unix_timestamp t);
                 "is_dst" := PBool (tf_is_dst t) ]} : gmap string pyval), w)
     | Raise e =>
         if caught [UnknownTimeZoneError] e then
           (Ok (time_failure ("Unknown timezone: " ++ py_str timezone)
                  (utc_now w)), w)
         else (Ok (time_failure (exn_str e) (utc_now w)), w)
     end)%M.

(** *** modules/config.py *)

(** [Config.ALLOWED_COMMANDS], the values of [AllowedCommands]. *)
Definition ALLOWED_COMMANDS : list string :=
  ["search"; "news"; "weather"; "time"; "help"].

(** [repr(Config.ALLOWED_COMMANDS)] *)
Definition ALLOWED_COMMANDS_repr : string :=
  "['search', 'news', 'weather', 'time', 'help']".

(** *** modules/tools_manager.py *)

Record ToolResponse := {
  success : bool;
  data : gmap string pyval;
  error : option string
}.

(** [ToolResponse(success=..., data=..., error=...)]: pydantic (version 2)
    accepts a [dict] for [data : Dict[str, Any]] and rejects the other
    JSON values with a [ValidationError]. *)
Definition ToolResponse_new (success : bool) (data : pyval)
    (error : option string) : result ToolResponse :=
  match data with
  | PDict d => Ok {| success := success; data := d; error := error |}
  | v => raise ValidationError (validation_message v)
  end.

Record ToolManager := {
  location : gmap string pyval;
  defaults : gmap string (gmap string pyval)
}.

(** [ToolManager.__init__] *)
Definition ToolManager_init : M ToolManager :=
  (location <- get_location ;;
   city <- lift (Py.getitem (PDict location) "city") ;;
   country <- lift (Py.getitem (PDict location) "country") ;;
   timezone <- lift (Py.getitem (PDict location) "timezone") ;;
   ret {| location := location;
          defaults :=
            {[ "search" := {[ "query" := PStr "latest news" ]};
               "weather" :=
                 {[ "location" :=
                      PStr (py_str city ++ ", " ++ py_str country) ]};
               "news" := {[ "topic" := PStr "technology" ]};
               "time" := {[ "timezone" := timezone ]} ]} |})%M.

(** One element of the sequence handed to [dict.update]: an iterable with
    exactly two elements, the key and the value.  (For a [dict] element
    these are its two keys, here in the order of [map_to_list].) *)
Definition update_pair (i : nat) (x : pyval) : result (pyval * pyval) :=
  let wrong_length (n : nat) :=
    raise ValueError
      ("dictionary update sequence element #" ++ pretty i ++ " has length "
       ++ pretty n ++ "; 2 is required") in
  match x with
  | PList [k; v] => Ok (k, v)
  | PList l => wrong_length (length l)
  | PStr (String a (String b EmptyString)) =>
      Ok (PStr (String a EmptyString), PStr (String b EmptyString))
  | PStr s => wrong_length (String.length s)
  | PDict d =>
      match (map_to_list d).*1 with
      | [k; v] => Ok (PStr k, PStr v)
      | l => wrong_length (length l)
      end
  | _ => raise TypeError
           ("cannot convert dictionary update sequence element #"
            ++ pretty i ++ " to a sequence")
  end.

(** A key that is not a string lands in the [dict] too, but no string
    lookup ever sees it, so it is left out of the [gmap]. *)
Fixpoint update_from_pairs (i : nat) (d : gmap string pyval)
    (l : list pyval) : result (gmap string pyval) :=
  match l with
  | [] => Ok d
  | x :: l' =>
      (kv <- update_pair i x ;;
       match fst kv with
       | PStr key => update_from_pairs (S i) (<[key := snd kv]> d) l'
       | PList _ | PDict _ =>
           raise TypeError ("unhashable type: '" ++ Py.type_name (fst kv) ++ "'")
       | _ => update_from_pairs (S i) d l'
       end)%result
  end.

(** [d.update(other)]: a mapping is laid over [d] key by key; anything
    else is read as a sequence of pairs. *)
Definition dict_update (d : gmap string pyval) (other : pyval)
  : result (gmap string pyval) :=
  match other with
  | PDict o => Ok (o ∪ d)
  | PList l => update_from_pairs 0 d l
  | PStr s => update_from_pairs 0 d (Py.chars s)
  | v => raise TypeError ("'" ++ Py.type_name v ++ "' object is not iterable")
  end.

(** [command in Config.ALLOWED_COMMANDS] *)
Definition allowed (command : pyval) : bool :=
  existsb (fun c => Py.is_str c command) ALLOWED_COMMANDS.

(** "Merge provided parameters with defaults":
    [self.defaults.get(command, {}).copy()], then [update] for a true
    [params]. *)
Definition merge_params (self : ToolManager) (command params : pyval)
  : result (gmap string pyval) :=
  let tool_params :=
    match command with
    | PStr name => default ∅ (defaults self !! name)
    | _ => ∅
    end in
  if Py.truthy params then dict_update tool_params params
  else Ok tool_params.

(** [tool_params.get(key)] *)
Definition param (tool_params : gmap string pyval) (key : string) : pyval :=
  default PNone (tool_params !! key).

(** [self.defaults[command][key]] *)
Definition default_of (self : ToolManager) (command key : string)
  : result pyval :=
  match defaults self !! command with
  | Some d => Py.getitem (PDict d) key
  | None => raise KeyError ("'" ++ command ++ "'")
  end.

Definition help_result (self : ToolManager) : result pyval :=
  (q <- default_of self "search" "query" ;;
   t <- default_of self "news" "topic" ;;
   l <- default_of self "weather" "location" ;;
   z <- default_of self "time" "timezone" ;;
   Ok (PDict {[ "available_commands" :=
       PDict {[
         "search" :=
           PStr ("Search for information (default: " ++ py_str q ++ ")");
         "news" := PStr ("Get latest news (default: " ++ py_str t ++ ")");
         "weather" :=
           PStr ("Get weather information (default: " ++ py_str l ++ ")");
         "time" := PStr ("Get current time (default: " ++ py_str z ++ ")");
         "help" := PStr "Show available commands" ]} ]}))%result.

(** The chain of [if command == ...] branches: the tool that is called,
    with the one parameter passed on.  [result] stays unbound when no
    branch is taken. *)
Definition invoke (self : ToolManager) (command : pyval)
    (tool_params : gmap string pyval) : M pyval :=
  (if Py.is_str "search" command then
     r <- search (param tool_params "query") ;; ret (PDict r)
   else if Py.is_str "news" command then
     get_latest_news (param tool_params "topic")
   else if Py.is_str "weather" command then
     r <- get_weather (param tool_params "location") ;; ret (PDict r)
   else if Py.is_str "time" command then
     r <- get_time (location self) (param tool_params "timezone") ;;
     ret (PDict r)
   else if Py.is_str "help" command then lift (help_result self)
   else lift (raise UnboundLocalError
                "cannot access local variable 'result' where it is not associated with a value"))%M.

Definition not_allowed_message (command : pyval) : string :=
  "Command " ++ py_str command ++ " not allowed. Allowed commands: "
  ++ ALLOWED_COMMANDS_repr.

(** [ToolManager.execute_command(command, params)] *)
Definition execute_command (self : ToolManager) (command params : pyval)
  : M ToolResponse :=
  if negb (allowed command) then
    ret {| success := false; data := ∅;
           error := Some (not_allowed_message command) |}
  else
    try_except
      (tool_params <- lift (merge_params self command params) ;;
       result_ <- invoke self command tool_params ;;
       lift (ToolResponse_new true result_ None))%M
      (fun e =>
         ret {| success := false; data := ∅; error := Some (exn_str e) |}).

(** *** main.py *)

Record LLMAgent := { tool_manager : ToolManager }.

(** [LLMAgent.__init__] *)
Definition LLMAgent_init : M LLMAgent :=
  (tm <- ToolManager_init ;; ret {| tool_manager := tm |})%M.

(** [cmd['command']] and [cmd['params']], as the report of the plan and
    the argument list of [asyncio.gather] read them. *)
Definition command_of (cmd : pyval) : result (pyval * pyval) :=
  (command <- Py.getitem cmd "command" ;;
   params <- Py.getitem cmd "params" ;;
   Ok (command, params))%result.

(** [asyncio.gather] over one call [execute(cmd["command"], cmd["params"])]
    for each [cmd] of the plan, for a dispatcher method [execute]. *)
Definition gather_commands (execute : pyval -> pyval -> M ToolResponse)
    (commands : list (pyval * pyval)) : M (list ToolResponse) :=
  mapM (fun cp => execute (fst cp) (snd cp)) commands.

(** [[resp.error for resp in tool_responses if not resp.success]] *)
Definition collect_errors (tool_responses : list ToolResponse)
  : list (option string) :=
  error <$> List.filter (fun resp => negb (success resp)) tool_responses.

(** ['; '.join(errors)], which wants every item to be a [str]. *)
Fixpoint str_items (i : nat) (errors : list (option string))
  : result (list string) :=
  match errors with
  | [] => Ok []
  | Some s :: rest => (l <- str_items (S i) rest ;; Ok (s :: l))%result
  | None :: _ =>
      raise TypeError
        ("sequence item " ++ pretty i
         ++ ": expected str instance, NoneType found")
  end.

Definition error_report (errors : list (option string)) : result string :=
  (items <- str_items 0 errors ;;
   Ok ("Error(s) occurred: " ++ Str.join "; " items))%result.

(** [context["tool_responses"]] *)
Definition context_of (commands : list (pyval * pyval))
    (tool_responses : list ToolResponse) : list pyval :=
  zip_with
    (fun cp resp =>
       PDict {[ "command" := fst cp; "data" := PDict (data resp) ]})
    commands tool_responses.

(** The body of the loop [for query in analysis["needs_search"]]. *)
Fixpoint search_each (execute : pyval -> pyval -> M ToolResponse)
    (queries : list pyval) (additional_info : list pyval)
  : M (list pyval) :=
  match queries with
  | [] => ret additional_info
  | query :: rest =>
      (search_result <- execute (PStr "search")
                          (PDict {[ "query" := query ]}) ;;
       search_each execute rest
         (if success search_result
          then (additional_info
                ++ [PDict {[ "query" := query;
                             "data" := PDict (data search_result) ]}])%list
          else additional_info))%M
  end.

(** Step 4, "Perform additional searches for suggestions". *)
Definition enrich (execute : pyval -> pyval -> M ToolResponse)
    (analysis : pyval) : M (list pyval) :=
  (needs_search <- lift (Py.get analysis "needs_search" PNone) ;;
   if Py.truthy needs_search then
     needs_search <- lift (Py.getitem analysis "needs_search") ;;
     queries <- lift (Py.iter needs_search) ;;
     search_each execute queries []
   else ret [])%M.

Definition final_system_prompt : string :=
  "You are a helpful assistant. Provide clear, concise answers "
  ++ nl ++
  "            that include both direct responses and relevant suggestions.".

(** Step 5, "Generate final enriched response". *)
Definition finalize (analysis : pyval) (additional_info : list pyval)
  : M pyval :=
  (draft_answer <- lift (Py.get analysis "draft_answer" PNone) ;;
   suggestions <- lift (Py.get analysis "suggestions" PNone) ;;
   chat_prompt (FinalPrompt draft_answer suggestions additional_info)
     (Some final_system_prompt) (7 # 10) None (inl MISTRAL))%M.

(** Step 3, "Initial data analysis and draft response". *)
Definition draft (user_input : string) (commands : list (pyval * pyval))
    (tool_responses : list ToolResponse) : M pyval :=
  (replies <- structured_output_prompt
                (DraftPrompt user_input (context_of commands tool_responses))
                AnalysisSchema ;;
   match replies with
   | analysis :: _ => ret analysis
   | [] => lift (raise IndexError "list index out of range")
   end)%M.

(** Steps 1 and the report of the plan. *)
Definition plan_commands (user_input : string) : M (list (pyval * pyval)) :=
  (plan <- structured_output_prompt (PlanningPrompt user_input) PlanSchema ;;
   lift (rmap command_of plan))%M.

(** [process_request] once the tool responses are in. *)
Definition after_dispatch (execute : pyval -> pyval -> M ToolResponse)
    (user_input : string) (commands : list (pyval * pyval))
    (tool_responses : list ToolResponse) : M pyval :=
  let errors := collect_errors tool_responses in
  match errors with
  | _ :: _ => (report <- lift (error_report errors) ;; ret (PStr report))%M
  | [] =>
      (analysis <- draft user_input commands tool_responses ;;
       additional_info <- enrich execute analysis ;;
       finalize analysis additional_info)%M
  end.

(** [LLMAgent.process_request(user_input)] *)
Definition process_request (self : LLMAgent) (user_input : string)
  : M pyval :=
  let execute := execute_command (tool_manager self) in
  (commands <- plan_commands user_input ;;
   tool_responses <- gather_commands execute commands ;;
   after_dispatch execute user_input commands tool_responses)%M.

End Agent.

(** ** A small concrete world

    One environment, one set of outside answers and one tool manager, on
    which the statements below are also run. *)

Module Sample.

Definition py_repr (v : pyval) : string :=
  match v with
  | PList [] => "[]"
  | PDict _ => "{...}"
  | _ => "..."
  end.

Definition command (name : string) (params : gmap string pyval) : pyval :=
  PDict {[ "command" := PStr name; "params" := PDict params ]}.

Definition analysis_fields : gmap string pyval :=
  {[ "draft_answer" := PStr "It is mild today.";
     "suggestions" := PList [PStr "Take a coat"];
     "needs_search" := PList [PStr "coat shops"] ]}.

Definition analysis : pyval := PDict analysis_fields.

Definition quoted (s : string) : string :=
  String (ascii_of_nat 34) s ++ String (ascii_of_nat 34) EmptyString.

Definition plan_text : string :=
  "[{" ++ quoted "command" ++ ": " ++ quoted "weather" ++ ", "
  ++ quoted "params" ++ ": {}}, {" ++ quoted "command" ++ ": "
  ++ quoted "fly" ++ ", " ++ quoted "params" ++ ": {}}]".

Definition analysis_text : string :=
  "{" ++ quoted "draft_answer" ++ ": " ++ quoted "It is mild today." ++ ", "
  ++ quoted "suggestions" ++ ": [" ++ quoted "Take a coat" ++ "], "
  ++ quoted "needs_search" ++ ": [" ++ quoted "coat shops" ++ "]}".

(** [json.loads] on the handful of documents the sample uses. *)
Definition json_loads (s : string) : pyval + string :=
  if String.eqb s "[1]" then inl (PList [PInt 1])
  else if String.eqb s "{}" then inl (PDict ∅)
  else if String.eqb s plan_text then
    inl (PList [command "weather" ∅; command "fly" ∅])
  else if String.eqb s analysis_text then inl analysis
  else inr "Expecting value: line 1 column 1 (char 0)".

Definition validation_message (v : pyval) : string :=
  "1 validation error for ToolResponse".

Definition environ : gmap string string := {[ "LLM_API_KEY" := "secret" ]}.

Definition reply (text : string) : pyval :=
  PDict {[ "choices" :=
             PList [PDict {[ "message" :=
                               PDict {[ "content" := PStr text ]} ]}] ]}.

(** The news service answers with an empty object, every other HTTP GET
    times out, and the model answers by schema. *)
Definition net (w : list Event) : result pyval :=
  match last w with
  | Some (HttpGet NewsApi _) => Ok (PDict ∅)
  | Some (HttpGet _ _) => Raise (Exn Timeout "Read timed out.")
  | Some (ModelRequest _ _ (StructuredPrompt PlanSchema _) _ _) =>
      Ok (reply plan_text)
  | Some (ModelRequest _ _ (StructuredPrompt AnalysisSchema _) _ _) =>
      Ok (reply analysis_text)
  | Some (ModelRequest _ _ _ _ _) => Ok (reply "Mild; take a coat.")
  | _ => Raise (Exn Exception "no request")
  end.

Definition tz_now (w : list Event) (tz : pyval) : result time_fields :=
  match tz with
  | PStr "UTC" =>
      Ok {| tf_current_time := "12:00 PM";
            tf_date := "Tuesday, November 03, 2026";
            tf_unix_timestamp := 1793707200;
            tf_is_dst := true |}
  | _ => Raise (Exn UnknownTimeZoneError (py_str py_repr tz))
  end.

Definition utc_now (w : list Event) : string := "12:00 PM".

(** The manager [ToolManager.__init__] builds when the geolocation
    request fails. *)
Definition manager : ToolManager :=
  {| location := fallback_location;
     defaults :=
       {[ "search" := {[ "query" := PStr "latest news" ]};
          "weather" := {[ "location" := PStr "London, UK" ]};
          "news" := {[ "topic" := PStr "technology" ]};
          "time" := {[ "timezone" := PStr "Europe/London" ]} ]} |}.

Definition agent : LLMAgent := {| tool_manager := manager |}.


Definition execute : pyval -> pyval -> M ToolResponse :=
  execute_command py_repr validation_message net tz_now utc_now manager.

(** The same dispatcher in a world where every request raises an exception
    that carries no text, as a bare [Exception()] or a [MemoryError()]
    does: [str(e)] is the empty string. *)
Definition textless (w : list Event) : result pyval :=
  Raise (Exn Exception EmptyString).

Definition execute_textless : pyval -> pyval -> M ToolResponse :=
  execute_command py_repr validation_message textless tz_now utc_now manager.

(** The limiter of [modules/llm.py] and an event loop that is never late. *)
Definition limiter : RateLimiter.t :=
  RateLimiter.mk 10 (60 / inject_Z 10)%Q 0%Q.

Definition punctual : RateLimiter.schedule :=
  {| RateLimiter.oversleep := 0%Q;
     RateLimiter.stamp_delay := 0%Q;
     RateLimiter.return_delay := 0%Q |}.

End Sample.

(** ** More of the sources

    The functions of the same files that the pipeline above does not
    pass through: [parse_markdown_backticks] and the values of
    [LLMProvider] (modules/llm.py), the interactive loop [main] (main.py)
    with what the program prints, and runs of several [RateLimiter.wait]
    calls. *)

(** [s.split(sep, 1)] *)
Definition split_once (sep s : string) : list string :=
  match Str.partition sep s with
  | Some (a, b) => [a; b]
  | None => [s]
  end.

(** [l[-1]] *)
Definition item_last (l : list string) : result string :=
  match last l with
  | Some x => Ok x
  | None => raise IndexError "list index out of range"
  end.

(** [parse_markdown_backticks(str)] *)
Definition parse_markdown_backticks (str : string) : result string :=
  if negb (Str.contains "```" str) then Ok (Str.strip str)
  else
    (s <- item_last (split_once "```" str) ;;
     s <- item_last (split_once nl s) ;;
     s <- item0 (Str.rsplit1 "```" s) ;;
     Ok (Str.strip s))%result.

(** The [value] of a member of [LLMProvider]. *)
Definition provider_value (p : LLMProvider) : string :=
  match p with
  | MISTRAL => "mistral"
  | OPENAI => "openai"
  | ANTHROPIC => "anthropic"
  | CUSTOM => "custom"
  end.

(** [c.lower()] for one character (code points below 256): the letters
    A-Z and the capital letters of Latin-1, U+00C0 to U+00DE without the
    multiplication sign U+00D7, move up by 32. *)
Definition lower_char (c : ascii) : ascii :=
  let n := nat_of_ascii c in
  if (((65 <=? n) && (n <=? 90))
      || ((192 <=? n) && (n <=? 222) && negb (n =? 215)))%nat
  then ascii_of_nat (n + 32)
  else c.

(** [s.lower()] *)
Fixpoint lower (s : string) : string :=
  match s with
  | EmptyString => EmptyString
  | String c s' => String (lower_char c) (lower s')
  end.


(** ** Standard output

    [process_request] and [structured_output_prompt] report their progress
    with [print], and [main] prints the answers.  A computation that
    writes returns, besides its result and the log, the texts it wrote to
    standard output, in order: the argument of each [print] (which ends it
    with a newline) and the prompt of each [input]. *)

Definition IO (A : Type) : Type :=
  list Event -> result A * list Event * list string.

Definition io_ret {A} (a : A) : IO A := fun w => (Ok a, w, []).

Definition io_bind {A B} (c : IO A) (k : A -> IO B) : IO B :=
  fun w =>
    match c w with
    | (Ok a, w', out) =>
        match k a w' with
        | (r, w'', out') => (r, w'', (out ++ out')%list)
        end
    | (Raise e, w', out) => (Raise e, w', out)
    end.

(** A computation that prints nothing. *)
Definition quiet {A} (c : M A) : IO A := fun w => (c w, []).

(** [print(text)] *)
Definition print (text : string) : IO unit := fun w => (Ok tt, w, [text]).

Declare Scope IO_scope.
Delimit Scope IO_scope with IO.
Notation "x <- c ;; k" := (io_bind c (fun x => k))
  (at level 100, c at next level, right associativity) : IO_scope.
Notation "c ;;; k" := (io_bind c (fun _ => k))
  (at level 100, right associativity) : IO_scope.

(** How [main] ends: the user typed the exit word, or [input] had no more
    lines to give (its [EOFError] is raised outside the [try] and leaves
    [main]). *)
Inductive loop_end := Exited | InputClosed.

Section Loop.

Variable py_repr : pyval -> string.
Variable json_loads : string -> pyval + string.
Variable validation_message : pyval -> string.
Variable environ : gmap string string.
Variable net : list Event -> result pyval.
Variable tz_now : list Event -> pyval -> result time_fields.
Variable utc_now : list Event -> string.

(** The [except json.JSONDecodeError] branch of
    [structured_output_prompt]: it prints the response and raises. *)
Definition parse_failed (msg response : string) : IO (list pyval) :=
  (print ("Failed to parse JSON. Response was:" ++ nl ++ response) ;;;
   quiet (lift (Raise (parse_failure msg response))))%IO.

(** [parse_reply] with its [print]. *)
Definition parse_reply_io (reply : string) : IO (list pyval) :=
  match remove_markdown (Str.strip reply) with
  | Raise e => quiet (lift (Raise e))
  | Ok response =>
      let response := Str.replace "\_" "_" response in
      let cleaned_response := Str.strip response in
      if Str.startswith "[" cleaned_response then
        let cleaned_response := cut_after_last "]" cleaned_response in
        match json_loads cleaned_response with
        | inl (PList l) => io_ret l
        | inl v => io_ret [v]
        | inr msg => parse_failed msg response
        end
      else if Str.startswith "{" cleaned_response then
        let cleaned_response := cut_after_last "}" cleaned_response in
        match json_loads cleaned_response with
        | inl v => io_ret [v]
        | inr msg => parse_failed msg response
        end
      else
        quiet (lift (raise ValueError "Response neither starts with [ nor {"))
  end.

(** [structured_output_prompt] with its [print]. *)
Definition structured_output_prompt_io (user_prompt : prompt)
    (response_format : schema) : IO (list pyval) :=
  (response <-
     quiet (chat_prompt py_repr environ net
              (StructuredPrompt response_format user_prompt)
              (Some structured_system_prompt) (1 # 10) None (inl MISTRAL)) ;;
   match response with
   | PStr reply => parse_reply_io reply
   | v => quiet (lift (Py.attribute_error v "strip"))
   end)%IO.

(** [[print(f"Using {cmd['command']} with {cmd['params']}") for cmd in
    plan]]: the items before an incomplete one are printed before its
    [KeyError] is raised. *)
Fixpoint print_plan (plan : list pyval) : IO (list (pyval * pyval)) :=
  match plan with
  | [] => io_ret []
  | cmd :: rest =>
      (cp <- quiet (lift (command_of cmd)) ;;
       print ("Using " ++ py_str py_repr (fst cp) ++ " with "
              ++ py_str py_repr (snd cp)) ;;;
       cps <- print_plan rest ;;
       io_ret (cp :: cps))%IO
  end.

(** [plan_commands] with its [print]s. *)
Definition plan_commands_io (user_input : string)
  : IO (list (pyval * pyval)) :=
  (plan <- structured_output_prompt_io (PlanningPrompt user_input)
             PlanSchema ;;
   print (nl ++ "Initial tools:") ;;;
   print_plan plan)%IO.

(** [draft], which prints what [structured_output_prompt] prints. *)
Definition draft_io (user_input : string) (commands : list (pyval * pyval))
    (tool_responses : list ToolResponse) : IO pyval :=
  (replies <- structured_output_prompt_io
                (DraftPrompt user_input (context_of commands tool_responses))
                AnalysisSchema ;;
   match replies with
   | analysis :: _ => io_ret analysis
   | [] => quiet (lift (raise IndexError "list index out of range"))
   end)%IO.

(** [search_each] with its [print]. *)
Fixpoint search_each_io (execute : pyval -> pyval -> M ToolResponse)
    (queries : list pyval) (additional_info : list pyval)
  : IO (list pyval) :=
  match queries with
  | [] => io_ret additional_info
  | query :: rest =>
      (print ("Searching: " ++ py_str py_repr query) ;;;
       search_result <- quiet (execute (PStr "search")
                                 (PDict {[ "query" := query ]})) ;;
       search_each_io execute rest
         (if success search_result
          then (additional_info
                ++ [PDict {[ "query" := query;
                             "data" := PDict (data search_result) ]}])%list
          else additional_info))%IO
  end.

(** [enrich] with its [print]s. *)
Definition enrich_io (execute : pyval -> pyval -> M ToolResponse)
    (analysis : pyval) : IO (list pyval) :=
  (needs_search <- quiet (lift (Py.get analysis "needs_search" PNone)) ;;
   if Py.truthy needs_search then
     print (nl ++ "Gathering additional information for suggestions...") ;;;
     needs_search <- quiet (lift (Py.getitem analysis "needs_search")) ;;
     queries <- quiet (lift (Py.iter needs_search)) ;;
     search_each_io execute queries []
   else io_ret [])%IO.

(** [after_dispatch] with its [print]s. *)
Definition after_dispatch_io (execute : pyval -> pyval -> M ToolResponse)
    (user_input : string) (commands : list (pyval * pyval))
    (tool_responses : list ToolResponse) : IO pyval :=
  let errors := collect_errors tool_responses in
  match errors with
  | _ :: _ =>
      quiet (report <- lift (error_report errors) ;; ret (PStr report))%M
  | [] =>
      (analysis <- draft_io user_input commands tool_responses ;;
       print (nl ++ "Initial response done") ;;;
       additional_info <- enrich_io execute analysis ;;
       print (nl ++ "Additional information analysis done") ;;;
       quiet (finalize py_repr environ net analysis additional_info))%IO
  end.

(** [LLMAgent.process_request(user_input)] with everything it prints. *)
Definition process_request_io (self : LLMAgent) (user_input : string)
  : IO pyval :=
  let execute :=
    execute_command py_repr validation_message net tz_now utc_now
      (tool_manager self) in
  (commands <- plan_commands_io user_input ;;
   tool_responses <- quiet (gather_commands execute commands) ;;
   after_dispatch_io execute user_input commands tool_responses)%IO.

(** The prompt of [input("\nYou: ")]. *)
Definition prompt_text : string := nl ++ "You: ".

(** What [main] prints after a request: the response in its [try], the
    text of the exception in its [except Exception as e]. *)
Definition answer_text (r : result pyval) : string :=
  match r with
  | Ok response => nl ++ "Assistant: " ++ py_str py_repr response
  | Raise e => nl ++ "Error: " ++ exn_str e
  end.

(** The body of [while True:] in [main], over the lines [input] will
    return; [printed] is what has been written to standard output. *)
Fixpoint main_loop (agent : LLMAgent) (inputs : list string)
    (printed : list string) (w : list Event)
  : loop_end * list string * list Event :=
  let printed := (printed ++ [prompt_text])%list in
  match inputs with
  | [] => (InputClosed, printed, w)
  | user_input :: rest =>
      if String.eqb (lower user_input) "exit" then (Exited, printed, w)
      else
        match process_request_io agent user_input w with
        | (r, w', out) =>
            let line := answer_text r in
            main_loop agent rest (printed ++ out ++ [line])%list w'
        end
  end.

Definition banner : string := "AI Assistant ready! (Type 'exit' to quit)".

(** [main()] *)
Definition main (inputs : list string) : M (loop_end * list string) :=
  (agent <- LLMAgent_init py_repr net ;;
   fun w =>
     let r := main_loop agent inputs [banner] w in
     (Ok (fst r), snd r))%M.

End Loop.

(** ** More concrete worlds

    A network that is down, and a model whose plan has an incomplete
    item. *)

Module Worlds.

Definition net_down (w : list Event) : result pyval :=
  Raise (Exn RequestException "Connection refused").

Definition json_loads (s : string) : pyval + string :=
  if String.eqb s "[{}]" then inl (PList [PDict ∅])
  else inr "Expecting value: line 1 column 2 (char 1)".

Definition incomplete_plan (w : list Event) : result pyval :=
  match last w with
  | Some (ModelRequest _ _ _ _ _) => Ok (Sample.reply "[{}]")
  | _ => Raise (Exn RequestException "Connection refused")
  end.

(** An item with OpenGraph data, as the search service sends it. *)
Definition pagemap : gmap string pyval :=
  {[ "metatags" :=
       PList [PDict {[ "og:title" := PStr "Coats" ]};
              PDict {[ "og:description" := PStr "Warm coats for winter" ]}] ]}.

Definition item : gmap string pyval :=
  {[ "title" := PStr "Coat shop"; "snippet" := PStr "Coats and more";
     "link" := PStr "https://example.org/coats";
     "pagemap" := PDict pagemap ]}.


End Worlds.

(** ** Vocabulary of the statements *)

(** The two tools that reach their service through one HTTP GET inside a
    [try] block: the tool, its service and the parameter it is given. *)
Definition http_tool (name : string) : option (tool * service * string) :=
  if String.eqb name "weather" then
    Some (WeatherTool, OpenWeatherMap, "location")
  else if String.eqb name "search" then
    Some (SearchTool, GoogleSearch, "query")
  else None.

(** The error texts of the failed responses, in order. *)
Definition failure_texts (tool_responses : list ToolResponse) : list string :=
  omap error (List.filter (fun resp => negb (success resp)) tool_responses).

(** The [{query, data}] entries of the searches that succeeded. *)
Fixpoint enrichment_items (queries : list pyval)
    (search_results : list ToolResponse) : list pyval :=
  match queries, search_results with
  | query :: queries', r :: results' =>
      if success r
      then PDict {[ "query" := query; "data" := PDict (data r) ]}
           :: enrichment_items queries' results'
      else enrichment_items queries' results'
  | _, _ => []
  end.

(** The dispatcher call of one follow-up query. *)
Definition search_call (execute : pyval -> pyval -> M ToolResponse)
    (query : pyval) : M ToolResponse :=
  execute (PStr "search") (PDict {[ "query" := query ]}).

Definition backtick : ascii := "`"%char.

(** No character of [s] is a backtick. *)
Fixpoint no_backtick (s : string) : bool :=
  match s with
  | EmptyString => true
  | String c s' => negb (Ascii.eqb backtick c) && no_backtick s'
  end.

(** [s] is absent: [None] or the empty string. *)
Definition missing (s : option string) : Prop :=
  s = None \/ s = Some EmptyString.

(** The log entries that are HTTP GET requests. *)
Definition is_http_get (e : Event) : bool :=
  match e with HttpGet _ _ => true | _ => false end.

(** What one call of the dispatcher may add to the log: nothing, the call
    of the time tool, or the call of a tool followed by its one HTTP GET
    call. *)
Definition dispatch_footprint (evs : list Event) : Prop :=
  evs = []
  \/ (exists arg, evs = [ToolCall TimeTool arg])
  \/ (exists t arg svc query, evs = [ToolCall t arg; HttpGet svc query]).


(** No character of [s] is [c]. *)
Fixpoint lacks (c : ascii) (s : string) : bool :=
  match s with
  | EmptyString => true
  | String a s' => negb (Ascii.eqb c a) && lacks c s'
  end.

(** The exit word of [main], in any mix of cases. *)
Definition is_exit (user_input : string) : bool :=
  String.eqb (lower user_input) "exit".

(** A body of the shape [{"choices": [{"message": {"content": v}}, ...]}]:
    [d] is the body, [m] its first choice, [c] the message of that choice. *)
Definition choices_body (content : pyval) (others : list pyval)
    (d m c : gmap string pyval) : Prop :=
  d !! "choices" = Some (PList (PDict m :: others))
  /\ m !! "message" = Some (PDict c)
  /\ c !! "content" = Some content.

(** The result [search] builds from an item without OpenGraph data. *)
Definition plain_result (m : gmap string pyval) : pyval :=
  PDict {[ "title" := default (PStr EmptyString) (m !! "title");
           "description" := default (PStr EmptyString) (m !! "snippet");
           "url" := default (PStr EmptyString) (m !! "link") ]}.

(** A line [main] prints for one request: the answer or the error. *)
Definition answer_line (line : string) : Prop :=
  Str.startswith (nl ++ "Assistant: ") line = true
  \/ Str.startswith (nl ++ "Error: ") line = true.

(** The number of requests to the model among the events [evs]. *)
Definition model_requests (evs : list Event) : nat :=
  length (List.filter is_model_request evs).

(** The computation [c] only extends the log, and by at most [m] requests
    to the model. *)
Definition adds {A} (m : nat) (c : M A) : Prop :=
  forall w, exists evs,
    snd (c w) = (w ++ evs)%list /\ model_requests evs <= m.

(** The events [evs], if any, begin with a request to the model. *)
Definition model_first (evs : list Event) : Prop :=
  match evs with
  | [] => True
  | ev :: _ => is_model_request ev = true
  end.

(** The computation [c] writes only texts with the property [P]. *)
Definition writes {A} (P : string -> Prop) (c : IO A) : Prop :=
  forall w, Forall P (snd (c w)).

(** * Properties *)

Section AgentProperties.

Context (py_repr : pyval -> string) (json_loads : string -> pyval + string)
        (validation_message : pyval -> string) (environ : gmap string string)
        (net : list Event -> result pyval)
        (tz_now : list Event -> pyval -> result time_fields)
        (utc_now : list Event -> string).

#[local] Abbreviation execute_command :=
  (execute_command py_repr validation_message net tz_now utc_now).
#[local] Abbreviation invoke := (invoke py_repr net tz_now utc_now).
#[local] Abbreviation ToolResponse_new := (ToolResponse_new validation_message).
#[local] Abbreviation not_allowed_message := (not_allowed_message py_repr).

(** ** The dispatcher: the allow-list *)

Lemma allowed_spec (name : string) :
  allowed (PStr name) = true <-> name ∈ ALLOWED_COMMANDS.
Proof.
  unfold allowed, ALLOWED_COMMANDS. rewrite existsb_exists. split.
  - intros (c & Hc & Heq). simpl in Heq. apply String.eqb_eq in Heq. subst.
    by apply list_elem_of_In.
  - intros H. exists name. split; [by apply list_elem_of_In|].
    simpl. apply String.eqb_refl.
Qed.

Lemma allowed_only_strings (command : pyval) :
  allowed command = true -> exists name, command = PStr name.
Proof. destruct command; try discriminate; eauto. Qed.

Lemma weather_allowed : "weather" ∈ ALLOWED_COMMANDS.
Proof. by apply allowed_spec. Qed.

Lemma search_allowed : "search" ∈ ALLOWED_COMMANDS.
Proof. by apply allowed_spec. Qed.

(** C4. For every command name outside the allow-list
    [search, news, weather, time, help] and every [params],
    [execute_command] returns a response with [success = false] and a
    non-empty error text, and the log of external calls is left as it was:
    no tool was invoked and no request was sent. *)
Theorem execute_command_rejects_unlisted (self : ToolManager)
    (name : string) (params : pyval) (w : list Event) :
  name ∉ ALLOWED_COMMANDS ->
  exists r msg,
    execute_command self (PStr name) params w = (Ok r, w)
    /\ success r = false
    /\ data r = ∅
    /\ error r = Some msg
    /\ msg <> EmptyString.
Proof.
  intros Hnot.
  assert (Hall : allowed (PStr name) = false).
  { destruct (allowed (PStr name)) eqn:E; [|done].
    apply allowed_spec in E. contradiction. }
  exists {| success := false; data := ∅;
            error := Some (not_allowed_message (PStr name)) |},
         (not_allowed_message (PStr name)).
  unfold execute_command. rewrite Hall. simpl.
  repeat split; try reflexivity. discriminate.
Qed.

(** ** The dispatcher: merging parameters *)

Lemma param_union (params registered : gmap string pyval) (key : string) :
  param (params ∪ registered) key
  = default (param registered key) (params !! key).
Proof.
  unfold param. destruct (params !! key) as [v|] eqn:E; simpl.
  - by rewrite (lookup_union_Some_l _ _ _ _ E).
  - by rewrite lookup_union_r.
Qed.

Lemma merge_params_dict (self : ToolManager) (name : string)
    (params : gmap string pyval) :
  merge_params self (PStr name) (PDict params)
  = Ok (params ∪ default ∅ (defaults self !! name)).
Proof.
  unfold merge_params. simpl. case_bool_decide as E; simpl.
  - subst. by rewrite (left_id_L ∅ (∪)).
  - reflexivity.
Qed.

Lemma execute_command_allowed (self : ToolManager) (name : string)
    (params : gmap string pyval) (w : list Event) :
  name ∈ ALLOWED_COMMANDS ->
  execute_command self (PStr name) (PDict params) w
  = try_except
      (result_ <- invoke self (PStr name)
                    (params ∪ default ∅ (defaults self !! name)) ;;
       lift (ToolResponse_new true result_ None))%M
      (fun e => ret {| success := false; data := ∅;
                       error := Some (exn_str e) |}) w.
Proof.
  intros Hin. apply allowed_spec in Hin.
  unfold execute_command. rewrite Hin. simpl.
  unfold try_except, bind at 1, lift at 1.
  by rewrite merge_params_dict.
Qed.

(** C5. For every allowed command and every mapping [params] of the
    caller, the parameters the tool is invoked with are the command's
    registered defaults overlaid with [params] key by key: a key the caller
    gives keeps the caller's value, a key the caller leaves out keeps the
    default when there is one, and the one parameter handed to the tool is
    read from that mapping. *)
Theorem execute_command_merges_params (self : ToolManager) (name : string)
    (params : gmap string pyval) (w : list Event) :
  name ∈ ALLOWED_COMMANDS ->
  let registered := default ∅ (defaults self !! name) in
  exists tool_params,
    merge_params self (PStr name) (PDict params) = Ok tool_params
    /\ tool_params = params ∪ registered
    /\ (forall k v, params !! k = Some v -> tool_params !! k = Some v)
    /\ (forall k, params !! k = None -> tool_params !! k = registered !! k)
    /\ (forall k, param tool_params k
                  = default (param registered k) (params !! k))
    /\ execute_command self (PStr name) (PDict params) w
       = try_except
           (result_ <- invoke self (PStr name) tool_params ;;
            lift (ToolResponse_new true result_ None))%M
           (fun e => ret {| success := false; data := ∅;
                            error := Some (exn_str e) |}) w.
Proof.
  intros Hin registered. exists (params ∪ registered).
  split; [apply merge_params_dict|]. split; [reflexivity|].
  split; [intros k v Hk; by apply lookup_union_Some_l|].
  split; [intros k Hk; by apply lookup_union_r|].
  split; [intros k; apply param_union|].
  by apply execute_command_allowed.
Qed.

(** ** The tools never raise *)

#[local] Abbreviation search := (search py_repr net).
#[local] Abbreviation get_weather := (get_weather py_repr net).
#[local] Abbreviation get_latest_news := (get_latest_news net).
#[local] Abbreviation get_time := (get_time py_repr tz_now utc_now).

(** A tool answered with a [dict] built by insertions: the run is the one
    claimed and the [dict] is not empty. *)
Ltac answer_with_dict :=
  eexists; split; [reflexivity|]; split; [apply insert_non_empty|].

Lemma weather_failure_error (message location : pyval) :
  weather_failure message location !! "error" = Some message.
Proof. unfold weather_failure. by rewrite lookup_insert_eq. Qed.

Lemma search_spec (query : pyval) (w : list Event) :
  let w' := (w ++ [ToolCall SearchTool query; HttpGet GoogleSearch query])%list in
  exists d,
    search query w = (Ok d, w')
    /\ d <> ∅
    /\ (forall e, net w' = Raise e ->
        exists msg, d !! "error" = Some (PStr msg)).
Proof.
  intros w'. unfold search, bind, emit, try_except, http_get, lift, ret.
  rewrite <- app_assoc. simpl. fold w'.
  destruct (net w') as [body|e] eqn:Hnet.
  - repeat case_match; simplify_eq;
      answer_with_dict;
      intros e' He'; discriminate.
  - repeat case_match; simplify_eq;
      answer_with_dict;
      intros e' _; eexists; by rewrite lookup_insert_eq.
Qed.

Lemma weather_report_non_empty (location body : pyval) (d : gmap string pyval) :
  weather_report py_repr location body = Ok d -> d <> ∅.
Proof.
  unfold weather_report, rbind, nested_get, rbind. intros H.
  repeat case_match; simplify_eq; apply insert_non_empty.
Qed.

Lemma get_weather_spec (location : pyval) (w : list Event) :
  let w' := (w ++ [ToolCall WeatherTool location;
                   HttpGet OpenWeatherMap location])%list in
  exists d,
    get_weather location w = (Ok d, w')
    /\ d <> ∅
    /\ (forall e, net w' = Raise e ->
        exists msg, d !! "error" = Some (PStr msg)).
Proof.
  intros w'. unfold get_weather, bind, emit, try_except, http_get, lift, ret.
  rewrite <- app_assoc. simpl. fold w'.
  destruct (net w') as [body|e] eqn:Hnet.
  - destruct (weather_report py_repr location body) as [d|e1] eqn:Hrep.
    + exists d. split; [reflexivity|].
      split; [by eapply weather_report_non_empty|]. intros e He. discriminate.
    + repeat case_match; simplify_eq;
        answer_with_dict;
        intros e He; discriminate.
  - repeat case_match; simplify_eq;
      answer_with_dict;
      intros e' _; eexists; apply weather_failure_error.
Qed.

Lemma get_time_spec (location : gmap string pyval) (timezone : pyval)
    (w : list Event) :
  exists d,
    get_time location timezone w = (Ok d, (w ++ [ToolCall TimeTool timezone])%list)
    /\ d <> ∅.
Proof.
  unfold get_time, bind, emit. simpl.
  repeat case_match; simplify_eq;
    (eexists; split; [reflexivity|apply insert_non_empty]).
Qed.

Lemma help_result_non_empty (self : ToolManager) (v : pyval) :
  help_result py_repr self = Ok v -> exists d, v = PDict d /\ d <> ∅.
Proof.
  unfold help_result, rbind. intros H.
  repeat case_match; simplify_eq.
  eexists; split; [reflexivity|]. apply map_non_empty_singleton.
Qed.

(** What [invoke] hands back for a command other than [news] is a
    non-empty [dict]. *)
Lemma invoke_non_empty (self : ToolManager) (command : pyval)
    (tool_params : gmap string pyval) (w w' : list Event) (v : pyval) :
  Py.is_str "news" command = false ->
  invoke self command tool_params w = (Ok v, w') ->
  exists d, v = PDict d /\ d <> ∅.
Proof.
  intros Hnews. unfold invoke. rewrite Hnews.
  destruct (Py.is_str "search" command).
  { unfold bind, ret.
    destruct (search_spec (param tool_params "query") w) as (d & -> & Hd & _).
    intros [= <- <-]. eauto. }
  destruct (Py.is_str "weather" command).
  { unfold bind, ret.
    destruct (get_weather_spec (param tool_params "location") w)
      as (d & -> & Hd & _).
    intros [= <- <-]. eauto. }
  destruct (Py.is_str "time" command).
  { unfold bind, ret.
    destruct (get_time_spec (location self) (param tool_params "timezone") w)
      as (d & -> & Hd).
    intros [= <- <-]. eauto. }
  destruct (Py.is_str "help" command).
  { unfold lift. intros [= H <-]. by eapply help_result_non_empty. }
  unfold lift, raise. discriminate.
Qed.

(** The shape of every answer of the dispatcher. *)
Lemma execute_command_cases (self : ToolManager)
    (command params : pyval) (w : list Event) :
  exists r w',
    execute_command self command params w = (Ok r, w')
    /\ (success r = true ->
        error r = None /\ (Py.is_str "news" command = false -> data r <> ∅))
    /\ (success r = false ->
        data r = ∅ /\ exists msg, error r = Some msg).
Proof.
  unfold execute_command.
  destruct (allowed command) eqn:Hallowed; simpl.
  2:{ eexists _, _; split; [reflexivity|]. simpl.
      split; [discriminate|]. eauto. }
  unfold try_except, bind at 1, lift at 1.
  destruct (merge_params self command params) as [tool_params|e].
  2:{ eexists _, _; split; [reflexivity|]. simpl.
      split; [discriminate|]. eauto. }
  unfold bind.
  destruct (invoke self command tool_params w) as [[v|e] w1] eqn:Hinvoke.
  2:{ eexists _, _; split; [reflexivity|]. simpl.
      split; [discriminate|]. eauto. }
  unfold lift, ToolResponse_new.
  destruct v; simpl;
    try (eexists _, _; split; [reflexivity|]; simpl;
         split; [discriminate|]; eauto; fail).
  eexists _, _; split; [reflexivity|]. simpl.
  split; [|discriminate]. intros _. split; [reflexivity|].
  intros Hnews. destruct (invoke_non_empty _ _ _ _ _ _ Hnews Hinvoke)
    as (d' & [= ->] & Hd). exact Hd.
Qed.

(** C10, as the code has it.  Every call of [execute_command], whatever
    the command and the parameters, returns a [ToolResponse] and raises
    nothing.  On success [error] is [None] and [data] is the mapping the
    tool returned for the merged parameters, which is non-empty for every
    command except [news] (whose [data] is whatever JSON object the news
    service sent, the empty one included).  On failure [data] is the empty
    mapping and [error] is a string: for a command outside the allow-list
    the rejection text, which is not empty, with nothing called; otherwise
    [str(e)] of the exception [e] the [try] block caught, raised by the
    merge of the parameters, by the tool or by the construction of the
    response, and empty when [e] carries no text. *)
Theorem execute_command_well_formed (self : ToolManager)
    (command params : pyval) (w : list Event) :
  exists r w',
    execute_command self command params w = (Ok r, w')
    /\ (success r = true ->
        error r = None
        /\ (exists tool_params,
              merge_params self command params = Ok tool_params
              /\ invoke self command tool_params w = (Ok (PDict (data r)), w'))
        /\ (Py.is_str "news" command = false -> data r <> ∅))
    /\ (success r = false ->
        data r = ∅
        /\ exists msg,
             error r = Some msg
             /\ if allowed command then
                  exists e,
                    msg = exn_str e
                    /\ (merge_params self command params = Raise e /\ w' = w
                        \/ exists tool_params,
                             merge_params self command params = Ok tool_params
                             /\ (invoke self command tool_params w
                                 = (Raise e, w')
                                 \/ exists v,
                                      invoke self command tool_params w
                                      = (Ok v, w')
                                      /\ ToolResponse_new true v None
                                         = Raise e))
                else msg = not_allowed_message command
                     /\ msg <> EmptyString /\ w' = w).
Proof.
  unfold execute_command.
  destruct (allowed command) eqn:Hallowed; simpl.
  2:{ eexists _, _; split; [reflexivity|]. simpl.
      split; [discriminate|]. intros _. split; [reflexivity|].
      eexists. split; [reflexivity|]. repeat split. discriminate. }
  unfold try_except, bind at 1, lift at 1.
  destruct (merge_params self command params) as [tool_params|e].
  2:{ eexists _, _; split; [reflexivity|]. simpl.
      split; [discriminate|]. intros _. split; [reflexivity|].
      eexists. split; [reflexivity|]. exists e. split; [reflexivity|].
      left. by split. }
  unfold bind.
  destruct (invoke self command tool_params w) as [[v|e] w1] eqn:Hinvoke.
  2:{ eexists _, _; split; [reflexivity|]. simpl.
      split; [discriminate|]. intros _. split; [reflexivity|].
      eexists. split; [reflexivity|]. exists e. split; [reflexivity|].
      right. exists tool_params. split; [reflexivity|]. by left. }
  unfold lift.
  destruct (ToolResponse_new true v None) as [r|e] eqn:Hnew.
  2:{ eexists _, _; split; [reflexivity|]. simpl.
      split; [discriminate|]. intros _. split; [reflexivity|].
      eexists. split; [reflexivity|]. exists e. split; [reflexivity|].
      right. exists tool_params. split; [reflexivity|]. right.
      exists v. by split. }
  unfold ToolResponse_new, raise in Hnew.
  destruct v; try discriminate Hnew. injection Hnew as <-.
  eexists _, _; split; [reflexivity|]. simpl.
  split; [|discriminate]. intros _. split; [reflexivity|].
  split; [exists tool_params; by split|].
  intros Hnews. destruct (invoke_non_empty _ _ _ _ _ _ Hnews Hinvoke)
    as (d' & [= ->] & Hd). exact Hd.
Qed.

(** ** Transport failures of the weather and search tools *)

#[local] Abbreviation after_dispatch :=
  (after_dispatch py_repr json_loads environ net).
#[local] Abbreviation draft := (draft py_repr json_loads environ net).
#[local] Abbreviation finalize := (finalize py_repr environ net).

Lemma collect_errors_app (l1 l2 : list ToolResponse) :
  collect_errors (l1 ++ l2) = (collect_errors l1 ++ collect_errors l2)%list.
Proof. unfold collect_errors. by rewrite List.filter_app, fmap_app. Qed.

(** C2. When the HTTP request of a [weather] or [search] invocation fails
    (it raises: a timeout or any other exception), the tool catches the
    exception and returns a mapping with an ["error"] entry;
    [execute_command] wraps it as a response with [success = true] whose
    [data] holds that entry, and such a response adds nothing to the list
    of errors on which [process_request] aborts the plan: a plan that
    consists of this one command goes on to the draft. *)
Theorem transport_failure_is_success (self : ToolManager) (name : string)
    (params : gmap string pyval) (w : list Event) (e : exn)
    (t : tool) (svc : service) (key : string) :
  http_tool name = Some (t, svc, key) ->
  let arg := param (params ∪ default ∅ (defaults self !! name)) key in
  let w' := (w ++ [ToolCall t arg; HttpGet svc arg])%list in
  net w' = Raise e ->
  exists d msg,
    let r := {| success := true; data := d; error := None |} in
    execute_command self (PStr name) (PDict params) w = (Ok r, w')
    /\ d !! "error" = Some (PStr msg)
    /\ (forall before after,
          collect_errors (before ++ r :: after)
          = (collect_errors before ++ collect_errors after)%list)
    /\ (forall execute user_input commands,
          after_dispatch execute user_input commands [r]
          = (analysis <- draft user_input commands [r] ;;
             additional_info <- enrich execute analysis ;;
             finalize analysis additional_info)%M).
Proof.
  intros Htool arg w' Hnet.
  assert (Hcollect : forall d before after,
    collect_errors
      (before ++ {| success := true; data := d; error := None |} :: after)
    = (collect_errors before ++ collect_errors after)%list).
  { intros. by rewrite collect_errors_app. }
  unfold http_tool in Htool.
  destruct (String.eqb name "weather") eqn:Hw.
  - apply String.eqb_eq in Hw. injection Htool as <- <- <-. subst name.
    rewrite (execute_command_allowed self "weather" params w weather_allowed).
    destruct (get_weather_spec arg w) as (d & Hrun & _ & Herr).
    destruct (Herr e Hnet) as (msg & Hmsg).
    exists d, msg. split; [|split; [exact Hmsg|split; [apply Hcollect|done]]].
    unfold try_except, bind, invoke. simpl. fold arg.
    unfold bind, ret. rewrite Hrun. reflexivity.
  - destruct (String.eqb name "search") eqn:Hs; [|discriminate].
    apply String.eqb_eq in Hs. injection Htool as <- <- <-. subst name.
    rewrite (execute_command_allowed self "search" params w search_allowed).
    destruct (search_spec arg w) as (d & Hrun & _ & Herr).
    destruct (Herr e Hnet) as (msg & Hmsg).
    exists d, msg. split; [|split; [exact Hmsg|split; [apply Hcollect|done]]].
    unfold try_except, bind, invoke. simpl. fold arg.
    unfold bind, ret. rewrite Hrun. reflexivity.
Qed.

(** ** String lemmas *)

#[local] Arguments String.append !_ _ / : simpl nomatch.

Lemma append_empty_r (s : string) : s ++ EmptyString = s.
Proof. induction s; simpl; congruence. Qed.

Lemma append_assoc (a b c : string) : (a ++ b) ++ c = a ++ (b ++ c).
Proof. induction a; simpl; congruence. Qed.

Lemma startswith_append (p s : string) : Str.startswith p (p ++ s) = true.
Proof.
  induction p as [|c p IH]; simpl; [reflexivity|].
  by rewrite Ascii.eqb_refl, IH.
Qed.

Lemma drop_append (p s : string) : Str.drop (String.length p) (p ++ s) = s.
Proof. induction p; simpl; [by destruct s|done]. Qed.

Lemma partition_prefix (sep s : string) :
  Str.startswith sep s = true ->
  Str.partition sep s = Some (EmptyString, Str.drop (String.length sep) s).
Proof. intros H. destruct s; simpl; by rewrite H. Qed.

Lemma split_fuel_cons (fuel : nat) (sep s : string) :
  exists x rest, Str.split_fuel fuel sep s = x :: rest.
Proof.
  destruct fuel as [|fuel]; simpl; [eauto|].
  destruct (Str.partition sep s) as [[a b]|]; eauto.
Qed.

Lemma drop_length (n : nat) (s : string) :
  String.length (Str.drop n s) = String.length s - n.
Proof.
  revert s. induction n as [|n IH]; intros [|c s]; simpl; try lia.
  by rewrite IH.
Qed.

Lemma startswith_length (p s : string) :
  Str.startswith p s = true -> String.length p <= String.length s.
Proof.
  revert s. induction p as [|a p IH]; intros [|b s]; cbn [Str.startswith];
    intros H; try discriminate; simpl; try lia.
  apply andb_true_iff in H as [_ H]. specialize (IH s H). lia.
Qed.

(** What follows a cut is shorter than the text that was cut. *)
Lemma partition_shorter (c : ascii) (sep s a b : string) :
  Str.partition (String c sep) s = Some (a, b) ->
  String.length b < String.length s.
Proof.
  revert a. induction s as [|c' s IH]; intros a; cbn [Str.partition].
  - discriminate.
  - destruct (Str.startswith (String c sep) (String c' s)) eqn:E.
    + intros [= <- <-]. rewrite drop_length.
      apply startswith_length in E. simpl in *. lia.
    + destruct (Str.partition (String c sep) s) as [[a' b']|] eqn:E';
        [|discriminate].
      intros [= <- <-]. specialize (IH a' eq_refl). simpl. lia.
Qed.

(** The fuel [length s] of [split] and [replace] is enough: more fuel
    changes nothing. *)
Lemma split_fuel_enough (c : ascii) (sep : string) (n m : nat) (s : string) :
  String.length s <= n -> String.length s <= m ->
  Str.split_fuel n (String c sep) s = Str.split_fuel m (String c sep) s.
Proof.
  revert m s. induction n as [|n IH]; intros m s Hn Hm.
  - destruct s; [|simpl in Hn; lia]. by destruct m.
  - destruct m as [|m].
    + destruct s; [reflexivity|simpl in Hm; lia].
    + cbn [Str.split_fuel].
      destruct (Str.partition (String c sep) s) as [[a b]|] eqn:E;
        [|reflexivity].
      apply partition_shorter in E. f_equal. apply IH; lia.
Qed.

Lemma replace_fuel_enough (c : ascii) (old new : string) (n m : nat)
    (s : string) :
  String.length s <= n -> String.length s <= m ->
  Str.replace_fuel n (String c old) new s
  = Str.replace_fuel m (String c old) new s.
Proof.
  revert m s. induction n as [|n IH]; intros m s Hn Hm.
  - destruct s; [|simpl in Hn; lia]. by destruct m.
  - destruct m as [|m].
    + destruct s; [reflexivity|simpl in Hm; lia].
    + cbn [Str.replace_fuel].
      destruct (Str.partition (String c old) s) as [[a b]|] eqn:E;
        [|reflexivity].
      apply partition_shorter in E. do 2 f_equal. apply IH; lia.
Qed.

(** A text that starts with a non-empty separator splits into at least two
    pieces, so that [split(sep)[1]] exists. *)
Lemma split_prefix (c : ascii) (sep s : string) :
  Str.startswith (String c sep) s = true ->
  exists x rest, Str.split (String c sep) s = EmptyString :: x :: rest.
Proof.
  intros H. unfold Str.split.
  destruct s as [|c' s']; [discriminate|].
  cbn [String.length Str.split_fuel]. rewrite (partition_prefix _ _ H).
  destruct (Str.split_fuel (String.length s') (String c sep)
              (Str.drop (String.length (String c sep)) (String c' s')))
    as [|x rest] eqn:E.
  - destruct (split_fuel_cons (String.length s') (String c sep)
                (Str.drop (String.length (String c sep)) (String c' s')))
      as (x & rest & Hx). congruence.
  - eauto.
Qed.

Lemma remove_markdown_total (response : string) :
  exists s, remove_markdown response = Ok s.
Proof.
  unfold remove_markdown.
  assert (Hclose : forall r : string, exists s,
    (if Str.endswith "```" r then item0 (Str.rsplit1 "```" r) else Ok r)
    = Ok s).
  { intros r. destruct (Str.endswith "```" r); [|eauto].
    unfold Str.rsplit1. destruct (Str.rpartition "```" r) as [[a b]|];
      simpl; eauto. }
  destruct (Str.startswith "```json" response) eqn:H1.
  - destruct (split_prefix _ _ _ H1) as (x & rest & ->). simpl. apply Hclose.
  - destruct (Str.startswith "```" response) eqn:H2.
    + destruct (split_prefix _ _ _ H2) as (x & rest & ->). simpl. apply Hclose.
    + simpl. apply Hclose.
Qed.

Lemma cleaned_total (reply : string) : exists c, cleaned reply = Ok c.
Proof.
  unfold cleaned.
  destruct (remove_markdown_total (Str.strip reply)) as (s & ->).
  simpl. eauto.
Qed.

(** ** The structured-output parser: unrecognised shapes *)

#[local] Abbreviation parse_reply := (parse_reply json_loads).

(** C3, as the code has it.  When the cleaned text of a reply begins with
    neither [[] nor [{], the parser raises a [ValueError] whose text is the
    fixed sentence "Response neither starts with [ nor {"; it returns no
    value, and the text of the reply is not part of the message. *)
Theorem parse_reply_rejects_other_shapes (reply c : string) :
  cleaned reply = Ok c ->
  Str.startswith "[" c = false ->
  Str.startswith "{" c = false ->
  parse_reply reply
  = Raise (Exn ValueError "Response neither starts with [ nor {").
Proof.
  unfold cleaned, parse_reply. intros Hc Hl Hb.
  destruct (remove_markdown (Str.strip reply)) as [response|e];
    simpl in *; [|discriminate].
  injection Hc as <-. by rewrite Hl, Hb.
Qed.

(** ** The structured-output parser: fences *)

Lemma no_backtick_cons (c : ascii) (s : string) :
  no_backtick (String c s) = true ->
  Ascii.eqb backtick c = false /\ no_backtick s = true.
Proof.
  simpl. intros H. apply andb_true_iff in H as [H1 H2].
  split; [by apply negb_true_iff|done].
Qed.

(** A separator that begins with a backtick is not found inside a text
    without backticks: the search moves on to what follows the text. *)
Lemma partition_skip (body sep t : string) :
  no_backtick body = true ->
  Str.partition (String backtick sep) (body ++ t)
  = match Str.partition (String backtick sep) t with
    | Some (a, b) => Some (body ++ a, b)
    | None => None
    end.
Proof.
  intros H. induction body as [|c body IH].
  - simpl. by destruct (Str.partition _ t) as [[a b]|].
  - apply no_backtick_cons in H as [Hc Hbody].
    change (String c body ++ t) with (String c (body ++ t)).
    cbn [Str.partition Str.startswith]. rewrite Hc. cbn [andb].
    rewrite (IH Hbody). by destruct (Str.partition _ t) as [[a b]|].
Qed.








(** ** The structured-output parser: truncation and dispatch *)





Lemma brace_not_bracket (c : string) :
  Str.startswith "{" c = true -> Str.startswith "[" c = false.
Proof.
  destruct c as [|a c']; [discriminate|]. cbn [Str.startswith].
  rewrite !andb_true_r. intros H. apply Ascii.eqb_eq in H. by subst a.
Qed.


(** ** The orchestrator: the plan aborts on any failure *)

#[local] Abbreviation process_request :=
  (process_request py_repr json_loads validation_message environ net tz_now
     utc_now).
#[local] Abbreviation plan_commands :=
  (plan_commands py_repr json_loads environ net).

Lemma gather_commands_total (self : ToolManager)
    (commands : list (pyval * pyval)) (w : list Event) :
  exists rs w',
    gather_commands (execute_command self) commands w = (Ok rs, w')
    /\ length rs = length commands
    /\ Forall (fun r => success r = false -> exists msg, error r = Some msg)
         rs.
Proof.
  revert w. induction commands as [|cp commands IH]; intros w.
  - exists [], w. repeat split; constructor.
  - destruct (execute_command_cases self (fst cp) (snd cp) w)
      as (r & w1 & Hr & _ & Hfail).
    destruct (IH w1) as (rs & w' & Hrs & Hlen & Hall).
    exists (r :: rs), w'. unfold gather_commands in *.
    cbn [mapM]. unfold bind at 1. rewrite Hr.
    unfold bind at 1. rewrite Hrs. unfold ret.
    split; [reflexivity|]. split; [simpl; by rewrite Hlen|].
    constructor; [|exact Hall]. intros H. by apply Hfail.
Qed.

Lemma str_items_failures (rs : list ToolResponse) (i : nat) :
  Forall (fun r => success r = false -> exists msg, error r = Some msg) rs ->
  str_items i (collect_errors rs) = Ok (failure_texts rs).
Proof.
  unfold collect_errors, failure_texts. intros H. revert i.
  induction H as [|r rs Hr _ IH]; intros i; [reflexivity|].
  cbn [List.filter]. destruct (success r) eqn:Hs; cbn [negb]; [apply IH|].
  destruct (Hr eq_refl) as (msg & Hmsg).
  cbn [fmap list_fmap omap list_omap str_items]. rewrite Hmsg.
  cbn [rbind]. change (list_fmap _ _ error) with (fmap (M:=list) error).
  rewrite (IH (S i)). reflexivity.
Qed.

Lemma contains_middle (a e b : string) : Str.contains e (a ++ e ++ b) = true.
Proof.
  unfold Str.contains. induction a as [|c a IH].
  - change (EmptyString ++ e ++ b) with (e ++ b).
    by rewrite (partition_prefix _ _ (startswith_append e b)).
  - change (String c a ++ e ++ b) with (String c (a ++ e ++ b)).
    cbn [Str.partition].
    destruct (Str.startswith e (String c (a ++ e ++ b))); [reflexivity|].
    by destruct (Str.partition e (a ++ e ++ b)) as [[x y]|].
Qed.

Lemma join_middle (sep e : string) (l : list string) :
  e ∈ l -> exists a b, Str.join sep l = a ++ e ++ b.
Proof.
  induction l as [|x l IH]; [by intros ?%elem_of_nil|].
  intros [-> | Hin]%elem_of_cons.
  - destruct l as [|y l].
    + exists EmptyString, EmptyString. simpl. by rewrite append_empty_r.
    + exists EmptyString, (sep ++ Str.join sep (y :: l)). reflexivity.
  - destruct l as [|y l]; [by apply elem_of_nil in Hin|].
    destruct (IH Hin) as (a & b & Hab).
    exists (x ++ sep ++ a), b.
    change (Str.join sep (x :: y :: l))
      with (x ++ sep ++ Str.join sep (y :: l)).
    by rewrite Hab, !append_assoc.
Qed.

Lemma failure_text_listed (rs : list ToolResponse) (r : ToolResponse)
    (text : string) :
  r ∈ rs -> success r = false -> error r = Some text ->
  text ∈ failure_texts rs.
Proof.
  intros Hin Hs He. unfold failure_texts. apply list_elem_of_omap.
  exists r. split; [|exact He].
  apply list_elem_of_In, filter_In. split; [by apply list_elem_of_In|].
  by rewrite Hs.
Qed.

(** C1. When the execution of a plan yields at least one response with
    [success = false], [process_request] returns the text
    "Error(s) occurred: " followed by the error texts of all failed
    responses joined with "; " (each of them occurs in it, and nothing of
    the successful responses does), and the log of external calls ends
    where the execution of the plan ended: no draft, no enrichment search
    and no final model call is made. *)
Theorem failed_plan_aborts (self : LLMAgent) (user_input : string)
    (w w1 w2 : list Event) (commands : list (pyval * pyval))
    (rs : list ToolResponse) :
  plan_commands user_input w = (Ok commands, w1) ->
  gather_commands (execute_command (tool_manager self)) commands w1
  = (Ok rs, w2) ->
  (exists r, r ∈ rs /\ success r = false) ->
  let report := "Error(s) occurred: " ++ Str.join "; " (failure_texts rs) in
  process_request self user_input w = (Ok (PStr report), w2)
  /\ (forall r, r ∈ rs -> success r = false ->
      exists text,
        error r = Some text /\ text ∈ failure_texts rs
        /\ Str.contains text report = true).
Proof.
  intros Hplan Hrun (r0 & Hin0 & Hfail0) report.
  destruct (gather_commands_total (tool_manager self) commands w1)
    as (rs' & w2' & Hrun' & _ & Hall).
  rewrite Hrun in Hrun'. injection Hrun' as <- <-.
  split.
  - unfold process_request, bind. rewrite Hplan, Hrun.
    unfold after_dispatch.
    destruct (collect_errors rs) as [|e errors] eqn:Herrors.
    + exfalso. unfold collect_errors in Herrors.
      apply fmap_nil_inv in Herrors.
      assert (Hin : In r0 (List.filter (fun resp => negb (success resp)) rs)).
      { apply filter_In. split; [by apply list_elem_of_In|]. by rewrite Hfail0. }
      rewrite Herrors in Hin. destruct Hin.
    + rewrite <- Herrors. unfold bind, lift, error_report.
      rewrite (str_items_failures rs 0 Hall). reflexivity.
  - intros r Hin Hfail.
    rewrite Forall_forall in Hall.
    destruct (Hall r Hin Hfail) as (text & Htext).
    exists text. split; [exact Htext|].
    pose proof (failure_text_listed rs r text Hin Hfail Htext) as Hlisted.
    split; [exact Hlisted|].
    destruct (join_middle "; " text _ Hlisted) as (a & b & Hab).
    subst report. rewrite Hab.
    rewrite <- (append_assoc "Error(s) occurred: " a (text ++ b)).
    apply contains_middle.
Qed.

(** ** The orchestrator: enrichment is fail-soft *)

Lemma search_each_spec (execute : pyval -> pyval -> M ToolResponse) :
  (forall c p w0, exists r w1, execute c p w0 = (Ok r, w1)) ->
  forall queries additional_info w,
  exists rs w',
    mapM (search_call execute) queries w = (Ok rs, w')
    /\ length rs = length queries
    /\ search_each execute queries additional_info w
       = (Ok (additional_info ++ enrichment_items queries rs)%list, w').
Proof.
  intros Htotal queries.
  induction queries as [|query queries IH]; intros additional_info w.
  - exists [], w. cbn. by rewrite app_nil_r.
  - destruct (Htotal (PStr "search") (PDict {[ "query" := query ]}) w)
      as (r & w1 & Hr).
    destruct (IH (if success r
                  then (additional_info
                        ++ [PDict {[ "query" := query;
                                     "data" := PDict (data r) ]}])%list
                  else additional_info) w1) as (rs & w' & Hrs & Hlen & Heach).
    exists (r :: rs), w'.
    cbn [mapM search_each]. unfold bind at 1. unfold search_call at 1.
    rewrite Hr. unfold bind at 1. rewrite Hrs. unfold ret.
    split; [reflexivity|]. split; [simpl; by rewrite Hlen|].
    unfold bind. rewrite Hr, Heach. cbn [enrichment_items].
    destruct (success r); [|reflexivity]. by rewrite <- app_assoc.
Qed.

(** C7. For a draft analysis and a dispatcher that answers every call,
    the enrichment phase calls the dispatcher's [search] command once for
    each entry of [needs_search], in order, with the entry as [query]; the
    responses with [success = false] are left out and raise nothing, the
    others are collected as [{query, data}] entries; when [needs_search] is
    absent or empty nothing is called, and the final prompt is built from
    an empty list of entries. *)
Theorem enrichment_is_fail_soft (execute : pyval -> pyval -> M ToolResponse)
    (analysis : gmap string pyval) (w : list Event) :
  (forall c p w0, exists r w1, execute c p w0 = (Ok r, w1)) ->
  (forall queries,
     analysis !! "needs_search" = Some (PList queries) ->
     exists rs w',
       mapM (search_call execute) queries w = (Ok rs, w')
       /\ length rs = length queries
       /\ enrich execute (PDict analysis) w
          = (Ok (enrichment_items queries rs), w'))
  /\ (analysis !! "needs_search" = None
      \/ analysis !! "needs_search" = Some (PList []) ->
      enrich execute (PDict analysis) w = (Ok [], w)
      /\ (additional_info <- enrich execute (PDict analysis) ;;
          finalize (PDict analysis) additional_info)%M w
         = finalize (PDict analysis) [] w).
Proof.
  intros Htotal. split.
  - intros queries Hq.
    destruct (search_each_spec execute Htotal queries [] w)
      as (rs & w' & Hrs & Hlen & Heach).
    exists rs, w'. split; [exact Hrs|]. split; [exact Hlen|].
    unfold enrich, bind, lift. cbn [Py.get Py.getitem]. rewrite Hq.
    cbn [default]. destruct queries as [|q queries].
    + cbn in *. injection Hrs as <- <-. reflexivity.
    + cbn [Py.truthy Py.iter]. exact Heach.
  - intros Hempty.
    assert (Henrich : enrich execute (PDict analysis) w = (Ok [], w)).
    { unfold enrich, bind, lift. cbn [Py.get].
      destruct Hempty as [-> | ->]; reflexivity. }
    split; [exact Henrich|]. unfold bind at 1. by rewrite Henrich.
Qed.

Lemma execute_search (self : ToolManager) (q : pyval) (w : list Event) :
  exists d,
    execute_command self (PStr "search") (PDict {[ "query" := q ]}) w
    = (Ok {| success := true; data := d; error := None |},
       (w ++ [ToolCall SearchTool q; HttpGet GoogleSearch q])%list).
Proof.
  rewrite (execute_command_allowed self "search" {[ "query" := q ]} w
             search_allowed).
  set (arg := param ({[ "query" := q ]}
                     ∪ default ∅ (defaults self !! "search")) "query").
  assert (Harg : arg = q).
  { subst arg. rewrite param_union. by rewrite lookup_singleton_eq. }
  destruct (search_spec q w) as (d & Hrun & _ & _). exists d.
  unfold try_except, bind, invoke. simpl. fold arg.
  unfold bind, ret. rewrite Harg, Hrun. reflexivity.
Qed.

(** With the dispatcher of this program every follow-up search is
    answered with [success = true], a failed request included, so every
    entry of [needs_search] is collected and the log grows by one tool call
    and one request per entry. *)
Lemma enrich_collects_all (self : ToolManager) (queries acc : list pyval)
    (w : list Event) :
  exists ds,
    length ds = length queries
    /\ search_each (execute_command self) queries acc w
       = (Ok (acc ++ zip_with
                       (fun q d => PDict {[ "query" := q; "data" := PDict d ]})
                       queries ds)%list,
          (w ++ flat_map (fun q => [ToolCall SearchTool q;
                                    HttpGet GoogleSearch q]) queries)%list).
Proof.
  revert acc w. induction queries as [|q queries IH]; intros acc w.
  - exists []. cbn. by rewrite !app_nil_r.
  - destruct (execute_search self q w) as (d & Hexec).
    destruct (IH (acc ++ [PDict {[ "query" := q; "data" := PDict d ]}])%list
                (w ++ [ToolCall SearchTool q; HttpGet GoogleSearch q])%list)
      as (ds & Hlen & Heach).
    exists (d :: ds). split; [simpl; by rewrite Hlen|].
    cbn [search_each]. unfold bind. rewrite Hexec. cbn [success data].
    rewrite Heach. cbn [zip_with flat_map]. by rewrite <- !app_assoc.
Qed.

End AgentProperties.

(** ** The rate limiter *)

Lemma Qltb_true (a b : Q) : RateLimiter.Qltb a b = true -> (a < b)%Q.
Proof.
  unfold RateLimiter.Qltb. intros H. apply negb_true_iff in H.
  apply Qnot_le_lt. intros Hle. apply Qle_bool_iff in Hle. congruence.
Qed.

Lemma Qltb_false (a b : Q) : RateLimiter.Qltb a b = false -> (b <= a)%Q.
Proof.
  unfold RateLimiter.Qltb. intros H. apply negb_false_iff in H.
  by apply Qle_bool_iff.
Qed.

(** C8. With the limiter configured for 10 requests per minute the
    interval is 6 seconds.  When [wait] is called twice, the second call
    starting no earlier than the first one resolved: the time the first
    call records in [last_request_time] lies inside that call, not before
    it began and not after it resolved; the second call records a time at
    least 6 seconds later and does not resolve before it; so the second
    call resolves no earlier than 6 seconds after the time the first call
    recorded, and no earlier than 6 seconds after the first call began.
    (Exact arithmetic on a clock that only moves forward.) *)
Theorem wait_spaces_calls (self0 self : RateLimiter.t)
    (d1 d2 : RateLimiter.schedule) (now gap : Q) :
  RateLimiter.init 10 = Ok self0 ->
  RateLimiter.interval self = RateLimiter.interval self0 ->
  RateLimiter.on_time d1 -> RateLimiter.on_time d2 -> (0 <= gap)%Q ->
  let first := RateLimiter.wait d1 self now in
  let second := RateLimiter.wait d2 (fst first) (snd first + gap) in
  let recorded1 := RateLimiter.last_request_time (fst first) in
  let recorded2 := RateLimiter.last_request_time (fst second) in
  (RateLimiter.interval self0 == 6)%Q
  /\ (now <= recorded1)%Q /\ (recorded1 <= snd first)%Q
  /\ (recorded1 + 6 <= recorded2)%Q /\ (recorded2 <= snd second)%Q
  /\ (recorded1 + 6 <= snd second)%Q
  /\ (now + 6 <= snd second)%Q.
Proof.
  intros Hinit Hself (Ho1 & Hs1 & Hr1) (Ho2 & Hs2 & Hr2) Hgap.
  injection Hinit as <-. cbn [RateLimiter.interval] in Hself.
  assert (Hsix : (RateLimiter.interval self == 6)%Q)
    by (rewrite Hself; reflexivity).
  cbv zeta. split; [reflexivity|].
  unfold RateLimiter.wait. cbn [fst snd RateLimiter.last_request_time
                                 RateLimiter.interval].
  set (I := RateLimiter.interval self) in *.
  set (L := RateLimiter.last_request_time self).
  destruct (RateLimiter.Qltb (now - L) I) eqn:E1;
    [apply Qltb_true in E1 | apply Qltb_false in E1];
    match goal with
    | |- context [RateLimiter.Qltb ?a I] =>
        destruct (RateLimiter.Qltb a I) eqn:E2;
          [apply Qltb_true in E2 | apply Qltb_false in E2]
    end; repeat split; lra.
Qed.

(** ** The model-client configuration *)

(** C9, as the code has it.  Constructing the configuration raises a
    [ValueError] at once when no API key is given and [LLM_API_KEY] is
    absent from the environment (or empty); with a key it succeeds, whether
    or not a model identifier or an endpoint URL is there: the
    configuration then simply holds what [LLM_MODEL] and [LLM_API_URL]
    provide, possibly nothing. *)
Theorem config_checks_api_key_only (environ : gmap string string)
    (api_url api_key : option string) (p : LLMProvider) :
  (missing api_key /\ missing (environ !! "LLM_API_KEY") ->
   LLMConfig.init environ api_url api_key (inl p)
   = Raise (Exn ValueError
              "API key not provided and LLM_API_KEY not found in environment"))
  /\ (forall key,
        key <> EmptyString ->
        api_key = Some key
        \/ (missing api_key /\ environ !! "LLM_API_KEY" = Some key) ->
        LLMConfig.init environ api_url api_key (inl p)
        = Ok {| LLMConfig.provider := p;
                LLMConfig.api_url :=
                  LLMConfig.or_else api_url (environ !! "LLM_API_URL");
                LLMConfig.api_key := Some key;
                LLMConfig.model := environ !! "LLM_MODEL" |}).
Proof.
  unfold LLMConfig.init, missing. cbn [rbind]. split.
  - intros [[-> | ->] [-> | ->]]; reflexivity.
  - intros key Hkey [-> | [[-> | ->] ->]];
      destruct key; try done; reflexivity.
Qed.

(** * The statements on the sample world *)

Section SampleRuns.

#[local] Abbreviation execute_command :=
  (execute_command Sample.py_repr Sample.validation_message Sample.net
     Sample.tz_now Sample.utc_now).
#[local] Abbreviation process_request :=
  (process_request Sample.py_repr Sample.json_loads Sample.validation_message
     Sample.environ Sample.net Sample.tz_now Sample.utc_now).
#[local] Abbreviation plan_commands :=
  (plan_commands Sample.py_repr Sample.json_loads Sample.environ Sample.net).
#[local] Abbreviation parse_reply := (parse_reply Sample.json_loads).

Lemma fly_not_allowed : "fly" ∉ ALLOWED_COMMANDS.
Proof.
  unfold ALLOWED_COMMANDS. intros H.
  repeat (apply elem_of_cons in H as [H|H]; [discriminate|]).
  by apply elem_of_nil in H.
Qed.

(** C4 on the sample: the command [fly]. *)
Lemma execute_command_rejects_unlisted_witness :
  ("fly" ∉ ALLOWED_COMMANDS)
  /\ (exists r msg,
        execute_command Sample.manager (PStr "fly") (PDict ∅) [] = (Ok r, [])
        /\ success r = false /\ data r = ∅
        /\ error r = Some msg /\ msg <> EmptyString).
Proof.
  split; [exact fly_not_allowed|].
  exact (execute_command_rejects_unlisted Sample.py_repr
           Sample.validation_message Sample.net Sample.tz_now Sample.utc_now
           Sample.manager "fly" (PDict ∅) [] fly_not_allowed).
Defined.

(** C5 on the sample: [weather] with a caller who gives [units] and leaves
    [location] to the default. *)
Lemma execute_command_merges_params_witness :
  ("weather" ∈ ALLOWED_COMMANDS)
  /\ (exists tool_params,
        merge_params Sample.manager (PStr "weather")
          (PDict {[ "units" := PStr "metric" ]}) = Ok tool_params
        /\ tool_params !! "units" = Some (PStr "metric")
        /\ tool_params !! "location" = Some (PStr "London, UK")).
Proof.
  split; [exact weather_allowed|].
  destruct (execute_command_merges_params Sample.py_repr
              Sample.validation_message Sample.net Sample.tz_now
              Sample.utc_now Sample.manager "weather"
              {[ "units" := PStr "metric" ]} [] weather_allowed)
    as (tool_params & Hmerge & _ & Hgiven & Hleft & _).
  exists tool_params. split; [exact Hmerge|]. split.
  - apply Hgiven. reflexivity.
  - rewrite Hleft; reflexivity.
Defined.

(** C2 on the sample: the weather request times out. *)
Lemma transport_failure_is_success_witness :
  let arg := PStr "London, UK" in
  let w' := [ToolCall WeatherTool arg; HttpGet OpenWeatherMap arg] in
  http_tool "weather" = Some (WeatherTool, OpenWeatherMap, "location")
  /\ Sample.net w' = Raise (Exn Timeout "Read timed out.")
  /\ exists d msg,
       execute_command Sample.manager (PStr "weather") (PDict ∅) []
       = (Ok {| success := true; data := d; error := None |}, w')
       /\ d !! "error" = Some (PStr msg).
Proof.
  intros arg w'. split; [reflexivity|]. split; [reflexivity|].
  destruct (transport_failure_is_success Sample.py_repr Sample.json_loads
              Sample.validation_message Sample.environ Sample.net
              Sample.tz_now Sample.utc_now Sample.manager "weather" ∅ []
              (Exn Timeout "Read timed out.") WeatherTool OpenWeatherMap
              "location" eq_refl eq_refl)
    as (d & msg & Hrun & Herr & _).
  exists d, msg. split; [exact Hrun|exact Herr].
Defined.

(** C10 fails on the sample, in both halves.  The news service answers
    with the empty object, and the response is a success whose [data] is
    empty; and when the request of the news tool raises an exception that
    carries no text, the response is a failure whose [error] is the empty
    string: then neither field holds anything. *)
Lemma neither_field_meaningful :
  Sample.execute (PStr "news") (PDict ∅) []
  = (Ok {| success := true; data := ∅; error := None |},
     [ToolCall NewsTool (PStr "technology");
      HttpGet NewsApi (PStr "technology")])
  /\ Sample.execute_textless (PStr "news") (PDict ∅) []
     = (Ok {| success := false; data := ∅; error := Some EmptyString |},
        [ToolCall NewsTool (PStr "technology");
         HttpGet NewsApi (PStr "technology")]).
Proof. split; reflexivity. Qed.

(** C3 on the sample: the reply [hello]. *)
Lemma parse_reply_rejects_other_shapes_witness :
  cleaned "hello" = Ok "hello"
  /\ Str.startswith "[" "hello" = false
  /\ Str.startswith "{" "hello" = false
  /\ parse_reply "hello"
     = Raise (Exn ValueError "Response neither starts with [ nor {").
Proof.
  repeat (split; [reflexivity|]).
  exact (parse_reply_rejects_other_shapes Sample.json_loads "hello" "hello"
           eq_refl eq_refl eq_refl).
Defined.

(** C3 fails on the sample: the error raised for the reply [hello] does
    not contain the reply. *)
Lemma parse_error_omits_reply :
  exists e,
    parse_reply "hello" = Raise e
    /\ Str.contains "hello" (exn_str e) = false.
Proof. eexists. split; reflexivity. Qed.


(** C9 fails on the sample: with a key, but neither a model identifier nor
    an endpoint URL, the configuration is constructed. *)
Lemma config_without_model_and_url :
  Sample.environ !! "LLM_MODEL" = None
  /\ Sample.environ !! "LLM_API_URL" = None
  /\ LLMConfig.init Sample.environ None None (inl MISTRAL)
     = Ok {| LLMConfig.provider := MISTRAL; LLMConfig.api_url := None;
             LLMConfig.api_key := Some "secret"; LLMConfig.model := None |}.
Proof. repeat split; reflexivity. Qed.

(** C1 on the sample: the plan [weather, fly]; the weather request times
    out (a success with an error entry), [fly] is rejected. *)
Lemma failed_plan_aborts_witness :
  let question := "What is the weather?" in
  let commands := [(PStr "weather", PDict ∅); (PStr "fly", PDict ∅)] in
  let planned := plan_commands question [] in
  let ran :=
    gather_commands (execute_command Sample.manager) commands (snd planned) in
  fst planned = Ok commands
  /\ (exists rs,
        fst ran = Ok rs
        /\ (exists r, r ∈ rs /\ success r = false)
        /\ process_request Sample.agent question []
           = (Ok (PStr ("Error(s) occurred: "
                        ++ Str.join "; " (failure_texts rs))),
              snd ran)).
Proof.
  intros question commands planned ran. split; [reflexivity|].
  eexists. split; [reflexivity|].
  assert (Hfail : exists r : ToolResponse,
    r ∈ [ {| success := true;
             data := weather_failure
                       (PStr "Request timed out after multiple retries")
                       (PStr "London, UK");
             error := None |};
          {| success := false; data := ∅;
             error := Some (not_allowed_message Sample.py_repr (PStr "fly")) |} ]
    /\ success r = false).
  { eexists. split; [apply elem_of_cons; right; apply elem_of_cons; by left|reflexivity]. }
  split; [exact Hfail|].
  exact (proj1 (failed_plan_aborts Sample.py_repr Sample.json_loads
                  Sample.validation_message Sample.environ Sample.net
                  Sample.tz_now Sample.utc_now Sample.agent question
                  [] (snd planned) (snd ran) commands _
                  eq_refl eq_refl Hfail)).
Defined.

Lemma sample_execute_total (c p : pyval) (w0 : list Event) :
  exists r w1, Sample.execute c p w0 = (Ok r, w1).
Proof.
  destruct (execute_command_cases Sample.py_repr Sample.validation_message
              Sample.net Sample.tz_now Sample.utc_now Sample.manager c p w0)
    as (r & w1 & H & _). eauto.
Qed.

(** C7 on the sample: one follow-up query. *)
Lemma enrichment_is_fail_soft_witness :
  (forall c p w0, exists r w1, Sample.execute c p w0 = (Ok r, w1))
  /\ Sample.analysis_fields !! "needs_search"
     = Some (PList [PStr "coat shops"])
  /\ (exists rs w',
        mapM (search_call Sample.execute) [PStr "coat shops"] [] = (Ok rs, w')
        /\ length rs = 1
        /\ enrich Sample.execute Sample.analysis []
           = (Ok (enrichment_items [PStr "coat shops"] rs), w')).
Proof.
  split; [exact sample_execute_total|]. split; [reflexivity|].
  exact (proj1 (enrichment_is_fail_soft Sample.py_repr Sample.environ
                  Sample.net Sample.execute Sample.analysis_fields []
                  sample_execute_total)
           [PStr "coat shops"] eq_refl).
Defined.

Lemma punctual_on_time : RateLimiter.on_time Sample.punctual.
Proof. repeat split; apply Qle_refl. Qed.

(** C8 on the sample: two calls back to back at time 100 on a punctual
    event loop; the first records 100, the second records 106 and resolves
    then. *)
Lemma wait_spaces_calls_witness :
  let first := RateLimiter.wait Sample.punctual Sample.limiter 100 in
  let second :=
    RateLimiter.wait Sample.punctual (fst first) (snd first + 0) in
  let recorded1 := RateLimiter.last_request_time (fst first) in
  let recorded2 := RateLimiter.last_request_time (fst second) in
  RateLimiter.init 10 = Ok Sample.limiter
  /\ RateLimiter.on_time Sample.punctual
  /\ (100 <= recorded1)%Q /\ (recorded1 <= snd first)%Q
  /\ (recorded1 + 6 <= recorded2)%Q /\ (recorded2 <= snd second)%Q
  /\ (recorded1 + 6 <= snd second)%Q
  /\ (100 + 6 <= snd second)%Q.
Proof.
  intros first second recorded1 recorded2. split; [reflexivity|].
  split; [exact punctual_on_time|].
  exact (proj2 (wait_spaces_calls Sample.limiter Sample.limiter
                  Sample.punctual Sample.punctual 100 0 eq_refl eq_refl
                  punctual_on_time punctual_on_time (Qle_refl 0))).
Defined.

(** ** Runs of the parser and of a whole request *)

Example parse_fenced_array :
  parse_reply ("```json" ++ nl ++ Sample.plan_text ++ nl ++ "```")
  = Ok [Sample.command "weather" ∅; Sample.command "fly" ∅].
Proof. reflexivity. Qed.

Example parse_bare_object :
  parse_reply Sample.analysis_text = Ok [Sample.analysis].
Proof. reflexivity. Qed.

Example request_aborted :
  fst (process_request Sample.agent "What is the weather?" [])
  = Ok (PStr "Error(s) occurred: Command fly not allowed. Allowed commands: ['search', 'news', 'weather', 'time', 'help']").
Proof. reflexivity. Qed.

End SampleRuns.

(** * More properties of the code *)

Section MoreProperties.

#[local] Arguments String.append !_ _ / : simpl nomatch.

Context (py_repr : pyval -> string) (json_loads : string -> pyval + string)
        (validation_message : pyval -> string) (environ : gmap string string)
        (net : list Event -> result pyval)
        (tz_now : list Event -> pyval -> result time_fields)
        (utc_now : list Event -> string).

#[local] Abbreviation execute_command :=
  (execute_command py_repr validation_message net tz_now utc_now).
#[local] Abbreviation invoke := (invoke py_repr net tz_now utc_now).
#[local] Abbreviation ToolResponse_new := (ToolResponse_new validation_message).
#[local] Abbreviation get_location := (get_location net).
#[local] Abbreviation lookup_location := (lookup_location net).
#[local] Abbreviation ToolManager_init := (ToolManager_init py_repr net).
#[local] Abbreviation search := (search py_repr net).
#[local] Abbreviation get_weather := (get_weather py_repr net).
#[local] Abbreviation get_latest_news := (get_latest_news net).
#[local] Abbreviation get_time := (get_time py_repr tz_now utc_now).
#[local] Abbreviation chat_prompt := (chat_prompt py_repr environ net).
#[local] Abbreviation structured_output_prompt :=
  (structured_output_prompt py_repr json_loads environ net).
#[local] Abbreviation parse_reply := (parse_reply json_loads).
#[local] Abbreviation process_request :=
  (process_request py_repr json_loads validation_message environ net tz_now
     utc_now).
#[local] Abbreviation plan_commands :=
  (plan_commands py_repr json_loads environ net).
#[local] Abbreviation after_dispatch :=
  (after_dispatch py_repr json_loads environ net).
#[local] Abbreviation draft := (draft py_repr json_loads environ net).
#[local] Abbreviation finalize := (finalize py_repr environ net).
#[local] Abbreviation py_str := (py_str py_repr).

(** ** Geolocation and the construction of the tool manager *)

Lemma lookup_location_spec (w : list Event) :
  let w' := (w ++ [HttpGet IpApi PNone])%list in
  exists loc city country timezone,
    lookup_location w = (Ok loc, w')
    /\ loc !! "city" = Some city
    /\ loc !! "country" = Some country
    /\ loc !! "timezone" = Some timezone
    /\ (forall body,
          net w' = Ok body ->
          Py.get body "status" PNone = Ok (PStr "success") ->
          Py.get body "city" (PStr EmptyString) = Ok city
          /\ Py.get body "country" (PStr EmptyString) = Ok country
          /\ Py.get body "timezone" (PStr EmptyString) = Ok timezone)
    /\ ((forall body,
           net w' = Ok body ->
           Py.get body "status" PNone <> Ok (PStr "success")) ->
        loc = fallback_location).
Proof.
  intros w'. unfold lookup_location, try_except, bind, http_get, lift, ret.
  fold w'.
  assert (Hfall : forall r : result pyval,
    net w' = r ->
    (forall body, r = Ok body ->
       Py.get body "status" PNone <> Ok (PStr "success")) ->
    exists loc city country timezone,
      (Ok fallback_location, w') = (Ok loc, w')
      /\ loc !! "city" = Some city
      /\ loc !! "country" = Some country
      /\ loc !! "timezone" = Some timezone
      /\ (forall body,
            r = Ok body ->
            Py.get body "status" PNone = Ok (PStr "success") ->
            Py.get body "city" (PStr EmptyString) = Ok city
            /\ Py.get body "country" (PStr EmptyString) = Ok country
            /\ Py.get body "timezone" (PStr EmptyString) = Ok timezone)
      /\ ((forall body,
             r = Ok body ->
             Py.get body "status" PNone <> Ok (PStr "success")) ->
          loc = fallback_location)).
  { intros r _ Hno.
    exists fallback_location, (PStr "London"), (PStr "UK"),
      (PStr "Europe/London").
    do 4 (split; [reflexivity|]). split; [|reflexivity].
    intros b Hb Hs. by destruct (Hno b Hb). }
  destruct (net w') as [body|e] eqn:Hnet.
  - destruct (Py.get body "status" PNone) as [status|e] eqn:Hget.
    + destruct (Py.is_str "success" status) eqn:Hs.
      * destruct body; try discriminate. cbn [Py.get] in *.
        eexists _, _, _, _. split; [reflexivity|].
        do 3 (split; [reflexivity|]). split.
        -- intros b [= <-] _. auto.
        -- intros H. exfalso. apply (H (PDict d) eq_refl).
           destruct status; try discriminate.
           cbn [Py.is_str] in Hs. apply String.eqb_eq in Hs. by subst.
      * apply (Hfall (Ok body) eq_refl). intros b [= <-] Hst.
        rewrite Hst in Hget. injection Hget as <-. discriminate.
    + apply (Hfall (Ok body) eq_refl). intros b [= <-] Hst. congruence.
  - apply (Hfall (Raise e) eq_refl). discriminate.
Qed.

Lemma before_lookup_none (w : list Event) :
  Forall (fun ev => is_lookup ev = false) w -> before_lookup w = None.
Proof.
  induction 1 as [|ev w Hev _ IH]; [reflexivity|].
  cbn [before_lookup]. by rewrite Hev, IH.
Qed.

Lemma before_lookup_some (w : list Event) :
  Exists (fun ev => is_lookup ev = true) w -> is_Some (before_lookup w).
Proof.
  induction 1 as [ev w Hev|ev w _ IH]; cbn [before_lookup].
  - by rewrite Hev.
  - destruct (is_lookup ev); [done|]. by destruct IH as [w0 ->].
Qed.

(** The cache: once a geolocation request is in the log, whatever is
    logged later leaves the first one where it is. *)
Lemma before_lookup_app (w w0 evs : list Event) :
  before_lookup w = Some w0 -> before_lookup (w ++ evs)%list = Some w0.
Proof.
  revert w0. induction w as [|ev w IH]; intros w0; [discriminate|].
  cbn [before_lookup app]. destruct (is_lookup ev); [done|].
  destruct (before_lookup w) as [w1|]; [|discriminate].
  intros [= <-]. by rewrite (IH w1 eq_refl).
Qed.

Lemma before_lookup_first (w evs : list Event) (query : pyval) :
  before_lookup w = None ->
  before_lookup (w ++ HttpGet IpApi query :: evs)%list = Some w.
Proof.
  induction w as [|ev w IH]; [reflexivity|].
  cbn [before_lookup app]. destruct (is_lookup ev); [discriminate|].
  destruct (before_lookup w); [discriminate|].
  intros _. by rewrite IH.
Qed.

Lemma get_location_spec (w : list Event) :
  exists loc city country timezone w',
    get_location w = (Ok loc, w')
    /\ loc !! "city" = Some city
    /\ loc !! "country" = Some country
    /\ loc !! "timezone" = Some timezone
    /\ (before_lookup w = None ->
        w' = (w ++ [HttpGet IpApi PNone])%list
        /\ ((forall body,
               net w' = Ok body ->
               Py.get body "status" PNone <> Ok (PStr "success")) ->
            loc = fallback_location))
    /\ (is_Some (before_lookup w) -> w' = w)
    /\ (forall evs, get_location (w' ++ evs)%list = (Ok loc, (w' ++ evs)%list)).
Proof.
  unfold get_location. destruct (before_lookup w) as [w0|] eqn:Hw.
  - destruct (lookup_location_spec w0)
      as (loc & city & country & timezone & Hrun & Hc & Hn & Ht & _).
    exists loc, city, country, timezone, w. rewrite Hrun.
    split; [reflexivity|]. do 3 (split; [assumption|]).
    split; [discriminate|]. split; [done|].
    intros evs. by rewrite (before_lookup_app w w0 evs Hw), Hrun.
  - destruct (lookup_location_spec w)
      as (loc & city & country & timezone & Hrun & Hc & Hn & Ht & _ & Hfall).
    exists loc, city, country, timezone, (w ++ [HttpGet IpApi PNone])%list.
    split; [exact Hrun|]. do 3 (split; [assumption|]).
    split; [by intros _|]. split; [by intros [? [=]]|].
    intros evs. rewrite <- app_assoc. cbn [app].
    by rewrite (before_lookup_first w evs PNone Hw), Hrun.
Qed.

Lemma ToolManager_init_spec (w : list Event) :
  exists loc city country timezone w',
    let tm :=
      {| location := loc;
         defaults :=
           {[ "search" := {[ "query" := PStr "latest news" ]};
              "weather" :=
                {[ "location" :=
                     PStr (py_str city ++ ", " ++ py_str country) ]};
              "news" := {[ "topic" := PStr "technology" ]};
              "time" := {[ "timezone" := timezone ]} ]} |} in
    ToolManager_init w = (Ok tm, w')
    /\ loc !! "city" = Some city
    /\ loc !! "country" = Some country
    /\ loc !! "timezone" = Some timezone
    /\ (before_lookup w = None ->
        w' = (w ++ [HttpGet IpApi PNone])%list
        /\ ((forall body,
               net w' = Ok body ->
               Py.get body "status" PNone <> Ok (PStr "success")) ->
            loc = fallback_location))
    /\ (is_Some (before_lookup w) -> w' = w)
    /\ (forall evs,
          ToolManager_init (w' ++ evs)%list = (Ok tm, (w' ++ evs)%list)).
Proof.
  destruct (get_location_spec w)
    as (loc & city & country & timezone & w' & Hrun & Hc & Hn & Ht & Hcold
        & Hwarm & Hlater).
  exists loc, city, country, timezone, w'. cbv zeta.
  assert (Hinit : forall w1 w2,
    get_location w1 = (Ok loc, w2) ->
    ToolManager_init w1
    = (Ok {| location := loc;
             defaults :=
               {[ "search" := {[ "query" := PStr "latest news" ]};
                  "weather" :=
                    {[ "location" :=
                         PStr (py_str city ++ ", " ++ py_str country) ]};
                  "news" := {[ "topic" := PStr "technology" ]};
                  "time" := {[ "timezone" := timezone ]} ]} |}, w2)).
  { intros w1 w2 H. unfold ToolManager_init, bind, lift, ret. rewrite H.
    cbn [Py.getitem]. by rewrite Hc, Hn, Ht. }
  split; [by apply Hinit|]. do 3 (split; [assumption|]).
  split; [exact Hcold|]. split; [exact Hwarm|].
  intros evs. apply Hinit, Hlater.
Qed.

Lemma tool_manager_ready (w : list Event) :
  exists tm w', ToolManager_init w = (Ok tm, w').
Proof.
  destruct (ToolManager_init_spec w) as (loc & c & n & t & w' & H & _). eauto.
Qed.

(** X1. Constructing the tool manager never fails.  The manager it builds
    has a default for each of [search], [news], [weather] and [time] (the
    weather default is "city, country" of the detected location, the time
    default its timezone) and none for [help].  The first construction of
    the process sends exactly one request, the geolocation lookup, and
    when that fails, or answers with a status other than "success", the
    location is London, UK, Europe/London.  Once a lookup has been made,
    the answer is cached: a construction sends nothing, and any
    construction that follows one, whatever was called in between, builds
    the same manager without a request. *)
Theorem tool_manager_construction (w : list Event) :
  exists tm city country timezone w',
    ToolManager_init w = (Ok tm, w')
    /\ location tm !! "city" = Some city
    /\ location tm !! "country" = Some country
    /\ location tm !! "timezone" = Some timezone
    /\ defaults tm !! "search" = Some {[ "query" := PStr "latest news" ]}
    /\ defaults tm !! "news" = Some {[ "topic" := PStr "technology" ]}
    /\ defaults tm !! "weather"
       = Some {[ "location" := PStr (py_str city ++ ", " ++ py_str country) ]}
    /\ defaults tm !! "time" = Some {[ "timezone" := timezone ]}
    /\ defaults tm !! "help" = None
    /\ (Forall (fun ev => is_lookup ev = false) w ->
        w' = (w ++ [HttpGet IpApi PNone])%list
        /\ ((forall body,
               net w' = Ok body ->
               Py.get body "status" PNone <> Ok (PStr "success")) ->
            location tm = fallback_location
            /\ defaults tm !! "weather"
               = Some {[ "location" := PStr "London, UK" ]}
            /\ defaults tm !! "time"
               = Some {[ "timezone" := PStr "Europe/London" ]}))
    /\ (Exists (fun ev => is_lookup ev = true) w -> w' = w)
    /\ (forall evs,
          ToolManager_init (w' ++ evs)%list = (Ok tm, (w' ++ evs)%list)).
Proof.
  destruct (ToolManager_init_spec w)
    as (loc & city & country & timezone & w' & Hrun & Hc & Hn & Ht & Hcold
        & Hwarm & Hlater).
  cbv zeta in Hrun, Hlater.
  eexists _, city, country, timezone, w'. split; [exact Hrun|].
  cbn [location defaults].
  do 3 (split; [assumption|]). do 5 (split; [reflexivity|]).
  split; [|split; [|exact Hlater]].
  - intros Hnone. apply before_lookup_none in Hnone.
    destruct (Hcold Hnone) as [-> Hfall]. split; [reflexivity|].
    intros Hno. specialize (Hfall Hno). subst loc.
    split; [reflexivity|].
    assert (city = PStr "London") as -> by (by injection Hc).
    assert (country = PStr "UK") as -> by (by injection Hn).
    assert (timezone = PStr "Europe/London") as -> by (by injection Ht).
    split; reflexivity.
  - intros Hsome. apply Hwarm. by apply before_lookup_some.
Qed.

(** ** The dispatcher with a manager built by [ToolManager.__init__] *)

Lemma built_manager (w0 w1 : list Event) (tm : ToolManager) :
  ToolManager_init w0 = (Ok tm, w1) ->
  exists city country timezone,
    location tm !! "city" = Some city
    /\ location tm !! "country" = Some country
    /\ location tm !! "timezone" = Some timezone
    /\ defaults tm
       = {[ "search" := {[ "query" := PStr "latest news" ]};
            "weather" :=
              {[ "location" := PStr (py_str city ++ ", " ++ py_str country) ]};
            "news" := {[ "topic" := PStr "technology" ]};
            "time" := {[ "timezone" := timezone ]} ]}.
Proof.
  intros H.
  destruct (ToolManager_init_spec w0)
    as (loc & city & country & timezone & w' & Hrun & Hc & Hn & Ht & _).
  cbv zeta in Hrun. rewrite Hrun in H. injection H as <- <-.
  exists city, country, timezone. by repeat split.
Qed.

Lemma help_allowed : "help" ∈ ALLOWED_COMMANDS.
Proof. by apply allowed_spec. Qed.

Lemma news_allowed : "news" ∈ ALLOWED_COMMANDS.
Proof. by apply allowed_spec. Qed.

Lemma time_allowed : "time" ∈ ALLOWED_COMMANDS.
Proof. by apply allowed_spec. Qed.

(** X2. With a manager built by [ToolManager.__init__] and any mapping as
    [params], the command [help] succeeds without any external call (the
    log is unchanged), and the mapping under ["available_commands"]
    describes exactly the commands of the allow-list. *)
Theorem help_lists_allowed_commands (w0 w1 : list Event) (tm : ToolManager)
    (params : gmap string pyval) (w : list Event) :
  ToolManager_init w0 = (Ok tm, w1) ->
  exists texts : gmap string pyval,
    execute_command tm (PStr "help") (PDict params) w
    = (Ok {| success := true;
             data := {[ "available_commands" := PDict texts ]};
             error := None |}, w)
    /\ (forall name, is_Some (texts !! name) <-> name ∈ ALLOWED_COMMANDS).
Proof.
  intros Hbuilt.
  destruct (built_manager _ _ _ Hbuilt)
    as (city & country & timezone & _ & _ & _ & Hdefaults).
  rewrite (execute_command_allowed py_repr validation_message net tz_now
             utc_now tm "help" params w help_allowed).
  unfold try_except, bind, invoke, lift, help_result, default_of.
  cbn [Py.is_str String.eqb Ascii.eqb Bool.eqb].
  rewrite Hdefaults. cbn. eexists. split; [reflexivity|].
  intros name. rewrite <- elem_of_dom.
  rewrite !dom_insert_L, dom_singleton_L. unfold ALLOWED_COMMANDS.
  rewrite !elem_of_cons, elem_of_nil, !elem_of_union, !elem_of_singleton.
  clear. tauto.
Qed.

Lemma execute_allowed_log (self : ToolManager) (name : string)
    (params : gmap string pyval) (w : list Event) :
  name ∈ ALLOWED_COMMANDS ->
  snd (execute_command self (PStr name) (PDict params) w)
  = snd (invoke self (PStr name)
           (params ∪ default ∅ (defaults self !! name)) w).
Proof.
  intros Hin.
  rewrite (execute_command_allowed py_repr validation_message net tz_now
             utc_now self name params w Hin).
  unfold try_except, bind, lift, ret.
  destruct (invoke _ _ _ w) as [[v|e] w1]; [|reflexivity].
  by destruct (ToolResponse_new true v None).
Qed.

Lemma get_latest_news_run (topic : pyval) (w : list Event) :
  let w' := (w ++ [ToolCall NewsTool topic;
                   HttpGet NewsApi
                     (if Py.truthy topic then topic else PNone)])%list in
  get_latest_news topic w = (net w', w').
Proof.
  intros w'. unfold get_latest_news, bind, emit, http_get.
  subst w'. by rewrite <- app_assoc.
Qed.

(** X3. With a manager built by [ToolManager.__init__], a command whose
    [params] leave out the tool's parameter reaches the tool with the
    registered default: [search] with "latest news", [news] with
    "technology", [weather] with "city, country" of the detected location
    and [time] with its timezone.  Each run logs that one tool call (and,
    but for [time], its one HTTP GET call) and nothing else. *)
Theorem defaults_reach_the_tools (w0 w1 : list Event) (tm : ToolManager)
    (params : gmap string pyval) (w : list Event) :
  ToolManager_init w0 = (Ok tm, w1) ->
  exists city country timezone,
    location tm !! "city" = Some city
    /\ location tm !! "country" = Some country
    /\ location tm !! "timezone" = Some timezone
    /\ (params !! "query" = None ->
        snd (execute_command tm (PStr "search") (PDict params) w)
        = (w ++ [ToolCall SearchTool (PStr "latest news");
                 HttpGet GoogleSearch (PStr "latest news")])%list)
    /\ (params !! "topic" = None ->
        snd (execute_command tm (PStr "news") (PDict params) w)
        = (w ++ [ToolCall NewsTool (PStr "technology");
                 HttpGet NewsApi (PStr "technology")])%list)
    /\ (params !! "location" = None ->
        let place := PStr (py_str city ++ ", " ++ py_str country) in
        snd (execute_command tm (PStr "weather") (PDict params) w)
        = (w ++ [ToolCall WeatherTool place;
                 HttpGet OpenWeatherMap place])%list)
    /\ (params !! "timezone" = None ->
        snd (execute_command tm (PStr "time") (PDict params) w)
        = (w ++ [ToolCall TimeTool timezone])%list).
Proof.
  intros Hbuilt.
  destruct (built_manager _ _ _ Hbuilt)
    as (city & country & timezone & Hc & Hn & Ht & Hdefaults).
  exists city, country, timezone. do 3 (split; [assumption|]).
  split; [|split; [|split]]; intros Hnone.
  - rewrite (execute_allowed_log tm "search" params w search_allowed).
    unfold invoke, bind, ret. cbn [Py.is_str String.eqb Ascii.eqb Bool.eqb].
    rewrite param_union, Hnone, Hdefaults. cbn [default].
    change (param _ "query") with (PStr "latest news").
    by destruct (search_spec py_repr net (PStr "latest news") w)
      as (d & -> & _).
  - rewrite (execute_allowed_log tm "news" params w news_allowed).
    unfold invoke. cbn [Py.is_str String.eqb Ascii.eqb Bool.eqb].
    rewrite param_union, Hnone, Hdefaults. cbn [default].
    change (param _ "topic") with (PStr "technology").
    by rewrite get_latest_news_run.
  - intros place.
    rewrite (execute_allowed_log tm "weather" params w weather_allowed).
    unfold invoke, bind, ret. cbn [Py.is_str String.eqb Ascii.eqb Bool.eqb].
    rewrite param_union, Hnone, Hdefaults. cbn [default].
    change (param _ "location") with place.
    by destruct (get_weather_spec py_repr net place w) as (d & -> & _).
  - rewrite (execute_allowed_log tm "time" params w time_allowed).
    unfold invoke, bind, ret. cbn [Py.is_str String.eqb Ascii.eqb Bool.eqb].
    rewrite param_union, Hnone, Hdefaults. cbn [default].
    change (param _ "timezone") with timezone.
    by destruct (get_time_spec py_repr tz_now utc_now (location tm) timezone w)
      as (d & -> & _).
Qed.

(** ** The dispatcher: failures and odd parameters *)

(** X4. The news tool catches nothing: when its request raises, the
    dispatcher answers with [success = false], empty [data] and the text
    of the exception as [error], after the one tool call and its one
    request; a plan with that response is aborted with that text. *)
Theorem news_failure_is_reported (self : ToolManager)
    (params : gmap string pyval) (w : list Event) (e : exn) :
  let topic := param (params ∪ default ∅ (defaults self !! "news")) "topic" in
  let w' := (w ++ [ToolCall NewsTool topic;
                   HttpGet NewsApi
                     (if Py.truthy topic then topic else PNone)])%list in
  net w' = Raise e ->
  let r := {| success := false; data := ∅; error := Some (exn_str e) |} in
  execute_command self (PStr "news") (PDict params) w = (Ok r, w')
  /\ (forall execute user_input commands w2,
        after_dispatch execute user_input commands [r] w2
        = (Ok (PStr ("Error(s) occurred: " ++ exn_str e)), w2)).
Proof.
  intros topic w' Hnet r. split; [|reflexivity].
  rewrite (execute_command_allowed py_repr validation_message net tz_now
             utc_now self "news" params w news_allowed).
  unfold try_except, bind, invoke. cbn [Py.is_str String.eqb Ascii.eqb Bool.eqb].
  fold topic. rewrite get_latest_news_run. fold w'. by rewrite Hnet.
Qed.

(** Parameters that are false in Python ([None], [False], [0], an
    empty string, list or mapping) are skipped by the merge: the
    dispatcher behaves exactly as with an empty mapping. *)
Theorem false_params_mean_no_params (self : ToolManager)
    (command params : pyval) (w : list Event) :
  Py.truthy params = false ->
  execute_command self command params w
  = execute_command self command (PDict ∅) w.
Proof.
  intros H. unfold execute_command, merge_params. rewrite H. reflexivity.
Qed.

(** X5. Parameters that are true but cannot be iterated (a non-zero
    number, [True]) make [dict.update] raise: for an allowed command the
    dispatcher answers [success = false] with the text of that [TypeError],
    and no tool is called. *)
Theorem uniterable_params_fail (self : ToolManager) (name : string)
    (params : pyval) (w : list Event) (e : exn) :
  name ∈ ALLOWED_COMMANDS ->
  Py.truthy params = true ->
  Py.iter params = Raise e ->
  execute_command self (PStr name) params w
  = (Ok {| success := false; data := ∅; error := Some (exn_str e) |}, w)
  /\ exn_cls e = TypeError.
Proof.
  intros Hin Ht Hiter. apply allowed_spec in Hin.
  unfold execute_command, merge_params. rewrite Hin, Ht. cbn [negb].
  unfold try_except, bind, lift, ret.
  destruct params; try discriminate; cbn in *;
    injection Hiter as <-; split; reflexivity.
Qed.

(** ** The dispatcher: what it adds to the log *)

Lemma invoke_footprint (self : ToolManager) (command : pyval)
    (tool_params : gmap string pyval) (w : list Event) :
  exists evs,
    snd (invoke self command tool_params w) = (w ++ evs)%list
    /\ dispatch_footprint evs.
Proof.
  unfold invoke, dispatch_footprint.
  destruct (Py.is_str "search" command).
  { unfold bind, ret.
    destruct (search_spec py_repr net (param tool_params "query") w)
      as (d & -> & _). eexists. split; [reflexivity|]. right. right. eauto. }
  destruct (Py.is_str "news" command).
  { rewrite get_latest_news_run. eexists. split; [reflexivity|].
    right. right. eauto. }
  destruct (Py.is_str "weather" command).
  { unfold bind, ret.
    destruct (get_weather_spec py_repr net (param tool_params "location") w)
      as (d & -> & _). eexists. split; [reflexivity|]. right. right. eauto. }
  destruct (Py.is_str "time" command).
  { unfold bind, ret.
    destruct (get_time_spec py_repr tz_now utc_now (location self)
                (param tool_params "timezone") w) as (d & -> & _).
    eexists. split; [reflexivity|]. right. left. eauto. }
  exists []. split; [|by left].
  destruct (Py.is_str "help" command); unfold lift; cbn [snd];
    by rewrite app_nil_r.
Qed.

Lemma execute_command_footprint (self : ToolManager)
    (command params : pyval) (w : list Event) :
  exists evs,
    snd (execute_command self command params w) = (w ++ evs)%list
    /\ dispatch_footprint evs.
Proof.
  unfold execute_command.
  destruct (allowed command); simpl.
  2:{ exists []. split; [by rewrite app_nil_r|by left]. }
  unfold try_except, bind at 1, lift at 1.
  destruct (merge_params self command params) as [tool_params|e].
  2:{ exists []. split; [cbn; by rewrite app_nil_r|by left]. }
  destruct (invoke_footprint self command tool_params w) as (evs & Hlog & Hfp).
  exists evs. split; [|exact Hfp]. rewrite <- Hlog.
  unfold bind, lift, ret.
  destruct (invoke self command tool_params w) as [[v|e] w1]; [|reflexivity].
  by destruct (ToolResponse_new true v None).
Qed.

Lemma footprint_counts (evs : list Event) :
  dispatch_footprint evs ->
  forallb (fun ev => negb (is_model_request ev)) evs = true
  /\ length (List.filter is_tool_call evs) <= 1
  /\ length (List.filter is_http_get evs) <= 1.
Proof.
  intros [-> | [(arg & ->) | (t & arg & svc & query & ->)]]; cbn; lia.
Qed.

(** X6. Whatever the command and the parameters, one call of the
    dispatcher only extends the log, by at most one tool call and at most
    one HTTP GET call (a call that the session of the weather tool may
    retry inside), and never by a request to the model. *)
Theorem execute_command_log_footprint (self : ToolManager)
    (command params : pyval) (w : list Event) :
  exists evs,
    snd (execute_command self command params w) = (w ++ evs)%list
    /\ forallb (fun ev => negb (is_model_request ev)) evs = true
    /\ length (List.filter is_tool_call evs) <= 1
    /\ length (List.filter is_http_get evs) <= 1.
Proof.
  destruct (execute_command_footprint self command params w)
    as (evs & Hlog & Hfp).
  exists evs. split; [exact Hlog|]. by apply footprint_counts.
Qed.

(** X7. Executing a plan returns one response per command, in the order
    of the plan, and raises nothing; the log grows by at most one tool call
    and one HTTP GET call per command and by no request to the model. *)
Theorem plan_execution_footprint (self : ToolManager)
    (commands : list (pyval * pyval)) (w : list Event) :
  exists rs evs,
    gather_commands (execute_command self) commands w
    = (Ok rs, (w ++ evs)%list)
    /\ Forall2 (fun cp r =>
                  exists w0,
                    fst (execute_command self (fst cp) (snd cp) w0) = Ok r)
         commands rs
    /\ forallb (fun ev => negb (is_model_request ev)) evs = true
    /\ length (List.filter is_tool_call evs) <= length commands
    /\ length (List.filter is_http_get evs) <= length commands.
Proof.
  revert w. induction commands as [|cp commands IH]; intros w.
  - exists [], []. cbn. rewrite app_nil_r. repeat split; try lia. constructor.
  - destruct (execute_command_cases py_repr validation_message net tz_now
                utc_now self (fst cp) (snd cp) w) as (r & w1 & Hr & _).
    destruct (execute_command_footprint self (fst cp) (snd cp) w)
      as (evs1 & Hlog & Hfp).
    rewrite Hr in Hlog. cbn [snd] in Hlog. subst w1.
    destruct (footprint_counts _ Hfp) as (Hm1 & Ht1 & Hh1).
    destruct (IH (w ++ evs1)%list) as (rs & evs & Hrun & Hall & Hm & Ht & Hh).
    exists (r :: rs), (evs1 ++ evs)%list.
    unfold gather_commands in *. cbn [mapM]. unfold bind at 1. rewrite Hr.
    unfold bind at 1. rewrite Hrun. unfold ret. rewrite <- app_assoc.
    split; [reflexivity|]. split.
    { constructor; [|exact Hall]. exists w. by rewrite Hr. }
    rewrite forallb_app, !List.filter_app, !length_app, Hm1, Hm.
    cbn [length]. repeat split; lia.
Qed.

(** ** The model client *)

Lemma init_without_key (provider : LLMProvider) :
  missing (environ !! "LLM_API_KEY") ->
  LLMConfig.init environ None None (inl provider)
  = Raise (Exn ValueError
             "API key not provided and LLM_API_KEY not found in environment").
Proof. unfold LLMConfig.init, missing. intros [-> | ->]; reflexivity. Qed.

Lemma chat_prompt_without_key (user_prompt : prompt)
    (system_prompt : option string) (temperature : Q) (max_tokens : option Z)
    (provider : LLMProvider) (w : list Event) :
  missing (environ !! "LLM_API_KEY") ->
  chat_prompt user_prompt system_prompt temperature max_tokens (inl provider) w
  = (Raise (Exn ValueError
              "API key not provided and LLM_API_KEY not found in environment"),
     w).
Proof.
  intros H. unfold chat_prompt, bind, lift.
  by rewrite (init_without_key provider H).
Qed.

(** X8. The configuration is built inside every call of [chat_prompt]:
    when [LLM_API_KEY] is absent from the environment or empty, every call
    of [chat_prompt], of [structured_output_prompt] and of
    [process_request] raises the configuration [ValueError] and the log is
    left as it was, no request having been sent. *)
Theorem no_key_no_request (self : LLMAgent) (user_input : string)
    (user_prompt : prompt) (system_prompt : option string) (temperature : Q)
    (max_tokens : option Z) (provider : LLMProvider)
    (response_format : schema) (w : list Event) :
  missing (environ !! "LLM_API_KEY") ->
  let e := Exn ValueError
             "API key not provided and LLM_API_KEY not found in environment" in
  chat_prompt user_prompt system_prompt temperature max_tokens (inl provider) w
  = (Raise e, w)
  /\ structured_output_prompt user_prompt response_format w = (Raise e, w)
  /\ process_request self user_input w = (Raise e, w).
Proof.
  intros H e. split; [by apply chat_prompt_without_key|].
  split.
  - unfold structured_output_prompt, bind.
    by rewrite (chat_prompt_without_key _ _ _ _ MISTRAL w H).
  - unfold process_request, plan_commands, structured_output_prompt, bind.
    by rewrite (chat_prompt_without_key _ _ _ _ MISTRAL w H).
Qed.

(** X9. With a configuration in place, a call of [chat_prompt] logs
    exactly one request to the model, with the given prompt and
    temperature.  The request carries the system prompt when it is a
    non-empty string and none when it is empty or [None]; it carries
    [max_tokens] when it is a number other than 0 and none when it is 0 or
    [None].  A [requests] exception of that request comes out as
    [Exception("API request failed: ...")], a [KeyError] or [IndexError]
    of the extraction as [Exception("Unexpected API response format:
    ...")], each with the text of the original exception; otherwise the
    extracted reply is returned. *)
Theorem chat_prompt_outcomes (user_prompt : prompt)
    (system_prompt : option string) (temperature : Q) (max_tokens : option Z)
    (provider : LLMProvider + string) (config : LLMConfig.t)
    (w : list Event) :
  LLMConfig.init environ None None provider = Ok config ->
  exists system_prompt' max_tokens',
    (forall s, system_prompt = Some s -> s <> EmptyString ->
               system_prompt' = Some s)
    /\ (system_prompt = None \/ system_prompt = Some EmptyString ->
        system_prompt' = None)
    /\ (forall n, max_tokens = Some n -> n <> 0%Z -> max_tokens' = Some n)
    /\ (max_tokens = None \/ max_tokens = Some 0%Z -> max_tokens' = None)
    /\ let w' := (w ++ [ModelRequest config system_prompt' user_prompt
                          temperature max_tokens'])%list in
       let run := chat_prompt user_prompt system_prompt temperature
                    max_tokens provider w in
       (forall e,
          net w' = Raise e -> caught [RequestException] e = true ->
          run = (Raise (Exn Exception ("API request failed: " ++ exn_str e)),
                 w'))
       /\ (forall body e,
            net w' = Ok body ->
            extract_reply py_repr (LLMConfig.provider config) body = Raise e ->
            caught [KeyError; IndexError] e = true ->
            run = (Raise (Exn Exception
                            ("Unexpected API response format: " ++ exn_str e)),
                   w'))
       /\ (forall body v,
            net w' = Ok body ->
            extract_reply py_repr (LLMConfig.provider config) body = Ok v ->
            run = (Ok v, w')).
Proof.
  intros Hconfig. unfold chat_prompt, bind at 1, lift at 1. rewrite Hconfig.
  exists (match system_prompt with
          | Some s => if Str.is_empty s then None else Some s
          | None => None
          end),
         (match max_tokens with
          | Some n => if (n =? 0)%Z then None else Some n
          | None => None
          end).
  split. { intros s -> Hs. by destruct s. }
  split. { by intros [-> | ->]. }
  split. { intros n -> Hn. by destruct (Z.eqb_spec n 0). }
  split. { by intros [-> | ->]. }
  cbv zeta.
  unfold try_except, bind, emit, lift. split; [|split].
  - intros e -> Hc. by rewrite Hc.
  - intros body e -> -> Hc.
    assert (Hr : caught [RequestException] e = false).
    { unfold caught in *. cbn [existsb] in *. rewrite orb_false_r in *.
      destruct e as [[] msg]; cbn in *; try discriminate; reflexivity. }
    by rewrite Hr, Hc.
  - by intros body v -> ->.
Qed.

(** X10. From a body of the shape
    [{"choices": [{"message": {"content": v}}, ...]}] the providers
    [mistral], [openai] and [custom] extract [v]; from a body of the shape
    [{"content": [{"text": v}, ...]}] the provider [anthropic] extracts [v];
    and [mistral], [openai] and [anthropic] raise a [KeyError] on an object
    that lacks their top-level key. *)
Theorem extract_reply_by_provider (d : gmap string pyval) :
  (forall v others m c,
     choices_body v others d m c ->
     extract_reply py_repr MISTRAL (PDict d) = Ok v
     /\ extract_reply py_repr OPENAI (PDict d) = Ok v
     /\ extract_reply py_repr CUSTOM (PDict d) = Ok v)
  /\ (forall v others m,
        d !! "content" = Some (PList (PDict m :: others)) ->
        m !! "text" = Some v ->
        extract_reply py_repr ANTHROPIC (PDict d) = Ok v)
  /\ (d !! "choices" = None ->
      extract_reply py_repr MISTRAL (PDict d) = Raise (Exn KeyError "'choices'")
      /\ extract_reply py_repr OPENAI (PDict d)
         = Raise (Exn KeyError "'choices'"))
  /\ (d !! "content" = None ->
      extract_reply py_repr ANTHROPIC (PDict d)
      = Raise (Exn KeyError "'content'")).
Proof.
  split; [|split; [|split]].
  - intros v others m c (Hd & Hm & Hc).
    unfold extract_reply, choices_content, rbind.
    cbn [Py.getitem Py.getitem0]. rewrite Hd. cbn [Py.getitem0 Py.getitem].
    rewrite Hm. cbn [Py.getitem]. by rewrite Hc.
  - intros v others m Hd Hm.
    unfold extract_reply, content_text, rbind.
    cbn [Py.getitem]. rewrite Hd. cbn [Py.getitem0 Py.getitem]. by rewrite Hm.
  - intros Hd. unfold extract_reply, choices_content, rbind.
    cbn [Py.getitem]. by rewrite Hd.
  - intros Hd. unfold extract_reply, content_text, rbind.
    cbn [Py.getitem]. by rewrite Hd.
Qed.

(** X11. For the provider [custom], an object without ["choices"] never
    makes the extraction raise: the reply is the value under ["response"]
    when there is one and the rendering [str(result)] of the whole body
    otherwise; the same holds when ["choices"] is an empty list. *)
Theorem custom_provider_falls_back (d : gmap string pyval) :
  d !! "choices" = None \/ d !! "choices" = Some (PList []) ->
  extract_reply py_repr CUSTOM (PDict d)
  = Ok (default (PStr (py_str (PDict d))) (d !! "response")).
Proof.
  intros H. unfold extract_reply, choices_content, rbind.
  cbn [Py.getitem].
  destruct H as [-> | ->]; cbn; by destruct (d !! "response").
Qed.

(** ** The structured-output parser: undecodable text *)

Lemma contains_suffix (a e : string) : Str.contains e (a ++ e) = true.
Proof.
  rewrite <- (append_empty_r e) at 2. apply contains_middle.
Qed.

(** X12. When the cleaned text begins with [[] or [{] but [json.loads]
    refuses it, the parser raises a [ValueError] whose text contains both
    the text of the decoding error and the response as it stood after the
    fences and the escaped underscores were removed. *)
Theorem parse_failure_carries_response (reply response msg : string) :
  remove_markdown (Str.strip reply) = Ok response ->
  let response' := Str.replace "\_" "_" response in
  let c := Str.strip response' in
  (Str.startswith "[" c = true /\ json_loads (cut_after_last "]" c) = inr msg)
  \/ (Str.startswith "{" c = true
      /\ json_loads (cut_after_last "}" c) = inr msg) ->
  exists e,
    parse_reply reply = Raise e
    /\ exn_cls e = ValueError
    /\ Str.contains msg (exn_str e) = true
    /\ Str.contains response' (exn_str e) = true.
Proof.
  intros Hrm response' c H. unfold parse_reply. rewrite Hrm. cbn [rbind].
  fold response'. fold c.
  assert (Hmsg : forall e, e = parse_failure msg response' ->
    exn_cls e = ValueError
    /\ Str.contains msg (exn_str e) = true
    /\ Str.contains response' (exn_str e) = true).
  { intros e ->. unfold parse_failure. cbn [exn_cls exn_str].
    split; [reflexivity|]. split.
    - apply contains_middle.
    - rewrite <- !append_assoc. apply contains_suffix. }
  destruct H as [[Hl Hj] | [Hb Hj]].
  - rewrite Hl, Hj. eexists. split; [reflexivity|]. by apply Hmsg.
  - rewrite (brace_not_bracket _ Hb), Hb, Hj.
    eexists. split; [reflexivity|]. by apply Hmsg.
Qed.

(** ** The provider enumeration *)

(** X13. [LLMProvider(value)] accepts exactly the four values of the
    enumeration and gives back the member with that value; any other
    string makes the construction of the configuration raise a
    [ValueError], whatever key is there. *)
Theorem provider_values_round_trip (s : string) :
  (forall p, LLMConfig.provider_of_value (provider_value p) = Ok p)
  /\ (forall p, LLMConfig.provider_of_value s = Ok p -> s = provider_value p)
  /\ ((forall p, s <> provider_value p) ->
      forall api_url api_key,
      exists e,
        LLMConfig.init environ api_url api_key (inr s) = Raise e
        /\ exn_cls e = ValueError).
Proof.
  assert (Hcases : forall p, LLMConfig.provider_of_value s = Ok p ->
                             s = provider_value p).
  { unfold LLMConfig.provider_of_value. intros p.
    repeat match goal with
           | |- context [String.eqb s ?v] =>
               let E := fresh "E" in
               destruct (String.eqb s v) eqn:E;
               [apply String.eqb_eq in E; subst; by intros [= <-]|]
           end.
    discriminate. }
  split; [by intros []|]. split; [exact Hcases|].
  intros Hnot api_url api_key. unfold LLMConfig.init.
  destruct (LLMConfig.provider_of_value s) as [p|e] eqn:E.
  - destruct (Hnot p (Hcases p eq_refl)).
  - unfold LLMConfig.provider_of_value in E.
    repeat (destruct (String.eqb s _); [discriminate|]).
    unfold raise in E. injection E as <-. eexists. split; reflexivity.
Qed.

(** ** The tools: what their answers always hold *)

(** X14. [get_time] never raises and logs only its own call.  A false
    [timezone] is replaced by the timezone of the cached location (or
    "UTC" when that has none); when the zone is known the answer carries
    it with the local time, date, timestamp and DST flag and no ["error"];
    when the lookup raises, the answer carries an ["error"] text, the zone
    "UTC" and the current UTC time. *)
Theorem get_time_answers (location : gmap string pyval) (timezone : pyval)
    (w : list Event) :
  let zone := if Py.truthy timezone then timezone
              else default (PStr "UTC") (location !! "timezone") in
  let w' := (w ++ [ToolCall TimeTool timezone])%list in
  exists d,
    get_time location timezone w = (Ok d, w')
    /\ (forall t,
          tz_now w' zone = Ok t ->
          d !! "timezone" = Some zone
          /\ d !! "current_time" = Some (PStr (tf_current_time t))
          /\ d !! "date" = Some (PStr (tf_date t))
          /\ d !! "unix_timestamp" = Some (PInt (tf_unix_timestamp t))
          /\ d !! "is_dst" = Some (PBool (tf_is_dst t))
          /\ d !! "error" = None)
    /\ (forall e,
          tz_now w' zone = Raise e ->
          d !! "timezone" = Some (PStr "UTC")
          /\ d !! "current_time" = Some (PStr (utc_now w'))
          /\ d !! "error"
             = Some (PStr (if caught [UnknownTimeZoneError] e
                           then "Unknown timezone: " ++ py_str zone
                           else exn_str e))).
Proof.
  intros zone w'. unfold get_time, bind, emit. fold zone. fold w'.
  destruct (tz_now w' zone) as [t|e].
  - eexists. split; [reflexivity|]. split; [|discriminate].
    intros t' [= <-]. repeat split; reflexivity.
  - destruct (caught [UnknownTimeZoneError] e) eqn:Hc;
      (eexists; split; [reflexivity|]; split; [discriminate|]);
      intros e' [= <-]; rewrite ?Hc; repeat split; reflexivity.
Qed.

(** X15. [search] never raises.  Its answer always holds the query it was
    given under ["query"], a list under ["results"] and a string under
    ["abstract"]; and whenever the answer has an ["error"] entry, the list
    of results is empty. *)
Theorem search_answers (query : pyval) (w : list Event) :
  exists d results abstract,
    search query w
    = (Ok d, (w ++ [ToolCall SearchTool query;
                    HttpGet GoogleSearch query])%list)
    /\ d !! "query" = Some query
    /\ d !! "results" = Some (PList results)
    /\ d !! "abstract" = Some (PStr abstract)
    /\ (is_Some (d !! "error") -> results = []).
Proof.
  unfold search, bind, emit, try_except, http_get, lift, ret.
  rewrite <- app_assoc. cbn [app].
  repeat case_match; simplify_eq;
    (eexists _, _, _; split; [reflexivity|];
     repeat split; try reflexivity;
     intros [x Hx]; try reflexivity; discriminate).
Qed.

(** X16. [get_weather] never raises.  Its answer always holds the location
    it was given under ["location"]; and whenever the answer has an
    ["error"] entry, ["temperature"] and ["conditions"] are [None]. *)
Theorem get_weather_answers (location : pyval) (w : list Event) :
  exists d,
    get_weather location w
    = (Ok d, (w ++ [ToolCall WeatherTool location;
                    HttpGet OpenWeatherMap location])%list)
    /\ d !! "location" = Some location
    /\ (is_Some (d !! "error") ->
        d !! "temperature" = Some PNone /\ d !! "conditions" = Some PNone).
Proof.
  unfold get_weather, bind, emit, try_except, http_get, lift, ret.
  rewrite <- app_assoc. cbn [app].
  assert (Hrep : forall body d,
    weather_report py_repr location body = Ok d ->
    d !! "location" = Some location
    /\ (is_Some (d !! "error") ->
        d !! "temperature" = Some PNone /\ d !! "conditions" = Some PNone)).
  { intros body d. unfold weather_report, rbind, nested_get, rbind.
    intros H. repeat case_match; simplify_eq;
      (split; [reflexivity|]); intros [x Hx];
      try (split; reflexivity); discriminate. }
  destruct (net _) as [body|e].
  - destruct (weather_report py_repr location body) as [d|e1] eqn:E.
    + exists d. split; [reflexivity|]. by eapply Hrep.
    + repeat case_match;
        (eexists; split; [reflexivity|]; split; [reflexivity|]);
        intros _; split; reflexivity.
  - repeat case_match;
      (eexists; split; [reflexivity|]; split; [reflexivity|]);
      intros _; split; reflexivity.
Qed.

(** ** The search tool: how results are formatted *)

Lemma search_item_plain (m : gmap string pyval) :
  m !! "pagemap" = None -> search_item (PDict m) = Ok (plain_result m).
Proof.
  intros H. unfold search_item, rbind. cbn [Py.get Py.contains].
  rewrite H. rewrite bool_decide_eq_false_2 by (by intros [x Hx]).
  reflexivity.
Qed.

Lemma search_items_plain (ms : list (gmap string pyval)) :
  Forall (fun m => m !! "pagemap" = None) ms ->
  rmap search_item (PDict <$> ms) = Ok (plain_result <$> ms).
Proof.
  intros H. induction H as [|m ms Hm _ IH]; [reflexivity|].
  cbn [fmap list_fmap rmap]. rewrite (search_item_plain m Hm).
  cbn [rbind]. change (list_fmap _ _ PDict ms) with (PDict <$> ms).
  by rewrite IH.
Qed.

(** X17. A body without an ["items"] entry gives no results.  For a body
    whose ["items"] is a list of objects without a ["pagemap"], there is
    one result per item, in order, holding its title, its snippet as
    description and its link as URL (each the empty string when missing);
    and the abstract is "title: description" of the first result. *)
Theorem search_results_formatted (d : gmap string pyval) :
  (d !! "items" = None -> search_results (PDict d) = Ok [])
  /\ (forall ms : list (gmap string pyval),
        d !! "items" = Some (PList (PDict <$> ms)) ->
        Forall (fun m => m !! "pagemap" = None) ms ->
        search_results (PDict d) = Ok (plain_result <$> ms)
        /\ search_abstract py_repr (plain_result <$> ms)
           = Ok match ms with
                | [] => EmptyString
                | m :: _ =>
                    py_str (default (PStr EmptyString) (m !! "title"))
                    ++ ": "
                    ++ py_str (default (PStr EmptyString) (m !! "snippet"))
                end).
Proof.
  split.
  - intros H. unfold search_results, rbind. cbn [Py.contains].
    rewrite H. by rewrite bool_decide_eq_false_2 by (by intros [x Hx]).
  - intros ms Hitems Hplain. split.
    + unfold search_results, rbind. cbn [Py.contains Py.getitem].
      rewrite Hitems. rewrite bool_decide_eq_true_2 by eauto.
      cbn [Py.iter]. by apply search_items_plain.
    + destruct ms as [|m ms]; reflexivity.
Qed.

(** X18. When an item has a ["pagemap"] whose ["metatags"] is a list of
    objects, the ["og:description"] of the first metatag that has one
    replaces the snippet as description; when none has one the snippet
    stays. *)
Theorem og_description_wins (m pm : gmap string pyval)
    (tags : list (gmap string pyval)) :
  m !! "pagemap" = Some (PDict pm) ->
  pm !! "metatags" = Some (PList (PDict <$> tags)) ->
  let snippet := default (PStr EmptyString) (m !! "snippet") in
  let described (description : pyval) :=
    Ok (PDict {[ "title" := default (PStr EmptyString) (m !! "title");
                 "description" := description;
                 "url" := default (PStr EmptyString) (m !! "link") ]}) in
  (forall before tag after v,
     tags = (before ++ tag :: after)%list ->
     Forall (fun t => t !! "og:description" = None) before ->
     tag !! "og:description" = Some v ->
     search_item (PDict m) = described v)
  /\ (Forall (fun t => t !! "og:description" = None) tags ->
      search_item (PDict m) = described snippet).
Proof.
  intros Hpm Htags snippet described.
  assert (Hitem : forall description,
    first_og_description (PDict <$> tags) snippet = Ok description ->
    search_item (PDict m) = described description).
  { intros description H. unfold search_item, rbind.
    cbn [Py.get Py.contains Py.getitem]. rewrite Hpm.
    rewrite bool_decide_eq_true_2 by eauto.
    cbn [Py.contains Py.getitem]. rewrite Htags.
    rewrite bool_decide_eq_true_2 by eauto.
    cbn [Py.iter]. fold snippet. by rewrite H. }
  assert (Hskip : forall before rest,
    Forall (fun t : gmap string pyval => t !! "og:description" = None) before ->
    first_og_description (PDict <$> (before ++ rest)%list) snippet
    = first_og_description (PDict <$> rest) snippet).
  { intros before rest H. induction H as [|t before Ht _ IH]; [reflexivity|].
    cbn [app fmap list_fmap first_og_description Py.contains rbind].
    rewrite Ht. by rewrite bool_decide_eq_false_2 by (by intros [x Hx]). }
  split.
  - intros before tag after v -> Hbefore Htag. apply Hitem.
    rewrite (Hskip before (tag :: after) Hbefore).
    cbn [fmap list_fmap first_og_description Py.contains rbind Py.getitem].
    rewrite Htag. by rewrite bool_decide_eq_true_2 by eauto.
  - intros Hnone. apply Hitem.
    rewrite <- (app_nil_r tags). by rewrite (Hskip tags [] Hnone).
Qed.

(** ** The weather tool: API errors *)

(** X19. An answer of the weather API whose ["cod"] is true and does not
    render as "200" is turned into the error mapping, with the API's
    ["message"] (or "Unknown error from weather API") as ["error"]; an
    answer without ["cod"], or with [200] as number or string, is not: if
    the report can be built it has no ["error"] entry. *)
Theorem weather_api_errors (location : pyval) (d : gmap string pyval) :
  (forall cod,
     d !! "cod" = Some cod -> Py.truthy cod = true ->
     py_str cod <> "200" ->
     weather_report py_repr location (PDict d)
     = Ok (weather_failure
             (default (PStr "Unknown error from weather API")
                (d !! "message")) location))
  /\ (d !! "cod" = None \/ d !! "cod" = Some (PInt 200)
      \/ d !! "cod" = Some (PStr "200") ->
      forall r,
        weather_report py_repr location (PDict d) = Ok r ->
        r !! "error" = None /\ r !! "location" = Some location).
Proof.
  split.
  - intros cod Hcod Ht Hne. unfold weather_report, rbind.
    cbn [Py.get Py.getitem]. rewrite Hcod.
    change (default PNone (Some cod)) with cod. rewrite Ht.
    destruct (String.eqb (py_str cod) "200") eqn:E.
    + apply String.eqb_eq in E. contradiction.
    + reflexivity.
  - intros Hcod r. unfold weather_report, rbind, nested_get, rbind.
    cbn [Py.get Py.getitem].
    destruct Hcod as [-> | [-> | ->]]; cbn;
      intros H; repeat case_match; simplify_eq; split; reflexivity.
Qed.

(** ** The orchestrator: the plan before it is executed *)

(** An empty plan is no error: no tool is called, and the request
    goes on to the draft (asked with an empty list of tool responses), the
    enrichment and the final answer. *)
Theorem empty_plan_goes_to_draft (self : LLMAgent) (user_input : string)
    (w w1 : list Event) :
  structured_output_prompt (PlanningPrompt user_input) PlanSchema w
  = (Ok [], w1) ->
  process_request self user_input w
  = (replies <- structured_output_prompt (DraftPrompt user_input [])
                  AnalysisSchema ;;
     analysis <- match replies with
                 | analysis :: _ => ret analysis
                 | [] => lift (raise IndexError "list index out of range")
                 end ;;
     additional_info <-
       enrich (execute_command (tool_manager self)) analysis ;;
     finalize analysis additional_info)%M w1.
Proof.
  intros H. unfold process_request, plan_commands, bind at 1, bind at 1.
  rewrite H. cbn [rmap lift]. unfold bind at 1. cbn [gather_commands mapM ret].
  unfold after_dispatch, draft. cbn [collect_errors List.filter fmap list_fmap
                                      context_of zip_with].
  unfold bind. destruct (structured_output_prompt _ _ w1) as [[replies|e] w2];
    [|reflexivity].
  destruct replies; reflexivity.
Qed.

Lemma rmap_command_of_good (good : list (gmap string pyval)) :
  Forall (fun m => is_Some (m !! "command") /\ is_Some (m !! "params")) good ->
  exists l, rmap command_of (PDict <$> good) = Ok l.
Proof.
  intros H. induction H as [|m good [[c Hc] [p Hp]] _ [l IH]]; [by exists []|].
  cbn [fmap list_fmap rmap]. unfold command_of at 1, rbind.
  cbn [Py.getitem]. rewrite Hc, Hp.
  change (list_fmap _ _ PDict good) with (PDict <$> good).
  rewrite IH. eauto.
Qed.

(** X20. When an item of the plan lacks its ["command"] or its ["params"]
    entry (the items before it being complete objects), [process_request]
    raises the [KeyError] of the first entry that is missing, ["command"]
    being read before ["params"], and no command of the plan is executed,
    the complete ones before it included: the log ends where planning
    ended. *)
Theorem incomplete_plan_item_raises (self : LLMAgent) (user_input : string)
    (w w1 : list Event) (good : list (gmap string pyval))
    (bad : gmap string pyval) (rest : list pyval) :
  structured_output_prompt (PlanningPrompt user_input) PlanSchema w
  = (Ok ((PDict <$> good) ++ PDict bad :: rest)%list, w1) ->
  Forall (fun m => is_Some (m !! "command") /\ is_Some (m !! "params")) good ->
  bad !! "command" = None \/ bad !! "params" = None ->
  let key := if bad !! "command" is Some _ then "params" else "command" in
  process_request self user_input w
  = (Raise (Exn KeyError ("'" ++ key ++ "'")), w1).
Proof.
  intros Hplan Hgood Hbad key.
  assert (Hraise :
    rmap command_of ((PDict <$> good) ++ PDict bad :: rest)%list
    = Raise (Exn KeyError ("'" ++ key ++ "'"))).
  { clear Hplan. subst key.
    induction Hgood as [|m good [[c Hc] [p Hp]] _ IH].
    - cbn [fmap list_fmap app rmap]. unfold command_of at 1, rbind.
      cbn [Py.getitem].
      destruct (bad !! "command") as [c|] eqn:Hc; [|reflexivity].
      destruct Hbad as [Hbad | Hbad]; [discriminate|].
      by rewrite Hbad.
    - cbn [fmap list_fmap app rmap]. unfold command_of at 1, rbind.
      cbn [Py.getitem]. rewrite Hc, Hp.
      change (list_fmap _ _ PDict good) with (PDict <$> good).
      by rewrite IH. }
  unfold process_request, plan_commands, bind at 1, bind at 1.
  rewrite Hplan. unfold lift. by rewrite Hraise.
Qed.

(** ** Standard output and the interactive loop *)

#[local] Abbreviation parse_reply_io := (parse_reply_io json_loads).
#[local] Abbreviation structured_output_prompt_io :=
  (structured_output_prompt_io py_repr json_loads environ net).
#[local] Abbreviation print_plan := (print_plan py_repr).
#[local] Abbreviation plan_commands_io :=
  (plan_commands_io py_repr json_loads environ net).
#[local] Abbreviation draft_io := (draft_io py_repr json_loads environ net).
#[local] Abbreviation search_each_io := (search_each_io py_repr).
#[local] Abbreviation enrich_io := (enrich_io py_repr).
#[local] Abbreviation after_dispatch_io :=
  (after_dispatch_io py_repr json_loads environ net).
#[local] Abbreviation process_request_io :=
  (process_request_io py_repr json_loads validation_message environ net
     tz_now utc_now).
#[local] Abbreviation main_loop :=
  (main_loop py_repr json_loads validation_message environ net tz_now utc_now).
#[local] Abbreviation main :=
  (main py_repr json_loads validation_message environ net tz_now utc_now).

(** *** Without its output, a printing function is the function above *)

Lemma erase_bind {A B} (c : IO A) (k : A -> IO B) (c' : M A)
    (k' : A -> M B) :
  (forall w, fst (c w) = c' w) -> (forall a w, fst (k a w) = k' a w) ->
  forall w, fst (io_bind c k w) = bind c' k' w.
Proof.
  intros Hc Hk w. unfold io_bind, bind. rewrite <- Hc.
  destruct (c w) as [[[a|e] w1] out]; [|reflexivity].
  cbn [fst]. rewrite <- Hk. by destruct (k a w1) as [[r w2] out'].
Qed.

Lemma erase_print {A} (text : string) (k : IO A) (k' : M A) :
  (forall w, fst (k w) = k' w) ->
  forall w, fst (io_bind (print text) (fun _ => k) w) = k' w.
Proof.
  intros Hk w. unfold io_bind, print. rewrite <- Hk.
  by destruct (k w) as [[r w2] out'].
Qed.

Lemma parse_reply_io_erase (reply : string) (w : list Event) :
  fst (parse_reply_io reply w) = lift (parse_reply reply) w.
Proof.
  unfold parse_reply_io, parse_reply, parse_failed, rbind, lift.
  destruct (remove_markdown (Str.strip reply)) as [response|e];
    [|reflexivity].
  repeat case_match; reflexivity.
Qed.

Lemma structured_output_prompt_io_erase (user_prompt : prompt)
    (response_format : schema) (w : list Event) :
  fst (structured_output_prompt_io user_prompt response_format w)
  = structured_output_prompt user_prompt response_format w.
Proof.
  revert w. unfold structured_output_prompt_io, structured_output_prompt.
  apply erase_bind; [reflexivity|].
  intros response w. destruct response; try reflexivity.
  apply parse_reply_io_erase.
Qed.

Lemma print_plan_erase (plan : list pyval) (w : list Event) :
  fst (print_plan plan w) = lift (rmap command_of plan) w.
Proof.
  revert w. induction plan as [|cmd plan IH]; intros w; [reflexivity|].
  cbn [print_plan rmap]. unfold io_bind at 1, quiet, lift, rbind.
  destruct (command_of cmd) as [cp|e]; [|reflexivity].
  unfold io_bind at 1, print. unfold io_bind.
  specialize (IH w). unfold lift in IH.
  destruct (print_plan plan w) as [[[cps|e] w1] out]; cbn [fst] in IH;
    injection IH as <- <-; reflexivity.
Qed.

Lemma plan_commands_io_erase (user_input : string) (w : list Event) :
  fst (plan_commands_io user_input w) = plan_commands user_input w.
Proof.
  revert w. unfold plan_commands_io, plan_commands.
  apply erase_bind; [apply structured_output_prompt_io_erase|].
  intros plan. apply erase_print, print_plan_erase.
Qed.

Lemma search_each_io_erase (execute : pyval -> pyval -> M ToolResponse)
    (queries info : list pyval) (w : list Event) :
  fst (search_each_io execute queries info w)
  = search_each execute queries info w.
Proof.
  revert info w. induction queries as [|query queries IH]; intros info w;
    [reflexivity|].
  cbn [search_each_io search_each]. revert w.
  apply erase_print, erase_bind; [reflexivity|].
  intros r w. apply IH.
Qed.

Lemma enrich_io_erase (execute : pyval -> pyval -> M ToolResponse)
    (analysis : pyval) (w : list Event) :
  fst (enrich_io execute analysis w) = enrich execute analysis w.
Proof.
  revert w. unfold enrich_io, enrich. apply erase_bind; [reflexivity|].
  intros needs_search. destruct (Py.truthy needs_search); [|reflexivity].
  apply erase_print, erase_bind; [reflexivity|]. intros v.
  apply erase_bind; [reflexivity|]. intros queries w.
  apply search_each_io_erase.
Qed.

Lemma after_dispatch_io_erase (execute : pyval -> pyval -> M ToolResponse)
    (user_input : string) (commands : list (pyval * pyval))
    (tool_responses : list ToolResponse) (w : list Event) :
  fst (after_dispatch_io execute user_input commands tool_responses w)
  = after_dispatch execute user_input commands tool_responses w.
Proof.
  revert w. unfold after_dispatch_io, after_dispatch.
  destruct (collect_errors tool_responses); [|reflexivity].
  apply erase_bind.
  - unfold draft_io, draft.
    apply erase_bind; [apply structured_output_prompt_io_erase|].
    intros replies w. by destruct replies.
  - intros analysis. apply erase_print, erase_bind; [apply enrich_io_erase|].
    intros info. by apply erase_print.
Qed.

(** The printing [process_request] returns what [process_request]
    returns and logs what it logs. *)
Lemma process_request_io_erase (self : LLMAgent) (user_input : string)
    (w : list Event) :
  fst (process_request_io self user_input w)
  = process_request self user_input w.
Proof.
  revert w. unfold process_request_io, process_request.
  apply erase_bind; [apply plan_commands_io_erase|]. intros commands.
  apply erase_bind; [reflexivity|]. intros tool_responses w.
  apply after_dispatch_io_erase.
Qed.

(** *** No progress text looks like an answer of [main] *)

Lemma writes_ret {A} (P : string -> Prop) (a : A) : writes P (io_ret a).
Proof. intros w. constructor. Qed.

Lemma writes_quiet {A} (P : string -> Prop) (c : M A) : writes P (quiet c).
Proof. intros w. constructor. Qed.

Lemma writes_bind {A B} (P : string -> Prop) (c : IO A) (k : A -> IO B) :
  writes P c -> (forall a, writes P (k a)) -> writes P (io_bind c k).
Proof.
  intros Hc Hk w. specialize (Hc w). unfold io_bind.
  destruct (c w) as [[[a|e] w1] out]; [|exact Hc].
  specialize (Hk a w1). destruct (k a w1) as [[r w2] out'].
  cbn [snd] in *. by apply Forall_app.
Qed.

Lemma writes_print {A} (P : string -> Prop) (text : string) (k : IO A) :
  P text -> writes P k -> writes P (io_bind (print text) (fun _ => k)).
Proof.
  intros Htext Hk. apply writes_bind; [|by intros _].
  intros w. by repeat constructor.
Qed.

Lemma other_first_letter (c : ascii) (text : string) :
  c <> ascii_of_nat 10 -> ~ answer_line (String c text).
Proof.
  intros Hc [H | H]; unfold nl in H;
    change (String (ascii_of_nat 10) EmptyString ++ ?t)
      with (String (ascii_of_nat 10) t) in H;
    cbn [Str.startswith] in H; apply andb_true_iff in H as [H _];
    apply Ascii.eqb_eq in H; congruence.
Qed.

Lemma progress_text (text : string) :
  ~ answer_line (nl ++ "Initial tools:")
  /\ ~ answer_line (nl ++ "Initial response done")
  /\ ~ answer_line
        (nl ++ "Gathering additional information for suggestions...")
  /\ ~ answer_line (nl ++ "Additional information analysis done")
  /\ ~ answer_line ("Using " ++ text)
  /\ ~ answer_line ("Searching: " ++ text)
  /\ ~ answer_line ("Failed to parse JSON. Response was:" ++ text).
Proof.
  repeat split; try (intros [H | H]; vm_compute in H; discriminate H);
    apply other_first_letter; discriminate.
Qed.

#[local] Abbreviation progress := (fun text : string => ~ answer_line text).

Lemma writes_structured_output_prompt_io (user_prompt : prompt)
    (response_format : schema) :
  writes progress (structured_output_prompt_io user_prompt response_format).
Proof.
  unfold structured_output_prompt_io.
  apply writes_bind; [apply writes_quiet|]. intros response.
  destruct response; try apply writes_quiet.
  unfold parse_reply_io, parse_failed.
  repeat case_match;
    first [apply writes_quiet | apply writes_ret
          | apply writes_print; [apply progress_text|apply writes_quiet]].
Qed.

Lemma writes_print_plan (plan : list pyval) : writes progress (print_plan plan).
Proof.
  induction plan as [|cmd plan IH]; [apply writes_ret|].
  cbn [print_plan]. apply writes_bind; [apply writes_quiet|]. intros cp.
  apply writes_print; [apply progress_text|].
  apply writes_bind; [exact IH|]. intros cps. apply writes_ret.
Qed.

Lemma writes_search_each_io (execute : pyval -> pyval -> M ToolResponse)
    (queries info : list pyval) :
  writes progress (search_each_io execute queries info).
Proof.
  revert info. induction queries as [|query queries IH]; intros info;
    [apply writes_ret|].
  cbn [search_each_io]. apply writes_print; [apply progress_text|].
  apply writes_bind; [apply writes_quiet|]. intros r. apply IH.
Qed.

Lemma writes_process_request_io (self : LLMAgent) (user_input : string) :
  writes progress (process_request_io self user_input).
Proof.
  unfold process_request_io. apply writes_bind.
  { unfold plan_commands_io.
    apply writes_bind; [apply writes_structured_output_prompt_io|].
    intros plan. apply writes_print; [apply (progress_text EmptyString)|].
    apply writes_print_plan. }
  intros commands. apply writes_bind; [apply writes_quiet|].
  intros tool_responses. unfold after_dispatch_io.
  destruct (collect_errors tool_responses); [|apply writes_quiet].
  apply writes_bind.
  { unfold draft_io.
    apply writes_bind; [apply writes_structured_output_prompt_io|].
    intros replies. destruct replies; [apply writes_quiet|apply writes_ret]. }
  intros analysis. apply writes_print; [apply (progress_text EmptyString)|].
  apply writes_bind.
  { unfold enrich_io. apply writes_bind; [apply writes_quiet|].
    intros needs_search. destruct (Py.truthy needs_search);
      [|apply writes_ret].
    apply writes_print; [apply (progress_text EmptyString)|].
    apply writes_bind; [apply writes_quiet|]. intros v.
    apply writes_bind; [apply writes_quiet|]. intros queries.
    apply writes_search_each_io. }
  intros info. apply writes_print; [apply (progress_text EmptyString)|].
  apply writes_quiet.
Qed.

(** *** The loop *)

#[local] Abbreviation answer_text := (answer_text py_repr).

Lemma answer_text_line (r : result pyval) : answer_line (answer_text r).
Proof.
  destruct r as [response|e]; [left|right]; cbn [answer_text];
    rewrite <- append_assoc; apply startswith_append.
Qed.

(** The block one request adds to standard output: the prompt, what the
    request printed, and the answer line of [main]. *)
#[local] Abbreviation request_block :=
  (fun (agent : LLMAgent) (user_input : string) (block : list string) =>
     exists w1,
       let run := process_request_io agent user_input w1 in
       let line := answer_text (fst (fst run)) in
       block = (prompt_text :: snd run ++ [line])%list
       /\ answer_line line
       /\ Forall (fun text => ~ answer_line text) (snd run)).

Lemma main_loop_until_exit (agent : LLMAgent) (before : list string)
    (word : string) (after printed : list string) (w : list Event) :
  Forall (fun l => is_exit l = false) before ->
  is_exit word = true ->
  exists blocks w',
    main_loop agent (before ++ word :: after) printed w
    = (Exited, (printed ++ concat blocks ++ [prompt_text])%list, w')
    /\ Forall2 (request_block agent) before blocks.
Proof.
  intros Hbefore Hword. revert printed w.
  induction Hbefore as [|l before Hl _ IH]; intros printed w.
  - exists [], w. cbn [app main_loop concat]. unfold is_exit in Hword.
    rewrite Hword. split; [reflexivity|constructor].
  - cbn [app main_loop]. unfold is_exit in Hl. rewrite Hl.
    pose proof (writes_process_request_io agent l w) as Hout.
    destruct (process_request_io agent l w) as [[r w1] out] eqn:Hrequest.
    cbn [snd] in Hout.
    destruct (IH ((printed ++ [prompt_text]) ++ out ++ [answer_text r])%list
                w1)
      as (blocks & w' & Hrun & Hall).
    exists ((prompt_text :: out ++ [answer_text r])%list :: blocks), w'.
    split.
    + rewrite Hrun. cbn [concat]. do 2 f_equal.
      rewrite <- !app_assoc. cbn [app]. by rewrite <- !app_assoc.
    + constructor; [|exact Hall]. exists w. rewrite Hrequest. cbn [fst snd].
      split; [reflexivity|]. split; [apply answer_text_line|exact Hout].
Qed.

(** X21. [main] never lets an exception of a request escape and stops at
    the first line that is the exit word: what comes after it is never
    read.  What it writes to standard output is the banner and then, for
    each line before the exit word, one block: the prompt, what
    [process_request] printed for that line (progress texts, none of
    which begins like an answer), and exactly one answer line, the
    response of that request ("Assistant: ...") or the text of the
    exception it raised ("Error: ..."); the prompt for the exit word comes
    last. *)
Theorem main_stops_at_exit (before : list string) (word : string)
    (after : list string) (w : list Event) :
  Forall (fun l => is_exit l = false) before ->
  is_exit word = true ->
  exists tm w0 blocks w',
    let printed := (banner :: concat blocks ++ [prompt_text])%list in
    ToolManager_init w = (Ok tm, w0)
    /\ main (before ++ word :: after) w = (Ok (Exited, printed), w')
    /\ main (before ++ [word]) w = (Ok (Exited, printed), w')
    /\ Forall2
         (fun user_input block =>
            exists w1,
              let run :=
                process_request_io {| tool_manager := tm |} user_input w1 in
              let line := answer_text (fst (fst run)) in
              block = (prompt_text :: snd run ++ [line])%list
              /\ answer_line line
              /\ Forall (fun text => ~ answer_line text) (snd run))
         before blocks.
Proof.
  intros Hbefore Hword. unfold main, bind, LLMAgent_init, bind, ret.
  destruct (tool_manager_ready w) as (tm & w0 & Hinit). rewrite Hinit.
  destruct (main_loop_until_exit {| tool_manager := tm |} before word after
              [banner] w0 Hbefore Hword)
    as (blocks & w' & Hrun & Hall).
  destruct (main_loop_until_exit {| tool_manager := tm |} before word []
              [banner] w0 Hbefore Hword)
    as (blocks2 & w2 & Hrun2 & _).
  exists tm, w0, blocks, w'. cbv zeta. split; [reflexivity|].
  rewrite Hrun. split; [reflexivity|].
  split; [|exact Hall].
  rewrite Hrun2. clear - Hbefore Hword Hrun Hrun2.
  enough (forall agent printed w,
            main_loop agent (before ++ word :: after) printed w
            = main_loop agent (before ++ [word]) printed w) as Hsame.
  { rewrite Hsame, Hrun2 in Hrun. by injection Hrun as -> ->. }
  clear Hrun Hrun2. intros agent.
  induction Hbefore as [|l before Hl _ IH]; intros printed w1.
  - cbn [app main_loop]. unfold is_exit in Hword. by rewrite Hword.
  - cbn [app main_loop]. unfold is_exit in Hl. rewrite Hl.
    destruct (process_request_io agent l w1) as [[r w3] out]. apply IH.
Qed.

End MoreProperties.

(** ** The exit word *)

Lemma lower_char_is (c small capital : ascii) :
  (small, capital) = ("e", "E")%char \/ (small, capital) = ("x", "X")%char
  \/ (small, capital) = ("i", "I")%char \/ (small, capital) = ("t", "T")%char ->
  Ascii.eqb (lower_char c) small = Ascii.eqb c small || Ascii.eqb c capital.
Proof.
  intros [H | [H | [H | H]]]; injection H as -> ->;
    destruct c as [[] [] [] [] [] [] [] []]; reflexivity.
Qed.

(** X22. [main] takes a line for the exit word exactly when it has the
    four letters e, x, i, t in this order, each in either case; any other
    line, one with blanks around the word included, is sent as a request. *)
Theorem exit_word_any_case (user_input : string) :
  is_exit user_input = true
  <-> exists a b c d,
        user_input = String a (String b (String c (String d EmptyString)))
        /\ (a = "e" \/ a = "E")%char /\ (b = "x" \/ b = "X")%char
        /\ (c = "i" \/ c = "I")%char /\ (d = "t" \/ d = "T")%char.
Proof.
  assert (Hletter : forall c small capital,
    (small, capital) = ("e", "E")%char \/ (small, capital) = ("x", "X")%char
    \/ (small, capital) = ("i", "I")%char
    \/ (small, capital) = ("t", "T")%char ->
    Ascii.eqb (lower_char c) small = true <-> c = small \/ c = capital).
  { intros c small capital H. rewrite (lower_char_is c small capital H).
    rewrite orb_true_iff, !Ascii.eqb_eq. tauto. }
  unfold is_exit. split.
  - destruct user_input as [|a [|b [|c [|d [|x rest]]]]]; cbn;
      intros H; repeat (apply andb_true_iff in H as [? H]);
      try discriminate.
    exists a, b, c, d. split; [reflexivity|].
    repeat split;
      match goal with
      | |- ?c = ?s \/ _ => eapply (Hletter c s); [|eassumption]
      end; tauto.
  - intros (a & b & c & d & -> & Ha & Hb & Hc & Hd). cbn.
    rewrite (proj2 (Hletter a "e" "E" ltac:(tauto))%char Ha),
      (proj2 (Hletter b "x" "X" ltac:(tauto))%char Hb),
      (proj2 (Hletter c "i" "I" ltac:(tauto))%char Hc),
      (proj2 (Hletter d "t" "T" ltac:(tauto))%char Hd).
    reflexivity.
Qed.

(** ** The rate limiter, for any rate *)

Lemma wait_stamp (d : RateLimiter.schedule) (self : RateLimiter.t) (now : Q) :
  RateLimiter.on_time d ->
  let r := RateLimiter.wait d self now in
  (RateLimiter.last_request_time self + RateLimiter.interval self
   <= RateLimiter.last_request_time (fst r))%Q
  /\ (now <= RateLimiter.last_request_time (fst r))%Q
  /\ (RateLimiter.last_request_time (fst r) <= snd r)%Q.
Proof.
  intros (Ho & Hs & Hr). unfold RateLimiter.wait.
  cbn [fst snd RateLimiter.last_request_time].
  destruct (RateLimiter.Qltb _ _) eqn:E;
    [apply Qltb_true in E | apply Qltb_false in E]; repeat split; lra.
Qed.

(** X23. For any rate and any state of the limiter, on a clock that only
    moves forward: a call of [wait] stamps [last_request_time] at least
    one interval after the stamp it found and not before the call began,
    resolves no earlier than its stamp, and leaves the rate and the
    interval as they were. *)
Theorem wait_keeps_the_interval (d : RateLimiter.schedule)
    (self : RateLimiter.t) (now : Q) :
  RateLimiter.on_time d ->
  let r := RateLimiter.wait d self now in
  (RateLimiter.last_request_time self + RateLimiter.interval self
   <= RateLimiter.last_request_time (fst r))%Q
  /\ (now <= RateLimiter.last_request_time (fst r))%Q
  /\ (RateLimiter.last_request_time (fst r) <= snd r)%Q
  /\ RateLimiter.interval (fst r) = RateLimiter.interval self
  /\ RateLimiter.requests_per_minute (fst r)
     = RateLimiter.requests_per_minute self.
Proof.
  intros H r. destruct (wait_stamp d self now H) as (H1 & H2 & H3).
  by repeat split.
Qed.

(** X24. When the event loop is never late, [wait] delays a call by
    exactly what is missing: it resolves at once when an interval or more
    has passed since the last stamp, and otherwise at that stamp plus the
    interval. *)
Theorem punctual_wait (d : RateLimiter.schedule) (self : RateLimiter.t)
    (now : Q) :
  (RateLimiter.oversleep d == 0)%Q ->
  (RateLimiter.stamp_delay d == 0)%Q ->
  (RateLimiter.return_delay d == 0)%Q ->
  let r := RateLimiter.wait d self now in
  let due := (RateLimiter.last_request_time self
              + RateLimiter.interval self)%Q in
  ((due <= now)%Q -> (snd r == now)%Q)
  /\ ((now < due)%Q -> (snd r == due)%Q)
  /\ (RateLimiter.last_request_time (fst r) == snd r)%Q.
Proof.
  intros Ho Hs Hr. unfold RateLimiter.wait.
  cbn [fst snd RateLimiter.last_request_time].
  destruct (RateLimiter.Qltb _ _) eqn:E;
    [apply Qltb_true in E | apply Qltb_false in E];
    repeat split; intros; lra.
Qed.



(** ** parse_markdown_backticks *)

Section Backticks.

#[local] Arguments String.append !_ _ / : simpl nomatch.

Lemma lacks_cons (ch c : ascii) (s : string) :
  lacks ch (String c s) = true ->
  Ascii.eqb ch c = false /\ lacks ch s = true.
Proof.
  cbn [lacks]. intros H. apply andb_true_iff in H as [H1 H2].
  split; [by apply negb_true_iff|done].
Qed.

(** A separator that begins with [ch] is not found inside a text without
    [ch]. *)
Lemma partition_skip_char (ch : ascii) (body sep t : string) :
  lacks ch body = true ->
  Str.partition (String ch sep) (body ++ t)
  = match Str.partition (String ch sep) t with
    | Some (a, b) => Some (body ++ a, b)
    | None => None
    end.
Proof.
  intros H. induction body as [|c body IH].
  - simpl. by destruct (Str.partition _ t) as [[a b]|].
  - apply lacks_cons in H as [Hc Hbody].
    change (String c body ++ t) with (String c (body ++ t)).
    cbn [Str.partition Str.startswith]. rewrite Hc. cbn [andb].
    rewrite (IH Hbody). by destruct (Str.partition _ t) as [[a b]|].
Qed.

Lemma rpartition_cons (sep : string) (c : ascii) (s : string) :
  Str.rpartition sep (String c s)
  = match Str.rpartition sep s with
    | Some (a, b) => Some (String c a, b)
    | None =>
        if Str.startswith sep (String c s)
        then Some (EmptyString, Str.drop (String.length sep) (String c s))
        else None
    end.
Proof. reflexivity. Qed.

Lemma startswith_cons (a : ascii) (p : string) (b : ascii) (s : string) :
  Str.startswith (String a p) (String b s)
  = Ascii.eqb a b && Str.startswith p s.
Proof. reflexivity. Qed.

Lemma startswith_backtick (sep post : string) :
  no_backtick post = true -> Str.startswith (String backtick sep) post = false.
Proof.
  intros H. destruct post as [|c post]; [reflexivity|].
  apply no_backtick_cons in H as [Hc _]. by rewrite startswith_cons, Hc.
Qed.

Lemma rpartition_none (post : string) :
  no_backtick post = true ->
  Str.rpartition "```" post = None
  /\ Str.rpartition "```" (String backtick post) = None
  /\ Str.rpartition "```" (String backtick (String backtick post)) = None.
Proof.
  intros H.
  assert (H0 : Str.rpartition "```" post = None).
  { induction post as [|c post IH]; [reflexivity|].
    rewrite rpartition_cons.
    change "```" with (String backtick "``") at 2.
    rewrite (startswith_backtick _ _ H).
    apply no_backtick_cons in H as [_ Hpost]. by rewrite (IH Hpost). }
  assert (H1 : Str.rpartition "```" (String backtick post) = None).
  { rewrite rpartition_cons, H0.
    change "```" with (String backtick (String backtick "`")).
    rewrite startswith_cons, (startswith_backtick _ _ H).
    by rewrite andb_false_r. }
  split; [exact H0|]. split; [exact H1|].
  rewrite rpartition_cons, H1.
  change "```" with (String backtick (String backtick (String backtick ""))).
  rewrite !startswith_cons, (startswith_backtick _ _ H).
  by rewrite !andb_false_r.
Qed.

Lemma rpartition_fence (body post : string) :
  no_backtick body = true -> no_backtick post = true ->
  Str.rpartition "```" (body ++ "```" ++ post) = Some (body, post).
Proof.
  intros Hbody Hpost. induction body as [|c body IH].
  - destruct (rpartition_none post Hpost) as (_ & _ & H2).
    change (EmptyString ++ "```" ++ post)
      with (String backtick (String backtick (String backtick post))).
    rewrite rpartition_cons, H2.
    change "```" with (String backtick (String backtick (String backtick "")))
      at 1.
    rewrite !startswith_cons, !Ascii.eqb_refl. cbn [andb Str.startswith].
    reflexivity.
  - apply no_backtick_cons in Hbody as [_ Hbody].
    change (String c body ++ "```" ++ post)
      with (String c (body ++ "```" ++ post)).
    by rewrite rpartition_cons, (IH Hbody).
Qed.

Lemma no_fence (s : string) :
  no_backtick s = true -> Str.contains "```" s = false.
Proof.
  intros H. unfold Str.contains.
  rewrite <- (append_empty_r s).
  change "```" with (String backtick "``").
  by rewrite (partition_skip _ _ _ H).
Qed.

(** X26. Around a fenced block with any language tag,
    [parse_markdown_backticks] returns the stripped content of the block:
    the text before the opening fence, the tag up to the end of its line,
    the closing fence and the text after it are dropped.  (The tag has no
    newline, and no part has a backtick of its own.) *)
Theorem parse_markdown_backticks_fenced (before tag body after : string) :
  no_backtick before = true -> no_backtick tag = true ->
  no_backtick body = true -> no_backtick after = true ->
  lacks (ascii_of_nat 10) tag = true ->
  parse_markdown_backticks
    (before ++ "```" ++ tag ++ nl ++ body ++ "```" ++ after)
  = Ok (Str.strip body).
Proof.
  intros Hbefore Htag Hbody Hafter Hline. unfold parse_markdown_backticks.
  rewrite contains_middle. cbn [negb].
  unfold split_once.
  change "```" with (String backtick "``") at 1.
  rewrite (partition_skip _ _ _ Hbefore).
  change (String backtick "``") with "```".
  rewrite (partition_prefix "```") by apply startswith_append.
  rewrite drop_append. cbn [item_last last rbind].
  unfold nl at 1. rewrite (partition_skip_char _ _ _ _ Hline).
  change (String (ascii_of_nat 10) EmptyString) with nl.
  rewrite (partition_prefix nl) by apply startswith_append.
  rewrite drop_append. cbn [item_last last rbind].
  unfold Str.rsplit1. rewrite (rpartition_fence _ _ Hbody Hafter).
  reflexivity.
Qed.

(** X27. [parse_markdown_backticks] never raises, and a text without any
    backtick comes back stripped of the blanks around it. *)
Theorem parse_markdown_backticks_total (s : string) :
  exists r,
    parse_markdown_backticks s = Ok r
    /\ (no_backtick s = true -> r = Str.strip s).
Proof.
  unfold parse_markdown_backticks.
  destruct (Str.contains "```" s) eqn:E; cbn [negb].
  - assert (Hlast : forall sep t, exists x, item_last (split_once sep t) = Ok x).
    { intros sep t. unfold split_once.
      destruct (Str.partition sep t) as [[a b]|]; cbn; eauto. }
    destruct (Hlast "```" s) as (x & ->). cbn [rbind].
    destruct (Hlast nl x) as (y & ->). cbn [rbind].
    unfold Str.rsplit1.
    destruct (Str.rpartition "```" y) as [[a b]|]; cbn [item0 rbind];
      (eexists; split; [reflexivity|]); intros H;
      by rewrite (no_fence s H) in E.
  - eauto.
Qed.

End Backticks.

(** * The external calls of one request *)

Section Budget.

Context (py_repr : pyval -> string) (json_loads : string -> pyval + string)
        (validation_message : pyval -> string) (environ : gmap string string)
        (net : list Event -> result pyval)
        (tz_now : list Event -> pyval -> result time_fields)
        (utc_now : list Event -> string).

#[local] Abbreviation execute_command :=
  (execute_command py_repr validation_message net tz_now utc_now).
#[local] Abbreviation chat_prompt := (chat_prompt py_repr environ net).
#[local] Abbreviation structured_output_prompt :=
  (structured_output_prompt py_repr json_loads environ net).
#[local] Abbreviation process_request :=
  (process_request py_repr json_loads validation_message environ net tz_now
     utc_now).
#[local] Abbreviation plan_commands :=
  (plan_commands py_repr json_loads environ net).
#[local] Abbreviation after_dispatch :=
  (after_dispatch py_repr json_loads environ net).
#[local] Abbreviation draft := (draft py_repr json_loads environ net).
#[local] Abbreviation finalize := (finalize py_repr environ net).

Lemma model_requests_app (evs1 evs2 : list Event) :
  model_requests (evs1 ++ evs2)
  = (model_requests evs1 + model_requests evs2)%nat.
Proof. unfold model_requests. by rewrite List.filter_app, length_app. Qed.

Lemma adds_ret {A} (a : A) : adds 0 (ret a).
Proof. intros w. exists []. cbn. by rewrite app_nil_r. Qed.

Lemma adds_lift {A} (r : result A) : adds 0 (lift r).
Proof. intros w. exists []. cbn. by rewrite app_nil_r. Qed.

Lemma adds_weaken {A} (m n : nat) (c : M A) : m <= n -> adds m c -> adds n c.
Proof.
  intros Hmn Hc w. destruct (Hc w) as (evs & Hlog & Hm).
  exists evs. split; [exact Hlog|lia].
Qed.

Lemma adds_bind {A B} (m n : nat) (c : M A) (k : A -> M B) :
  adds m c -> (forall a, adds n (k a)) -> adds (m + n) (bind c k).
Proof.
  intros Hc Hk w. destruct (Hc w) as (evs1 & Hlog1 & Hm). unfold bind.
  destruct (c w) as [[a|e] w1]; cbn [snd] in Hlog1; subst w1.
  - destruct (Hk a (w ++ evs1)%list) as (evs2 & Hlog2 & Hn).
    exists (evs1 ++ evs2)%list. rewrite Hlog2, <- app_assoc.
    split; [reflexivity|]. rewrite model_requests_app. lia.
  - exists evs1. split; [reflexivity|lia].
Qed.

Lemma adds_try_except {A} (m n : nat) (c : M A) (h : exn -> M A) :
  adds m c -> (forall e, adds n (h e)) -> adds (m + n) (try_except c h).
Proof.
  intros Hc Hh w. destruct (Hc w) as (evs1 & Hlog1 & Hm). unfold try_except.
  destruct (c w) as [[a|e] w1]; cbn [snd] in Hlog1; subst w1.
  - exists evs1. split; [reflexivity|lia].
  - destruct (Hh e (w ++ evs1)%list) as (evs2 & Hlog2 & Hn).
    exists (evs1 ++ evs2)%list. rewrite Hlog2, <- app_assoc.
    split; [reflexivity|]. rewrite model_requests_app. lia.
Qed.

Lemma adds_execute_command (self : ToolManager) (command params : pyval) :
  adds 0 (execute_command self command params).
Proof.
  intros w.
  destruct (execute_command_footprint py_repr validation_message net tz_now
              utc_now self command params w) as (evs & Hlog & Hfp).
  exists evs. split; [exact Hlog|].
  destruct (footprint_counts _ Hfp) as (Hm & _). unfold model_requests.
  clear - Hm. induction evs as [|ev evs IH]; [reflexivity|].
  cbn in Hm |- *. apply andb_true_iff in Hm as [Hev Hm].
  apply negb_true_iff in Hev. rewrite Hev. by apply IH.
Qed.

Lemma adds_gather_commands (self : ToolManager)
    (commands : list (pyval * pyval)) :
  adds 0 (gather_commands (execute_command self) commands).
Proof.
  unfold gather_commands. induction commands as [|cp commands IH].
  - apply adds_ret.
  - cbn [mapM]. apply (adds_bind 0 0); [apply adds_execute_command|].
    intros r. apply (adds_bind 0 0); [exact IH|]. intros rs. apply adds_ret.
Qed.

Lemma adds_search_each (self : ToolManager) (queries info : list pyval) :
  adds 0 (search_each (execute_command self) queries info).
Proof.
  revert info. induction queries as [|query queries IH]; intros info.
  - apply adds_ret.
  - cbn [search_each]. apply (adds_bind 0 0); [apply adds_execute_command|].
    intros r. apply IH.
Qed.

Lemma adds_enrich (self : ToolManager) (analysis : pyval) :
  adds 0 (enrich (execute_command self) analysis).
Proof.
  unfold enrich. apply (adds_bind 0 0); [apply adds_lift|].
  intros needs_search. destruct (Py.truthy needs_search); [|apply adds_ret].
  apply (adds_bind 0 0); [apply adds_lift|]. intros v.
  apply (adds_bind 0 0); [apply adds_lift|]. intros queries.
  apply adds_search_each.
Qed.

(** What [chat_prompt] adds to the log: nothing, with the exception of
    the configuration, or exactly one request to the model. *)
Lemma chat_prompt_log (user_prompt : prompt) (system_prompt : option string)
    (temperature : Q) (max_tokens : option Z)
    (provider : LLMProvider + string) (w : list Event) :
  (exists e, chat_prompt user_prompt system_prompt temperature max_tokens
               provider w = (Raise e, w))
  \/ (exists ev, is_model_request ev = true
        /\ snd (chat_prompt user_prompt system_prompt temperature max_tokens
                  provider w) = (w ++ [ev])%list).
Proof.
  unfold chat_prompt, bind at 1, lift at 1.
  destruct (LLMConfig.init environ None None provider) as [config|e];
    [right|left; by exists e].
  eexists (ModelRequest config _ user_prompt temperature _).
  split; [reflexivity|].
  unfold try_except, bind, emit, lift.
  destruct (net _) as [body|e]; cbn [snd].
  - destruct (extract_reply _ _ _) as [v|e]; [reflexivity|].
    destruct (caught [RequestException] e); [reflexivity|].
    by destruct (caught [KeyError; IndexError] e).
  - destruct (caught [RequestException] e); [reflexivity|].
    by destruct (caught [KeyError; IndexError] e).
Qed.

Lemma adds_chat_prompt (user_prompt : prompt) (system_prompt : option string)
    (temperature : Q) (max_tokens : option Z)
    (provider : LLMProvider + string) :
  adds 1 (chat_prompt user_prompt system_prompt temperature max_tokens
            provider).
Proof.
  intros w.
  destruct (chat_prompt_log user_prompt system_prompt temperature max_tokens
              provider w) as [[e He] | (ev & Hev & Hlog)].
  - exists []. rewrite He. cbn. by rewrite app_nil_r; split; [|lia].
  - exists [ev]. split; [exact Hlog|]. unfold model_requests. cbn.
    rewrite Hev. reflexivity.
Qed.

Lemma adds_structured_output_prompt (user_prompt : prompt)
    (response_format : schema) :
  adds 1 (structured_output_prompt user_prompt response_format).
Proof.
  unfold structured_output_prompt.
  apply (adds_bind 1 0); [apply adds_chat_prompt|].
  intros response. destruct response; apply adds_lift.
Qed.

Lemma adds_after_dispatch (self : ToolManager) (user_input : string)
    (commands : list (pyval * pyval)) (tool_responses : list ToolResponse) :
  adds 2 (after_dispatch (execute_command self) user_input commands
            tool_responses).
Proof.
  unfold after_dispatch.
  destruct (collect_errors tool_responses).
  - apply (adds_bind 1 1).
    + unfold draft. apply (adds_bind 1 0);
        [apply adds_structured_output_prompt|].
      intros replies. destruct replies; [apply adds_lift|apply adds_ret].
    + intros analysis. apply (adds_bind 0 1); [apply adds_enrich|].
      intros info. unfold finalize.
      apply (adds_bind 0 1); [apply adds_lift|]. intros draft_answer.
      apply (adds_bind 0 1); [apply adds_lift|]. intros suggestions.
      apply adds_chat_prompt.
  - apply (adds_weaken 0 2); [lia|].
    apply (adds_bind 0 0); [apply adds_lift|]. intros report. apply adds_ret.
Qed.

(** X28. One user request only extends the log of external calls.  It
    sends at most three requests to the model (the plan, the draft and the
    final answer), and whatever it calls, the first call is a request to
    the model: no tool runs and no service is asked before the plan has
    been requested. *)
Theorem process_request_call_budget (self : LLMAgent) (user_input : string)
    (w : list Event) :
  exists evs,
    snd (process_request self user_input w) = (w ++ evs)%list
    /\ model_requests evs <= 3
    /\ model_first evs.
Proof.
  pose proof (fun commands =>
    adds_bind 0 2 _ _ (adds_gather_commands (tool_manager self) commands)
      (adds_after_dispatch (tool_manager self) user_input commands)) as Hrest.
  unfold process_request, plan_commands, structured_output_prompt.
  set (plan := chat_prompt _ _ _ _ _).
  destruct (chat_prompt_log (StructuredPrompt PlanSchema
                               (PlanningPrompt user_input))
              (Some structured_system_prompt) (1 # 10) None (inl MISTRAL) w)
    as [[e He] | (ev & Hev & Hlog)]; fold plan in He || fold plan in Hlog.
  - exists []. unfold bind at 1, bind at 1, bind at 1. rewrite He.
    cbn. by rewrite app_nil_r; repeat split; try lia.
  - unfold bind at 1, bind at 1, bind at 1.
    destruct (plan w) as [[response|e] w1]; cbn [snd] in Hlog; subst w1.
    2:{ exists [ev]. split; [reflexivity|]. unfold model_requests. cbn.
        rewrite Hev. cbn. split; [lia|reflexivity]. }
    assert (Hparse : exists r, (match response with
                                | PStr reply => lift (parse_reply json_loads reply)
                                | v => lift (Py.attribute_error v "strip")
                                end) (w ++ [ev])%list = (r, (w ++ [ev])%list)).
    { destruct response; eexists; reflexivity. }
    destruct Hparse as (r & ->).
    destruct r as [reply|e].
    2:{ exists [ev]. split; [reflexivity|]. unfold model_requests. cbn.
        rewrite Hev. cbn. split; [lia|reflexivity]. }
    unfold lift.
    destruct (rmap command_of reply) as [commands|e].
    2:{ exists [ev]. split; [reflexivity|]. unfold model_requests. cbn.
        rewrite Hev. cbn. split; [lia|reflexivity]. }
    destruct (Hrest commands (w ++ [ev])%list) as (evs & Hevs & Hm).
    exists (ev :: evs). split.
    { transitivity ((w ++ [ev]) ++ evs)%list;
        [exact Hevs|by rewrite <- app_assoc]. }
    split; [|exact Hev]. unfold model_requests in *. cbn. rewrite Hev.
    cbn. lia.
Qed.

End Budget.

(** * The further statements on the sample worlds *)

Section MoreSampleRuns.

(** X2 on the sample. *)
Lemma help_lists_allowed_commands_witness :
  ToolManager_init Sample.py_repr Sample.net []
  = (Ok Sample.manager, [HttpGet IpApi PNone])
  /\ (exists texts : gmap string pyval,
        Sample.execute (PStr "help") (PDict ∅) []
        = (Ok {| success := true;
                 data := {[ "available_commands" := PDict texts ]};
                 error := None |}, [])
        /\ (forall name, is_Some (texts !! name) <-> name ∈ ALLOWED_COMMANDS)).
Proof.
  split; [reflexivity|].
  exact (help_lists_allowed_commands Sample.py_repr Sample.validation_message
           Sample.net Sample.tz_now Sample.utc_now [] [HttpGet IpApi PNone]
           Sample.manager ∅ [] eq_refl).
Defined.

(** A second construction in the same process sends nothing and builds
    the same manager. *)
Example second_construction :
  ToolManager_init Sample.py_repr Sample.net
    [HttpGet IpApi PNone; ToolCall TimeTool PNone]
  = (Ok Sample.manager, [HttpGet IpApi PNone; ToolCall TimeTool PNone]).
Proof. reflexivity. Qed.

(** X3 on the sample: [weather] without parameters asks for the fallback
    place. *)
Lemma defaults_reach_the_tools_witness :
  ToolManager_init Sample.py_repr Sample.net []
  = (Ok Sample.manager, [HttpGet IpApi PNone])
  /\ snd (Sample.execute (PStr "weather") (PDict ∅) [])
     = [ToolCall WeatherTool (PStr "London, UK");
        HttpGet OpenWeatherMap (PStr "London, UK")].
Proof.
  split; [reflexivity|].
  destruct (defaults_reach_the_tools Sample.py_repr Sample.validation_message
              Sample.net Sample.tz_now Sample.utc_now [] [HttpGet IpApi PNone]
              Sample.manager ∅ [] eq_refl)
    as (city & country & timezone & Hc & Hn & _ & _ & _ & Hweather & _).
  unfold Sample.execute. rewrite (Hweather eq_refl).
  injection Hc as <-. injection Hn as <-. reflexivity.
Defined.

(** X4 with the network down. *)
Lemma news_failure_is_reported_witness :
  let w' := [ToolCall NewsTool (PStr "technology");
             HttpGet NewsApi (PStr "technology")] in
  let r := {| success := false; data := ∅;
              error := Some "Connection refused" |} in
  Worlds.net_down w' = Raise (Exn RequestException "Connection refused")
  /\ execute_command Sample.py_repr Sample.validation_message
       Worlds.net_down Sample.tz_now Sample.utc_now Sample.manager
       (PStr "news") (PDict ∅) []
     = (Ok r, w')
  /\ after_dispatch Sample.py_repr Sample.json_loads Sample.environ
       Worlds.net_down Sample.execute "news?" [(PStr "news", PDict ∅)] [r] w'
     = (Ok (PStr "Error(s) occurred: Connection refused"), w').
Proof.
  intros w' r.
  pose proof (news_failure_is_reported Sample.py_repr Sample.json_loads
                Sample.validation_message Sample.environ Worlds.net_down
                Sample.tz_now Sample.utc_now Sample.manager ∅ []
                (Exn RequestException "Connection refused") eq_refl)
    as [Hrun Hreport].
  split; [reflexivity|]. split; [exact Hrun|].
  exact (Hreport Sample.execute "news?" [(PStr "news", PDict ∅)] w').
Defined.

(** X5 on the sample: a number as [params]. *)
Lemma uniterable_params_fail_witness :
  let e := Exn TypeError "'int' object is not iterable" in
  "weather" ∈ ALLOWED_COMMANDS
  /\ Py.truthy (PInt 5) = true
  /\ Py.iter (PInt 5) = Raise e
  /\ Sample.execute (PStr "weather") (PInt 5) []
     = (Ok {| success := false; data := ∅; error := Some (exn_str e) |}, [])
  /\ exn_cls e = TypeError.
Proof.
  intros e.
  assert (Hin : "weather" ∈ ALLOWED_COMMANDS) by (by apply allowed_spec).
  split; [exact Hin|]. split; [reflexivity|]. split; [reflexivity|].
  exact (uniterable_params_fail Sample.py_repr Sample.validation_message
           Sample.net Sample.tz_now Sample.utc_now Sample.manager
           "weather" (PInt 5) [] e Hin eq_refl eq_refl).
Defined.

(** X8 with an empty environment. *)
Lemma no_key_no_request_witness :
  let e := Exn ValueError
             "API key not provided and LLM_API_KEY not found in environment" in
  missing ((∅ : gmap string string) !! "LLM_API_KEY")
  /\ process_request Sample.py_repr Sample.json_loads
       Sample.validation_message ∅ Sample.net Sample.tz_now Sample.utc_now
       Sample.agent "Do I need a coat?" []
     = (Raise e, []).
Proof.
  intros e. split; [left; reflexivity|].
  exact (proj2 (proj2
    (no_key_no_request Sample.py_repr Sample.json_loads
       Sample.validation_message ∅ Sample.net Sample.tz_now Sample.utc_now
       Sample.agent "Do I need a coat?" (PlanningPrompt "Do I need a coat?")
       None 0.7%Q None MISTRAL PlanSchema [] (or_introl eq_refl)))).
Defined.

(** X9 on the sample: a system prompt and a token limit are sent with the
    one request, and the reply of the model is returned. *)
Lemma chat_prompt_outcomes_witness :
  let config := {| LLMConfig.provider := MISTRAL; LLMConfig.api_url := None;
                   LLMConfig.api_key := Some "secret";
                   LLMConfig.model := None |} in
  LLMConfig.init Sample.environ None None (inl MISTRAL) = Ok config
  /\ chat_prompt Sample.py_repr Sample.environ Sample.net
       (PlanningPrompt "hi") (Some "Be brief.") 0.7%Q (Some 100%Z)
       (inl MISTRAL) []
     = (Ok (PStr "Mild; take a coat."),
        [ModelRequest config (Some "Be brief.") (PlanningPrompt "hi") 0.7%Q
           (Some 100%Z)]).
Proof.
  intros config. split; [reflexivity|].
  destruct (chat_prompt_outcomes Sample.py_repr Sample.environ Sample.net
              (PlanningPrompt "hi") (Some "Be brief.") 0.7%Q (Some 100%Z)
              (inl MISTRAL) config [] eq_refl)
    as (sp & mt & Hsp & _ & Hmt & _ & _ & _ & Hok).
  rewrite (Hsp "Be brief." eq_refl ltac:(discriminate)) in Hok.
  rewrite (Hmt 100%Z eq_refl ltac:(discriminate)) in Hok.
  exact (Hok _ _ eq_refl eq_refl).
Defined.

(** X11 on a body without [choices]. *)
Lemma custom_provider_falls_back_witness :
  let d : gmap string pyval := {[ "response" := PStr "Mild." ]} in
  (d !! "choices" = None \/ d !! "choices" = Some (PList []))
  /\ extract_reply Sample.py_repr CUSTOM (PDict d) = Ok (PStr "Mild.").
Proof.
  intros d. split; [left; reflexivity|].
  exact (custom_provider_falls_back Sample.py_repr d (or_introl eq_refl)).
Defined.

(** X12 on a reply that is no JSON. *)
Lemma parse_failure_carries_response_witness :
  let msg := "Expecting value: line 1 column 1 (char 0)" in
  remove_markdown (Str.strip "[oops]") = Ok "[oops]"
  /\ Str.startswith "[" "[oops]" = true
  /\ Sample.json_loads (cut_after_last "]" "[oops]") = inr msg
  /\ exists e,
       parse_reply Sample.json_loads "[oops]" = Raise e
       /\ exn_cls e = ValueError
       /\ Str.contains msg (exn_str e) = true
       /\ Str.contains "[oops]" (exn_str e) = true.
Proof.
  intros msg. split; [reflexivity|]. split; [reflexivity|].
  split; [reflexivity|].
  exact (parse_failure_carries_response Sample.json_loads "[oops]" "[oops]"
           msg eq_refl (or_introl (conj eq_refl eq_refl))).
Defined.

(** X18 on an item whose second tag carries the description. *)
Lemma og_description_wins_witness :
  Worlds.item !! "pagemap" = Some (PDict Worlds.pagemap)
  /\ search_item (PDict Worlds.item)
     = Ok (PDict {[ "title" := PStr "Coat shop";
                    "description" := PStr "Warm coats for winter";
                    "url" := PStr "https://example.org/coats" ]}).
Proof.
  split; [reflexivity|].
  exact (proj1
    (og_description_wins Worlds.item Worlds.pagemap
       [{[ "og:title" := PStr "Coats" ]};
        {[ "og:description" := PStr "Warm coats for winter" ]}]
       eq_refl eq_refl)
    [{[ "og:title" := PStr "Coats" ]}]
    {[ "og:description" := PStr "Warm coats for winter" ]} []
    (PStr "Warm coats for winter") eq_refl
    ltac:(repeat constructor) eq_refl).
Defined.

(** X20 with a model whose plan is one empty object. *)
Lemma incomplete_plan_item_raises_witness :
  let plan :=
    structured_output_prompt Sample.py_repr Worlds.json_loads Sample.environ
      Worlds.incomplete_plan (PlanningPrompt "hi") PlanSchema [] in
  plan = (Ok [PDict ∅], snd plan)
  /\ process_request Sample.py_repr Worlds.json_loads
       Sample.validation_message Sample.environ Worlds.incomplete_plan
       Sample.tz_now Sample.utc_now Sample.agent "hi" []
     = (Raise (Exn KeyError "'command'"), snd plan).
Proof.
  intros plan. split; [reflexivity|].
  exact (incomplete_plan_item_raises Sample.py_repr Worlds.json_loads
           Sample.validation_message Sample.environ Worlds.incomplete_plan
           Sample.tz_now Sample.utc_now Sample.agent "hi" [] (snd plan)
           [] ∅ [] eq_refl ltac:(constructor) (or_introl eq_refl)).
Defined.

(** X21 on three lines of input, the second of which is the exit word. *)
Lemma main_stops_at_exit_witness :
  Forall (fun l => is_exit l = false) ["hello"]
  /\ is_exit "Exit" = true
  /\ exists blocks w',
       main Sample.py_repr Sample.json_loads Sample.validation_message
         Sample.environ Sample.net Sample.tz_now Sample.utc_now
         ["hello"; "Exit"; "more"] []
       = (Ok (Exited, (banner :: concat blocks ++ [prompt_text])%list), w')
       /\ length blocks = 1%nat.
Proof.
  split; [repeat constructor|].
  split; [reflexivity|].
  destruct (main_stops_at_exit Sample.py_repr Sample.json_loads
              Sample.validation_message Sample.environ Sample.net
              Sample.tz_now Sample.utc_now ["hello"] "Exit" ["more"] []
              ltac:(repeat constructor) eq_refl)
    as (tm & w0 & blocks & w' & _ & Hrun & _ & Hblocks).
  exists blocks, w'. split; [exact Hrun|].
  by rewrite <- (Forall2_length _ _ _ Hblocks).
Defined.

(** What the program writes on these three lines: the plan of the sample
    names the command [fly], so the request ends with the report. *)
Example main_output :
  fst (main Sample.py_repr Sample.json_loads Sample.validation_message
         Sample.environ Sample.net Sample.tz_now Sample.utc_now
         ["hello"; "Exit"; "more"] [])
  = Ok (Exited,
        [banner;
         nl +:+ "You: ";
         nl +:+ "Initial tools:";
         "Using weather with {...}";
         "Using fly with {...}";
         nl +:+ "Assistant: Error(s) occurred: Command fly not allowed. "
         +:+ "Allowed commands: ['search', 'news', 'weather', 'time', 'help']";
         nl +:+ "You: "]).
Proof. reflexivity. Qed.

(** X23 on the sample limiter, entered at time 3. *)
Lemma wait_keeps_the_interval_witness :
  RateLimiter.on_time Sample.punctual
  /\ (let r := RateLimiter.wait Sample.punctual Sample.limiter 3%Q in
      (RateLimiter.last_request_time Sample.limiter
       + RateLimiter.interval Sample.limiter
       <= RateLimiter.last_request_time (fst r))%Q
      /\ (3 <= RateLimiter.last_request_time (fst r))%Q
      /\ (RateLimiter.last_request_time (fst r) <= snd r)%Q
      /\ RateLimiter.interval (fst r) = RateLimiter.interval Sample.limiter
      /\ RateLimiter.requests_per_minute (fst r)
         = RateLimiter.requests_per_minute Sample.limiter).
Proof.
  assert (Hon : RateLimiter.on_time Sample.punctual)
    by (repeat split; cbn; lra).
  split; [exact Hon|].
  exact (wait_keeps_the_interval Sample.punctual Sample.limiter 3%Q Hon).
Defined.

(** X24 on the sample limiter, entered at time 3: the call returns at
    time 6. *)
Lemma punctual_wait_witness :
  (RateLimiter.oversleep Sample.punctual == 0)%Q
  /\ (RateLimiter.stamp_delay Sample.punctual == 0)%Q
  /\ (RateLimiter.return_delay Sample.punctual == 0)%Q
  /\ (snd (RateLimiter.wait Sample.punctual Sample.limiter 3%Q) == 6)%Q.
Proof.
  assert (H0 : (0 == 0)%Q) by reflexivity.
  split; [exact H0|]. split; [exact H0|]. split; [exact H0|].
  destruct (punctual_wait Sample.punctual Sample.limiter 3%Q H0 H0 H0)
    as (_ & Hdue & _).
  rewrite Hdue; reflexivity.
Defined.


(** X26 on a fenced Python block inside a sentence. *)
Lemma parse_markdown_backticks_fenced_witness :
  no_backtick "Here: " = true /\ no_backtick "python" = true
  /\ no_backtick (nl ++ "print(1)" ++ nl) = true
  /\ no_backtick " done" = true
  /\ lacks (ascii_of_nat 10) "python" = true
  /\ parse_markdown_backticks
       ("Here: " ++ "```" ++ "python" ++ nl ++ (nl ++ "print(1)" ++ nl)
        ++ "```" ++ " done")
     = Ok (Str.strip (nl ++ "print(1)" ++ nl)).
Proof.
  repeat (split; [reflexivity|]).
  exact (parse_markdown_backticks_fenced "Here: " "python"
           (nl ++ "print(1)" ++ nl) " done"
           eq_refl eq_refl eq_refl eq_refl eq_refl).
Defined.

End MoreSampleRuns.
